(** * Validation and cleaning of the circulation-permit dataset

    A shallow embedding of the notebook
    [proyecto_datos_circulacion/02_data_validation_cleaning.ipynb]: the
    inspection cell, the cleaning cell and the verification / persistence
    cell, together with the part of pandas and of Python's [str] that they
    call.

    Modelling conventions.
    - Numeric cells are exact rationals ([Qc], canonical so that equality is
      Leibniz equality): a number is the same cell whether pandas holds it
      as int64 or as float64, and the rounding of float64 is not modelled.
      int64 and float64 hold a whole number of magnitude at most 2^52
      exactly, and so the half of the sum of two of them; on such columns
      ([exact_days]) the median and the cast of an integer column to
      float64 (line 103, when the median is not a whole number) lose
      nothing, and the statements that compare the durations before and
      after cleaning are made for them.  The missing value is the single
      cell [NaN], as in pandas.
    - Text is modelled on its ASCII fragment: [string] is a sequence of
      bytes, and the case and whitespace tables are those of ASCII, where
      they are Python's.  Outside ASCII Python's tables differ (and
      [capitalize] can change the length of a text), so the statements
      that depend on the tables are made for ASCII text ([Py.isascii]).
    - A [DataFrame] is column-major, a row index plus an ordered association
      list of named columns, as pandas stores it.  Frames read from a CSV
      file are rectangular ([rectangular]) and each column holds either
      numbers or text.
    - [df[col]] is a view of the frame's column (pandas before
      Copy-on-Write), so [df[col].fillna(v, inplace=True)] writes through to
      [df]; this is [fillna_inplace] below.
    - The notebook's global [df], the console and the file system are the
      state of a small state-and-exception monad; an exception leaves the
      state as it was when raised, as in a notebook kernel.
    - The file system refuses a write where a file or a directory is in
      the way, where the directory or the file is read-only, and when the
      device has no room left; in the last case the file that was being
      written is left cut short. *)

From Stdlib Require Import List String Ascii Bool Arith PeanoNat NArith ZArith.
From Stdlib Require Import QArith Qcanon Lia Sorted Permutation.
Import ListNotations.

Local Close Scope Q_scope.
Local Open Scope nat_scope.
Local Open Scope string_scope.
Local Open Scope list_scope.

(* ------------------------------------------------------------------ *)
(** ** Python [str] methods (ASCII fragment) *)

Module Py.

(** [str.isspace] on one ASCII character: TAB, LF, VT, FF, CR, the four
    separators 0x1c-0x1f, and the space.  Python knows further whitespace
    outside ASCII (NBSP, NEL, EM SPACE, ...), which no ASCII text
    holds. *)
Definition isspace (c : ascii) : bool :=
  let n := nat_of_ascii c in
  (Nat.leb 9 n && Nat.leb n 13) || (Nat.leb 28 n && Nat.leb n 32).

Definition islower (c : ascii) : bool :=
  let n := nat_of_ascii c in Nat.leb 97 n && Nat.leb n 122.

Definition isupper (c : ascii) : bool :=
  let n := nat_of_ascii c in Nat.leb 65 n && Nat.leb n 90.

(** The case tables of ASCII: on a character below 128 they are what
    Python's [upper], [title] and [lower] give.  A byte from 128 on is left
    as it is, which says nothing about Python's text outside ASCII. *)
Definition upper_char (c : ascii) : ascii :=
  if islower c then ascii_of_nat (nat_of_ascii c - 32) else c.

Definition lower_char (c : ascii) : ascii :=
  if isupper c then ascii_of_nat (nat_of_ascii c + 32) else c.

Fixpoint lower (s : string) : string :=
  match s with
  | EmptyString => EmptyString
  | String c r => String (lower_char c) (lower r)
  end.

Fixpoint lstrip (s : string) : string :=
  match s with
  | EmptyString => EmptyString
  | String c r => if isspace c then lstrip r else s
  end.

(** The characters of [s] backwards. *)
Fixpoint reversed (s : string) : string :=
  match s with
  | EmptyString => EmptyString
  | String c r => reversed r ++ String c EmptyString
  end.

Definition rstrip (s : string) : string := reversed (lstrip (reversed s)).

(** [s.strip()] with no argument: whitespace removed at both ends. *)
Definition strip (s : string) : string := rstrip (lstrip s).

(** [s.capitalize()]: first character upper-cased, all the others
    lower-cased. *)
Definition capitalize (s : string) : string :=
  match s with
  | EmptyString => EmptyString
  | String c r => String (upper_char c) (lower r)
  end.

(** [s.isascii()]: every character is below 128. *)
Fixpoint isascii (s : string) : bool :=
  match s with
  | EmptyString => true
  | String c r => Nat.ltb (nat_of_ascii c) 128 && isascii r
  end.

End Py.

(* ------------------------------------------------------------------ *)
(** ** Numbers *)

Definition Qc_eqb (a b : Qc) : bool := Qeq_bool a b.
Definition Qc_leb (a b : Qc) : bool := Qle_bool a b.
Definition Qc_ltb (a b : Qc) : bool := negb (Qle_bool b a).

(** An integer literal. *)
Definition int (z : Z) : Qc := Q2Qc (inject_Z z).

(* ------------------------------------------------------------------ *)
(** ** Insertion sort, the order of the result of [np.sort] *)

Section Sort.
Variable A : Type.
Variable leb : A -> A -> bool.

Fixpoint insert (x : A) (l : list A) : list A :=
  match l with
  | [] => [x]
  | y :: t => if leb x y then x :: l else y :: insert x t
  end.

Definition sort (l : list A) : list A := fold_right insert [] l.
End Sort.

Arguments insert {A} leb x l.
Arguments sort {A} leb l.

(* ------------------------------------------------------------------ *)
(** ** Exceptions *)

Inductive exn : Type :=
| KeyError
| AttributeError
| TypeError
| OSError.

Inductive result (A : Type) : Type :=
| Ok (a : A)
| Raise (e : exn).

Arguments Ok {A} a.
Arguments Raise {A} e.

(* ------------------------------------------------------------------ *)
(** ** The part of pandas the notebook uses *)

Module Pd.

Inductive cell : Type :=
| NaN
| Num (q : Qc)
| Str (s : string).

Definition Series : Type := list cell.

Record DataFrame : Type := mkDataFrame {
  index : list nat;                 (* row labels *)
  data : list (string * Series)     (* the columns, in order *)
}.

Definition columns (d : DataFrame) : list string := map fst (data d).
Definition nrows (d : DataFrame) : nat := List.length (index d).
Definition ncols (d : DataFrame) : nat := List.length (data d).

(** [df.empty]: some axis has length 0. *)
Definition empty (d : DataFrame) : bool := Nat.eqb (nrows d) 0 || Nat.eqb (ncols d) 0.

(** Every column is as long as the index. *)
Definition rectangular (d : DataFrame) : Prop :=
  Forall (fun c => List.length (snd c) = nrows d) (data d).

Definition isna (c : cell) : bool :=
  match c with NaN => true | _ => false end.

Definition is_str (c : cell) : bool :=
  match c with Str _ => true | _ => false end.

Definition is_num (c : cell) : bool :=
  match c with Num _ => true | _ => false end.

Definition cell_eqb (a b : cell) : bool :=
  match a, b with
  | NaN, NaN => true
  | Num x, Num y => Qc_eqb x y
  | Str x, Str y => String.eqb x y
  | _, _ => false
  end.

Fixpoint row_eqb (r1 r2 : list cell) : bool :=
  match r1, r2 with
  | [], [] => true
  | a :: t1, b :: t2 => cell_eqb a b && row_eqb t1 t2
  | _, _ => false
  end.

(** *** Column access *)

Fixpoint lookup (name : string) (cols : list (string * Series))
  : option Series :=
  match cols with
  | [] => None
  | (n, s) :: t => if String.eqb n name then Some s else lookup name t
  end.

(** [df[name]] *)
Definition getitem (name : string) (d : DataFrame) : result Series :=
  match lookup name (data d) with
  | Some s => Ok s
  | None => Raise KeyError
  end.

Fixpoint replace (name : string) (s : Series) (cols : list (string * Series))
  : list (string * Series) :=
  match cols with
  | [] => [(name, s)]
  | (n, s0) :: t =>
      if String.eqb n name then (n, s) :: t else (n, s0) :: replace name s t
  end.

(** [df[name] = s]: an existing column is replaced where it stands, a new
    one is appended. *)
Definition setitem (name : string) (s : Series) (d : DataFrame) : DataFrame :=
  mkDataFrame (index d) (replace name s (data d)).

(** *** Boolean indexing *)

Fixpoint select {A : Type} (mask : list bool) (l : list A) : list A :=
  match mask, l with
  | b :: m, x :: t => if b then x :: select m t else select m t
  | _, _ => []
  end.

(** [df[mask]] *)
Definition select_rows (mask : list bool) (d : DataFrame) : DataFrame :=
  mkDataFrame (select mask (index d))
              (map (fun c => (fst c, select mask (snd c))) (data d)).

Definition count_true (m : list bool) : nat :=
  List.length (filter (fun b => b) m).

(** *** Rows *)

Fixpoint zip_cons (c : Series) (rows : list (list cell)) : list (list cell) :=
  match c, rows with
  | x :: c', r :: rows' => (x :: r) :: zip_cons c' rows'
  | _, _ => []
  end.

(** The rows of [n]-long columns: the transpose. *)
Fixpoint to_rows (n : nat) (cols : list Series) : list (list cell) :=
  match cols with
  | [] => repeat [] n
  | c :: cs => zip_cons c (to_rows n cs)
  end.

(** [df.values], row by row. *)
Definition values (d : DataFrame) : list (list cell) :=
  to_rows (nrows d) (map snd (data d)).

(** *** Duplicates *)

(** The mask of [duplicated(keep='first')]: a row is flagged when an equal
    row was seen before it; missing values compare equal. *)
Fixpoint duplicated_from (seen rows : list (list cell)) : list bool :=
  match rows with
  | [] => []
  | r :: rs => existsb (row_eqb r) seen :: duplicated_from (r :: seen) rs
  end.

(** [df.duplicated()] *)
Definition duplicated (d : DataFrame) : list bool :=
  if empty d then [] else duplicated_from [] (values d).

(** [df.drop_duplicates()]: the row labels of the survivors are kept. *)
Definition drop_duplicates (d : DataFrame) : DataFrame :=
  if empty d then d else select_rows (map negb (duplicated d)) d.

(** *** Missing values *)

(** [df.isnull().sum()] *)
Definition isnull_sum (d : DataFrame) : list (string * nat) :=
  map (fun c => (fst c, List.length (filter isna (snd c)))) (data d).

(** [s.fillna(v)] *)
Definition fillna (v : cell) (s : Series) : Series :=
  map (fun c => if isna c then v else c) s.

(** *** Median *)

Fixpoint numbers (s : Series) : list Qc :=
  match s with
  | [] => []
  | Num q :: t => q :: numbers t
  | _ :: t => numbers t
  end.

Definition middle (v : list Qc) : cell :=
  let n := List.length v in
  if Nat.eqb n 0 then NaN
  else if Nat.odd n then Num (nth (n / 2) v (int 0))
  else Num ((nth (n / 2 - 1) v (int 0) + nth (n / 2) v (int 0)) / int 2)%Qc.

(** [s.median()]: missing values are skipped, the result is [NaN] when
    nothing is left; text cannot be converted to numbers.  pandas computes
    in float64; the value below is the exact one, which float64 gives on
    whole numbers of magnitude at most 2^52 ([exact_days]). *)
Definition median (s : Series) : result cell :=
  if existsb is_str s then Raise TypeError
  else Ok (middle (sort Qc_leb (numbers s))).

(** *** Mode *)

Definition dropna (s : Series) : Series := filter (fun c => negb (isna c)) s.

Definition count (c : cell) (s : Series) : nat :=
  List.length (filter (cell_eqb c) s).

(** The distinct cells of [s], in order of first occurrence. *)
Fixpoint unique_from (seen : list cell) (s : Series) : list cell :=
  match s with
  | [] => []
  | c :: t =>
      if existsb (cell_eqb c) seen then unique_from seen t
      else c :: unique_from (c :: seen) t
  end.

Definition unique (s : Series) : list cell := unique_from [] s.

Definition max_count (s : Series) : nat :=
  fold_right Nat.max 0 (map (fun c => count c s) s).

(** The order in which [mode] returns the modes: numbers by value, text by
    code point, and, where a column mixes the two, every number before
    every text. *)
Definition cell_leb (a b : cell) : bool :=
  match a, b with
  | Num x, Num y => Qc_leb x y
  | Str x, Str y => String.leb x y
  | Num _, Str _ => true
  | _, _ => false
  end.

(** The sort at the end of [mode]: ascending; where the modes mix numbers
    and texts, which cannot be compared, pandas puts the numbers first, in
    ascending order, and then the texts, in ascending order. *)
Definition sort_modes (l : list cell) : list cell := sort cell_leb l.

(** The distinct values that occur most often, as the counting pass meets
    them. *)
Definition modes (v : Series) : list cell :=
  filter (fun c => Nat.eqb (count c v) (max_count v)) (unique v).

(** [s.mode()]: the most frequent non-missing values, sorted. *)
Definition mode (s : Series) : Series := sort_modes (modes (dropna s)).

(** [s[0]] on a series indexed [0, 1, ...]. *)
Definition getitem0 (s : Series) : result cell :=
  match s with
  | [] => Raise KeyError
  | c :: _ => Ok c
  end.

(** *** Comparison and masked assignment *)

(** [s < k]: element-wise, [False] on a missing value; ordering text
    against a number raises [TypeError]. *)
Definition lt (s : Series) (k : Qc) : result (list bool) :=
  if existsb is_str s then Raise TypeError
  else Ok (map (fun c => match c with Num q => Qc_ltb q k | _ => false end) s).

(** One entry of the mask of [s < 0]. *)
Definition negative (c : cell) : bool :=
  match c with Num q => Qc_ltb q (int 0) | _ => false end.

(** The column after [df.loc[mask, col] = v]. *)
Fixpoint mask_set (mask : list bool) (v : cell) (s : Series) : Series :=
  match mask, s with
  | b :: m, c :: t => (if b then v else c) :: mask_set m v t
  | _, _ => s
  end.

(** *** The [.str] accessor *)

(** [s.str] is refused on a numeric column, which is what a column without
    any text is unless it has no rows at all. *)
Definition str_accessor (s : Series) : result Series :=
  match s with
  | [] => Ok s
  | _ => if existsb is_str s then Ok s else Raise AttributeError
  end.

(** A [.str] method maps text and gives [NaN] on anything else. *)
Definition str_map (f : string -> string) (s : Series) : Series :=
  map (fun c => match c with Str x => Str (f x) | _ => NaN end) s.

Definition str_strip (s : Series) : result Series :=
  match str_accessor s with
  | Ok s' => Ok (str_map Py.strip s')
  | Raise e => Raise e
  end.

Definition str_capitalize (s : Series) : result Series :=
  match str_accessor s with
  | Ok s' => Ok (str_map Py.capitalize s')
  | Raise e => Raise e
  end.

(** *** Writing a CSV file *)

Record CsvFile : Type := mkCsvFile {
  header : list string;
  records : list (list cell)
}.

(** [df.to_csv(path, index=...)]: with [index=True] the row labels are
    written as a first, unnamed column. *)
Definition to_csv_content (with_index : bool) (d : DataFrame) : CsvFile :=
  if with_index then
    mkCsvFile (EmptyString :: columns d)
              (zip_cons (map (fun i => Num (int (Z.of_nat i))) (index d))
                        (values d))
  else mkCsvFile (columns d) (values d).

End Pd.

Import Pd.

(* ------------------------------------------------------------------ *)
(** ** The file system, as far as [os.makedirs] and [to_csv] touch it *)

Definition path : Type := list string.

Fixpoint path_eqb (p q : path) : bool :=
  match p, q with
  | [], [] => true
  | a :: p', b :: q' => String.eqb a b && path_eqb p' q'
  | _, _ => false
  end.

Record FileSystem : Type := mkFileSystem {
  dirs : list path;
  files : list (path * CsvFile);
  readonly : list path;   (* directories that take no new entry, files that
                             cannot be opened for writing *)
  room : option nat       (* the lines the device can still take in a file
                             opened for writing; [None]: no limit in sight *)
}.

Definition is_dir (p : path) (f : FileSystem) : bool :=
  match p with
  | [] => true                       (* the working directory *)
  | _ => existsb (path_eqb p) (dirs f)
  end.

Definition is_file (p : path) (f : FileSystem) : bool :=
  existsb (fun e => path_eqb p (fst e)) (files f).

Definition is_readonly (p : path) (f : FileSystem) : bool :=
  existsb (path_eqb p) (readonly f).

(** The non-empty prefixes of a path, shortest first. *)
Fixpoint prefixes (p : path) : list path :=
  match p with
  | [] => []
  | a :: t => [a] :: map (cons a) (prefixes t)
  end.

(** [os.mkdir(p)] as [os.makedirs(..., exist_ok=True)] uses it: a directory
    that is already there is accepted; a file in the way, a parent that is
    not a directory or that is read-only make it raise. *)
Definition mkdir_exist_ok (p : path) (f : FileSystem) : result FileSystem :=
  if is_dir p f then Ok f
  else if is_file p f || negb (is_dir (removelast p) f)
          || is_readonly (removelast p) f then Raise OSError
  else Ok (mkFileSystem (p :: dirs f) (files f) (readonly f) (room f)).

(** The directories are made one after the other, the outermost first; the
    ones made before a refusal stay. *)
Fixpoint mkdirs (ps : list path) (f : FileSystem) : result unit * FileSystem :=
  match ps with
  | [] => (Ok tt, f)
  | p :: rest =>
      match mkdir_exist_ok p f with
      | Ok f' => mkdirs rest f'
      | Raise e => (Raise e, f)
      end
  end.

(** [os.makedirs(p, exist_ok=True)] *)
Definition makedirs (p : path) (f : FileSystem) : result unit * FileSystem :=
  mkdirs (prefixes p) f.

(** The lines of a file: the header and one line for each record. *)
Definition lines (c : CsvFile) : nat := S (List.length (records c)).

(** The first [k] lines of a file; a line that is cut in the middle counts
    as not written. *)
Definition first_lines (k : nat) (c : CsvFile) : CsvFile :=
  match k with
  | 0 => mkCsvFile [] []
  | S j => mkCsvFile (header c) (firstn j (records c))
  end.

(** Opening [p] for writing and storing [c] there.  The path must not be a
    directory and must lie in one; an existing file must be writable, a new
    one needs a writable directory.  Opening empties the file; when the
    device fills up before the last line, the lines written so far stay and
    the call raises. *)
Definition write_file (p : path) (c : CsvFile) (f : FileSystem)
  : result unit * FileSystem :=
  if is_dir p f || negb (is_dir (removelast p) f) then (Raise OSError, f)
  else if is_readonly (if is_file p f then p else removelast p) f
  then (Raise OSError, f)
  else
    let others := filter (fun e => negb (path_eqb p (fst e))) (files f) in
    match room f with
    | None => (Ok tt, mkFileSystem (dirs f) ((p, c) :: others) (readonly f) None)
    | Some k =>
        if Nat.leb (lines c) k
        then (Ok tt, mkFileSystem (dirs f) ((p, c) :: others) (readonly f)
                       (Some (k - lines c)))
        else (Raise OSError,
              mkFileSystem (dirs f) ((p, first_lines k c) :: others)
                           (readonly f) (Some 0))
    end.

Definition read_file (p : path) (f : FileSystem) : option CsvFile :=
  match find (fun e => path_eqb p (fst e)) (files f) with
  | Some e => Some (snd e)
  | None => None
  end.

(* ------------------------------------------------------------------ *)
(** ** The notebook's state *)

(** What a cell writes to the console.  Tables and summaries are kept as
    the object that was printed, not as its rendering. *)
Inductive output : Type :=
| Text (s : string)
| TextNat (s : string) (n : nat)          (* an f-string with one count *)
| NullCounts (l : list (string * nat))    (* print(df.isnull().sum()) *)
| ValueCountsOf (s : Series)              (* print(s.value_counts()) *)
| InfoOf (d : DataFrame)                  (* df.info() *)
| DescribeOf (s : Series).                (* print(s.describe()) *)

(** The line feed that starts some of the messages. *)
Definition nl : string := String (ascii_of_nat 10) EmptyString.

Record State : Type := mkState {
  df : DataFrame;
  stdout : list output;
  fs : FileSystem
}.

Definition M (A : Type) : Type := State -> result A * State.

Definition ret {A : Type} (a : A) : M A := fun st => (Ok a, st).

Definition bind {A B : Type} (m : M A) (f : A -> M B) : M B :=
  fun st =>
    match m st with
    | (Ok a, st') => f a st'
    | (Raise e, st') => (Raise e, st')
    end.

Declare Scope nb_scope.
Delimit Scope nb_scope with nb.
Notation "x <- m ;; k" := (bind m (fun x => k))
  (at level 100, m at next level, right associativity) : nb_scope.
Notation "m ;; k" := (bind m (fun _ => k))
  (at level 100, right associativity) : nb_scope.
Local Open Scope nb_scope.

(** A pandas call that may raise. *)
Definition lift {A : Type} (r : result A) : M A := fun st => (r, st).

Definition get_df : M DataFrame := fun st => (Ok (df st), st).

Definition put_df (d : DataFrame) : M unit :=
  fun st => (Ok tt, mkState d (stdout st) (fs st)).

Definition print (o : output) : M unit :=
  fun st => (Ok tt, mkState (df st) (stdout st ++ [o]) (fs st)).

(** [df[name]] *)
Definition df_getitem (name : string) : M Series :=
  d <- get_df ;; lift (getitem name d).

(** [df[name] = s] *)
Definition df_setitem (name : string) (s : Series) : M unit :=
  d <- get_df ;; put_df (setitem name s d).

(** [df.drop_duplicates(inplace=True)] *)
Definition drop_duplicates_inplace : M unit :=
  d <- get_df ;; put_df (drop_duplicates d).

(** [df[name].fillna(v, inplace=True)]: the series is a view of the column,
    the fill lands in [df]. *)
Definition fillna_inplace (name : string) (v : cell) : M unit :=
  s <- df_getitem name ;;
  d <- get_df ;; put_df (setitem name (fillna v s) d).

(** [df.loc[mask, name] = v]; a column that does not exist yet is created,
    missing outside the mask.  Where [v] is not a whole number and the
    column is an int64 one, pandas first casts the column to float64; the
    cells outside the mask keep their value as long as float64 holds it
    ([exact_days]). *)
Definition loc_setitem (mask : list bool) (name : string) (v : cell) : M unit :=
  d <- get_df ;;
  let s := match lookup name (data d) with
           | Some s => s
           | None => repeat NaN (nrows d)
           end in
  put_df (setitem name (mask_set mask v s) d).

(** A call that works on the file system. *)
Definition on_fs (op : FileSystem -> result unit * FileSystem) : M unit :=
  fun st =>
    let (r, f) := op (fs st) in (r, mkState (df st) (stdout st) f).

(** [os.makedirs(p, exist_ok=True)] *)
Definition os_makedirs (p : path) : M unit := on_fs (makedirs p).

(** [df.to_csv(p, index=with_index)] *)
Definition df_to_csv (p : path) (with_index : bool) : M unit :=
  d <- get_df ;; on_fs (write_file p (to_csv_content with_index d)).

(* ------------------------------------------------------------------ *)
(** ** The cells *)

(** *** 1. Validation and detection of inconsistencies *)

Definition inspect_cell : M unit :=
  print (Text "--- Valores faltantes por columna ---") ;;
  d <- get_df ;;
  print (NullCounts (isnull_sum d)) ;;
  print (Text (nl ++ "--- Conteo de filas duplicadas ---")) ;;
  d <- get_df ;;
  print (TextNat "Filas duplicadas: " (count_true (duplicated d))) ;;
  print (Text (nl ++ "--- Valores no válidos en 'duracion_dias' ---")) ;;
  s <- df_getitem "duracion_dias" ;;
  mask <- lift (lt s (int 0)) ;;
  d <- get_df ;;
  let invalid_duracion := select_rows mask d in
  print (TextNat "Registros con duración negativa: " (nrows invalid_duracion)).

(** *** 2. Cleaning and standardisation *)

(** [# 1. Manejo de duplicados] *)
Definition handle_duplicates : M unit :=
  drop_duplicates_inplace ;;
  d <- get_df ;;
  print (TextNat "Registros después de eliminar duplicados: " (nrows d)).

(** [# 2. Estandarización de texto en 'tipo_vehiculo'] *)
Definition standardize_text : M unit :=
  s <- df_getitem "tipo_vehiculo" ;;
  stripped <- lift (str_strip s) ;;
  capitalized <- lift (str_capitalize stripped) ;;
  df_setitem "tipo_vehiculo" capitalized ;;
  print (Text (nl ++ "--- Conteo de valores después de estandarización ---")) ;;
  s <- df_getitem "tipo_vehiculo" ;;
  print (ValueCountsOf s).

(** [# 3. Manejo de valores nulos], [duracion_dias]: imputed with the
    median, which is returned for the correction below. *)
Definition impute_duracion : M cell :=
  s <- df_getitem "duracion_dias" ;;
  median_duracion <- lift (median s) ;;
  fillna_inplace "duracion_dias" median_duracion ;;
  ret median_duracion.

(** [# 3. Manejo de valores nulos], [zona_circulacion]: imputed with the
    most frequent value. *)
Definition impute_zona : M unit :=
  s <- df_getitem "zona_circulacion" ;;
  most_frequent_zona <- lift (getitem0 (mode s)) ;;
  fillna_inplace "zona_circulacion" most_frequent_zona.

(** [# 4. Corrección de valores no válidos]: negative durations are
    replaced by the median. *)
Definition correct_invalid (median_duracion : cell) : M unit :=
  s <- df_getitem "duracion_dias" ;;
  mask <- lift (lt s (int 0)) ;;
  loc_setitem mask "duracion_dias" median_duracion.

Definition clean_cell : M unit :=
  handle_duplicates ;;
  standardize_text ;;
  median_duracion <- impute_duracion ;;
  impute_zona ;;
  correct_invalid median_duracion.

(** *** 3. Final verification and summary *)

Definition processed_dir : path := ["data"; "processed"].
Definition cleaned_csv : path :=
  ["data"; "processed"; "permisos_circulacion_limpio.csv"].

Definition persist_cell : M unit :=
  print (Text "--- Información del DataFrame después de la limpieza ---") ;;
  d <- get_df ;;
  print (InfoOf d) ;;
  print (Text (nl ++ "--- Valores faltantes después de la limpieza ---")) ;;
  d <- get_df ;;
  print (NullCounts (isnull_sum d)) ;;
  print (Text (nl ++ "--- Estadísticas descriptivas de 'duracion_dias' limpiada ---")) ;;
  s <- df_getitem "duracion_dias" ;;
  print (DescribeOf s) ;;
  os_makedirs processed_dir ;;
  df_to_csv cleaned_csv false ;;
  print (Text (nl ++ "Dataset limpio guardado en: data/processed/permisos_circulacion_limpio.csv")).

(** The three cells, run in order. *)
Definition run_all : M unit :=
  inspect_cell ;; clean_cell ;; persist_cell.

(* ------------------------------------------------------------------ *)
(** ** Vocabulary of the statements *)

(** What the cleaning cell leaves in [df], in terms of the de-duplicated
    frame [d], its columns [t] ([tipo_vehiculo]), [u] ([duracion_dias]) and
    [z] ([zona_circulacion]), the median [m] and the first mode [mz]. *)
Definition cleaned (d : DataFrame) (t u z : Series) (m mz : cell) : DataFrame :=
  setitem "duracion_dias"
    (mask_set (map negative (fillna m u)) m (fillna m u))
    (setitem "zona_circulacion" (fillna mz z)
       (setitem "duracion_dias" (fillna m u)
          (setitem "tipo_vehiculo"
             (str_map Py.capitalize (str_map Py.strip t)) d))).

(** A duration that int64 and float64 hold alike, and whose sum with
    another one float64 still holds exactly: a whole number of magnitude at
    most 2^52. *)
Definition exact_day (c : cell) : bool :=
  match c with
  | Num q => Pos.eqb (Qden q) 1 && Z.leb (Z.abs (Qnum q)) (2 ^ 52)
  | _ => true
  end.

Definition exact_days (s : Series) : bool := forallb exact_day s.

(** A number that float64 holds exactly: a whole number of magnitude at
    most 2^53, or an odd number of halves of magnitude below 2^52. *)
Definition float_exact (q : Qc) : bool :=
  Pos.leb (Qden q) 2 && Z.leb (Z.abs (Qnum q)) (2 ^ 53).

(** Every text of the column is ASCII. *)
Definition ascii_text (s : Series) : bool :=
  forallb (fun c => match c with Str x => Py.isascii x | _ => true end) s.

(** Every character of [s] is whitespace. *)
Fixpoint all_space (s : string) : bool :=
  match s with
  | EmptyString => true
  | String c r => Py.isspace c && all_space r
  end.

Definition starts_with_space (s : string) : bool :=
  match s with
  | EmptyString => false
  | String c _ => Py.isspace c
  end.

Definition ends_with_space (s : string) : bool :=
  starts_with_space (Py.reversed s).

(** [l1] is [l2] with some elements left out, the others in their order. *)
Inductive subseq {A : Type} : list A -> list A -> Prop :=
| subseq_nil : subseq [] []
| subseq_skip x l1 l2 : subseq l1 l2 -> subseq l1 (x :: l2)
| subseq_keep x l1 l2 : subseq l1 l2 -> subseq (x :: l1) (x :: l2).

(** A duration that is a number and not negative. *)
Definition nonnegative (c : cell) : Prop :=
  exists q, c = Num q /\ (int 0 <= q)%Qc.

(* ------------------------------------------------------------------ *)
(** ** Readings of the specification that the code is compared with *)


(** "The single most frequent non-missing value, ties broken by
    first-encountered order in the column". *)
Definition first_encountered_mode (z : Series) : cell :=
  let v := dropna z in
  hd NaN (filter (fun c => Nat.eqb (count c v) (max_count v)) v).

(* ------------------------------------------------------------------ *)
(** ** Sample tables *)

Definition no_files : FileSystem := mkFileSystem [] [] [] None.

(** A fresh session holding [d] in [df]. *)
Definition session (d : DataFrame) : State := mkState d [] no_files.

Definition ints (l : list Z) : Series := map (fun z => Num (int z)) l.

(** Six permits, the last an exact copy of the first.  Once it is dropped
    the durations are [5, -3, null, 7, 9] and the zones B and A tie. *)
Definition sample : DataFrame :=
  mkDataFrame [0; 1; 2; 3; 4; 5]
    [("id", ints [1; 2; 3; 4; 5; 1]%Z);
     ("tipo_vehiculo",
      [Str " auto "; Str "CAMION"; Str "moto"; NaN; Str "Auto"; Str " auto "]);
     ("duracion_dias",
      [Num (int 5); Num (int (-3)); NaN; Num (int 7); Num (int 9); Num (int 5)]);
     ("zona_circulacion",
      [Str "B"; Str "A"; NaN; Str "B"; Str "A"; Str "B"])].

Definition sample_durations : Series :=
  [Num (int 5); Num (int (-3)); NaN; Num (int 7); Num (int 9)].

(** Most durations are negative, so is their median. *)
Definition sample_negative : DataFrame :=
  mkDataFrame [0; 1; 2]
    [("tipo_vehiculo", [Str "auto"; Str "moto"; Str "bus"]);
     ("duracion_dias", [Num (int (-5)); Num (int (-3)); NaN]);
     ("zona_circulacion", [Str "A"; Str "A"; Str "B"])].

(** No duration was recorded at all. *)
Definition sample_no_duration : DataFrame :=
  mkDataFrame [0; 1]
    [("tipo_vehiculo", [Str "auto"; Str "moto"]);
     ("duracion_dias", [NaN; NaN]);
     ("zona_circulacion", [Str "A"; Str "B"])].

(** No zone was recorded at all. *)
Definition sample_no_zone : DataFrame :=
  mkDataFrame [0; 1]
    [("tipo_vehiculo", [Str "auto"; Str "moto"]);
     ("duracion_dias", [Num (int 3); NaN]);
     ("zona_circulacion", [NaN; NaN])].

(** The vehicle type is a numeric code. *)
Definition sample_numeric_tipo : DataFrame :=
  mkDataFrame [0; 1]
    [("tipo_vehiculo", ints [1; 2]%Z);
     ("duracion_dias", ints [3; 4]%Z);
     ("zona_circulacion", [Str "A"; Str "B"])].

(** One duration was typed in words, which makes the column a text
    column. *)
Definition sample_text_duration : DataFrame :=
  mkDataFrame [0; 1]
    [("tipo_vehiculo", [Str "auto"; Str "moto"]);
     ("duracion_dias", [Str "tres"; Str "4"]);
     ("zona_circulacion", [Str "A"; Str "B"])].

(** A table without the column [zona_circulacion]. *)
Definition sample_no_zone_column : DataFrame :=
  mkDataFrame [0; 1; 2]
    [("tipo_vehiculo", [Str "auto"; Str "moto"; Str "bus"]);
     ("duracion_dias", ints [3; 5; 4]%Z)].

(** The zone is a text on some rows and a number on others; the text [b]
    and the number 2 tie, and [b] comes first. *)
Definition sample_mixed_zones : DataFrame :=
  mkDataFrame [0; 1; 2; 3; 4]
    [("id", ints [1; 2; 3; 4; 5]%Z);
     ("tipo_vehiculo", [Str "auto"; Str "moto"; Str "bus"; Str "auto"; Str "moto"]);
     ("duracion_dias", ints [3; 5; 4; 6; 7]%Z);
     ("zona_circulacion",
      [Str "b"; Num (int 2); NaN; Str "b"; Num (int 2)])].

(** Two permits that differ only in how the vehicle type was typed. *)
Definition sample_variants : DataFrame :=
  mkDataFrame [0; 1; 2]
    [("tipo_vehiculo", [Str " auto "; Str "AUTO"; Str "moto"]);
     ("duracion_dias", ints [5; 5; 7]%Z);
     ("zona_circulacion", [Str "B"; Str "B"; Str "A"])].

(** A file system where an older output and an unrelated file exist. *)
Definition sample_files : FileSystem :=
  mkFileSystem
    [["data"]; ["data"; "raw"]; ["data"; "processed"]]
    [(["data"; "raw"; "permisos_circulacion_bruto.csv"],
      mkCsvFile ["zona_circulacion"] [[Str "A"]]);
     (["data"; "processed"; "permisos_circulacion_limpio.csv"],
      mkCsvFile ["viejo"] [])]
    [] None.

(** A regular file stands where the directory [data] should be. *)
Definition sample_blocked_files : FileSystem :=
  mkFileSystem [] [(["data"], mkCsvFile [] [])] [] None.

(** The output directory exists and is read-only. *)
Definition sample_readonly_files : FileSystem :=
  mkFileSystem [["data"]; ["data"; "processed"]] []
               [["data"; "processed"]] None.

(** The device takes three more lines. *)
Definition sample_full_files : FileSystem :=
  mkFileSystem [] [] [] (Some 3).

(** [os.makedirs] goes through for a directory that is there, or that can
    be made: nothing stands at its path and its parent takes new entries. *)
Definition can_mkdir (p : path) (f : FileSystem) : bool :=
  is_dir p f || (negb (is_file p f) && negb (is_readonly (removelast p) f)).

(** A file can be opened for writing at [p], its directory being there:
    [p] is not a directory, and the file, or for a new file its directory,
    is not read-only. *)
Definition can_write (p : path) (f : FileSystem) : bool :=
  negb (is_dir p f)
  && negb (is_readonly (if is_file p f then p else removelast p) f).

(** The device takes [n] more lines. *)
Definition has_room (n : nat) (f : FileSystem) : bool :=
  match room f with
  | None => true
  | Some k => Nat.leb n k
  end.

(** A column has a text cell; a column records a value. *)
Definition has_text (s : Series) : bool := existsb is_str s.
Definition has_value (s : Series) : bool := existsb (fun c => negb (isna c)) s.

(** What line 88 does to one text. *)
Definition normalize (s : string) : string := Py.capitalize (Py.strip s).

(** The column [duracion_dias] once missing values are filled with [m] and
    before negative ones are overwritten. *)
Definition filled (d : DataFrame) (t u : Series) (m : cell) : DataFrame :=
  setitem "duracion_dias" (fillna m u)
    (setitem "tipo_vehiculo" (str_map Py.capitalize (str_map Py.strip t)) d).

(** What the inspection cell prints when it runs to the end. *)
Definition inspect_report (d : DataFrame) (duplicates negatives : nat)
  : list output :=
  [Text "--- Valores faltantes por columna ---";
   NullCounts (isnull_sum d);
   Text (nl ++ "--- Conteo de filas duplicadas ---");
   TextNat "Filas duplicadas: " duplicates;
   Text (nl ++ "--- Valores no válidos en 'duracion_dias' ---");
   TextNat "Registros con duración negativa: " negatives].

(** What the persistence cell prints. *)
Definition persist_report (d : DataFrame) (s : Series) : list output :=
  [Text "--- Información del DataFrame después de la limpieza ---";
   InfoOf d;
   Text (nl ++ "--- Valores faltantes después de la limpieza ---");
   NullCounts (isnull_sum d);
   Text (nl ++ "--- Estadísticas descriptivas de 'duracion_dias' limpiada ---");
   DescribeOf s].


(* ------------------------------------------------------------------ *)
(** ** Equality of cells and rows *)

Lemma Qc_eqb_eq a b : Qc_eqb a b = true <-> a = b.
Proof.
  unfold Qc_eqb. rewrite Qeq_bool_iff. split.
  - apply Qc_is_canon.
  - intros ->. reflexivity.
Qed.

Lemma cell_eqb_eq a b : cell_eqb a b = true <-> a = b.
Proof.
  destruct a, b; simpl; split; try congruence; try reflexivity.
  - intros H. apply Qc_eqb_eq in H. now subst.
  - intros H. inversion H. now apply Qc_eqb_eq.
  - intros H. apply String.eqb_eq in H. now subst.
  - intros H. inversion H. apply String.eqb_refl.
Qed.

Lemma cell_eqb_refl a : cell_eqb a a = true.
Proof. now apply cell_eqb_eq. Qed.

Lemma row_eqb_eq r1 r2 : row_eqb r1 r2 = true <-> r1 = r2.
Proof.
  revert r2. induction r1 as [|a t IH]; destruct r2 as [|b t2]; simpl;
    split; try congruence; try reflexivity.
  - intros H. apply andb_true_iff in H as [H1 H2].
    apply cell_eqb_eq in H1. apply IH in H2. now subst.
  - intros H. inversion H; subst. apply andb_true_iff. split.
    + apply cell_eqb_refl.
    + now apply IH.
Qed.

Lemma existsb_row_eqb r seen : existsb (row_eqb r) seen = true <-> In r seen.
Proof.
  rewrite existsb_exists. split.
  - intros (x & Hin & Heq). apply row_eqb_eq in Heq. now subst.
  - intros Hin. exists r. split; [assumption|]. now apply row_eqb_eq.
Qed.

(* ------------------------------------------------------------------ *)
(** ** Boolean indexing *)

Lemma select_length {A} (m : list bool) (l : list A) :
  List.length m = List.length l ->
  List.length (select m l) = count_true (map negb (map negb m)).
Proof.
  unfold count_true. revert l.
  induction m as [|b m IH]; destruct l as [|x t]; simpl; try discriminate;
    [reflexivity|].
  intros H. injection H as H. destruct b; simpl; now rewrite IH.
Qed.

Lemma count_true_negb_negb m : count_true (map negb (map negb m)) = count_true m.
Proof.
  rewrite map_map. f_equal. rewrite <- (map_id m) at 2.
  apply map_ext. intros a. apply negb_involutive.
Qed.

Lemma select_length_count {A} (m : list bool) (l : list A) :
  List.length m = List.length l ->
  List.length (select m l) = count_true m.
Proof. intros H. now rewrite select_length, count_true_negb_negb. Qed.

Lemma count_true_negb m :
  count_true (map negb m) = List.length m - count_true m.
Proof.
  unfold count_true. induction m as [|b m IH]; [reflexivity|].
  pose proof (filter_length_le (fun b : bool => b) m) as Hle.
  destruct b; cbn [map negb filter Datatypes.length]; rewrite IH; lia.
Qed.

Lemma select_all {A} k (l : list A) :
  List.length l <= k -> select (repeat true k) l = l.
Proof.
  revert k. induction l as [|x t IH]; intros [|k] H; simpl in *;
    try reflexivity; try lia.
  f_equal. apply IH. lia.
Qed.

Lemma select_zip_cons m c rows :
  zip_cons (select m c) (select m rows) = select m (zip_cons c rows).
Proof.
  revert c rows. induction m as [|b m IH]; intros c rows.
  - reflexivity.
  - destruct c as [|x c]; [reflexivity|].
    destruct rows as [|r rows].
    + simpl. now destruct (if b then x :: select m c else select m c).
    + simpl. destruct b; simpl; now rewrite IH.
Qed.

Lemma select_repeat {A} m (x : A) :
  select m (repeat x (List.length m)) = repeat x (count_true m).
Proof.
  unfold count_true. induction m as [|b m IH]; simpl; [reflexivity|].
  destruct b; simpl; now rewrite IH.
Qed.

(* ------------------------------------------------------------------ *)
(** ** Rows of a frame *)

Lemma zip_cons_length c rows :
  List.length (zip_cons c rows) = Nat.min (List.length c) (List.length rows).
Proof.
  revert rows. induction c as [|x c IH]; intros [|r rows]; simpl; auto.
Qed.

Lemma to_rows_length n cols :
  Forall (fun c => List.length c = n) cols ->
  List.length (to_rows n cols) = n.
Proof.
  induction 1 as [|c cs Hc _ IH]; simpl.
  - apply repeat_length.
  - rewrite zip_cons_length, IH, Hc. apply Nat.min_id.
Qed.

Lemma to_rows_select m cols :
  Forall (fun c => List.length c = List.length m) cols ->
  to_rows (count_true m) (map (select m) cols) =
  select m (to_rows (List.length m) cols).
Proof.
  induction 1 as [|c cs Hc _ IH]; simpl.
  - symmetry. apply select_repeat.
  - rewrite IH. apply select_zip_cons.
Qed.

Lemma rectangular_columns d :
  rectangular d ->
  Forall (fun c => List.length c = nrows d) (map snd (data d)).
Proof. unfold rectangular. intros H. now apply Forall_map. Qed.

Lemma values_length d : rectangular d -> List.length (values d) = nrows d.
Proof. intros H. apply to_rows_length. now apply rectangular_columns. Qed.

Lemma nrows_select_rows m d :
  List.length m = nrows d -> nrows (select_rows m d) = count_true m.
Proof. intros H. unfold nrows, select_rows; simpl. now apply select_length_count. Qed.

Lemma rectangular_select_rows m d :
  rectangular d -> List.length m = nrows d -> rectangular (select_rows m d).
Proof.
  intros Hr Hm. unfold rectangular. rewrite (nrows_select_rows _ _ Hm).
  unfold select_rows; simpl. apply Forall_map; simpl.
  eapply Forall_impl; [|exact Hr]. simpl. intros c Hc.
  apply select_length_count. congruence.
Qed.

Lemma values_select_rows m d :
  rectangular d -> List.length m = nrows d ->
  values (select_rows m d) = select m (values d).
Proof.
  intros Hr Hm. unfold values. rewrite (nrows_select_rows _ _ Hm).
  unfold select_rows; cbn [data index]. rewrite map_map; cbn [snd].
  rewrite <- (map_map (@snd string Series) (@select cell m)), <- Hm.
  apply to_rows_select. rewrite Hm. now apply rectangular_columns.
Qed.

Lemma columns_select_rows m d : columns (select_rows m d) = columns d.
Proof. unfold columns, select_rows; simpl. now rewrite map_map. Qed.

(* ------------------------------------------------------------------ *)
(** ** The duplicate mask *)

Lemma duplicated_from_length seen rows :
  List.length (duplicated_from seen rows) = List.length rows.
Proof.
  revert seen. induction rows as [|r rs IH]; intros seen; simpl; auto.
Qed.

(** The mask only depends on which rows were seen. *)
Lemma duplicated_from_ext s1 s2 rows :
  (forall r, In r s1 <-> In r s2) ->
  duplicated_from s1 rows = duplicated_from s2 rows.
Proof.
  revert s1 s2. induction rows as [|r rs IH]; intros s1 s2 H; simpl.
  - reflexivity.
  - f_equal.
    + apply eq_true_iff_eq. rewrite !existsb_row_eqb. apply H.
    + apply IH. intros x; simpl. rewrite H. reflexivity.
Qed.

(** A row is flagged exactly when it was seen, or occurs earlier. *)
Lemma duplicated_from_spec seen rows i r :
  nth_error rows i = Some r ->
  (nth_error (duplicated_from seen rows) i = Some true <->
   In r seen \/ exists j, j < i /\ nth_error rows j = Some r).
Proof.
  revert seen i. induction rows as [|r0 rs IH]; intros seen i Hi.
  - destruct i; discriminate.
  - destruct i as [|i]; simpl in *.
    + inversion Hi; subst r0; clear Hi. split.
      * intros H. inversion H as [H1]. left. now apply existsb_row_eqb.
      * intros [H|(j & Hj & _)]; [|lia].
        f_equal. now apply existsb_row_eqb.
    + rewrite (IH (r0 :: seen) i Hi). simpl. split.
      * intros [[H|H]|(j & Hj & Hr)].
        -- right. exists 0. split; [lia|]. simpl. now subst.
        -- now left.
        -- right. exists (S j). split; [lia|]. exact Hr.
      * intros [H|(j & Hj & Hr)]; [now left; right|].
        destruct j as [|j]; simpl in Hr.
        -- left; left. congruence.
        -- right. exists j. split; [lia|]. exact Hr.
Qed.

(** The rows kept by the mask. *)
Lemma kept_not_seen seen rows r :
  In r (select (map negb (duplicated_from seen rows)) rows) -> ~ In r seen.
Proof.
  revert seen. induction rows as [|r0 rs IH]; intros seen; simpl; [tauto|].
  destruct (existsb (row_eqb r0) seen) eqn:E; simpl.
  - intros H Hs. apply (IH _ H). now right.
  - intros [H|H] Hs.
    + subst r0. apply existsb_row_eqb in Hs. congruence.
    + apply (IH _ H). now right.
Qed.

Lemma kept_NoDup seen rows :
  NoDup (select (map negb (duplicated_from seen rows)) rows).
Proof.
  revert seen. induction rows as [|r rs IH]; intros seen; simpl.
  - constructor.
  - destruct (existsb (row_eqb r) seen); simpl; [apply IH|].
    constructor; [|apply IH].
    intros H. apply kept_not_seen in H. apply H. now left.
Qed.

Lemma kept_all seen rows r :
  In r rows ->
  In r seen \/ In r (select (map negb (duplicated_from seen rows)) rows).
Proof.
  revert seen. induction rows as [|r0 rs IH]; intros seen; simpl; [tauto|].
  intros [H|H].
  - subst r0. destruct (existsb (row_eqb r) seen) eqn:E; simpl.
    + left. now apply existsb_row_eqb.
    + right. now left.
  - destruct (IH (r0 :: seen) H) as [[H1|H1]|H1].
    + subst r0. destruct (existsb (row_eqb r) seen) eqn:E; simpl.
      * left. now apply existsb_row_eqb.
      * right. now left.
    + now left.
    + right. destruct (existsb (row_eqb r0) seen); simpl; auto.
Qed.

(** Nothing is flagged among the kept rows. *)
Lemma duplicated_from_kept seen rows :
  duplicated_from seen (select (map negb (duplicated_from seen rows)) rows) =
  repeat false (count_true (map negb (duplicated_from seen rows))).
Proof.
  unfold count_true. revert seen.
  induction rows as [|r rs IH]; intros seen; simpl; [reflexivity|].
  destruct (existsb (row_eqb r) seen) eqn:E; simpl.
  - rewrite <- IH. apply duplicated_from_ext.
    intros x; simpl. split; [tauto|].
    intros [H|H]; [|assumption]. subst x. now apply existsb_row_eqb.
  - now rewrite E, IH.
Qed.

(* ------------------------------------------------------------------ *)
(** ** [duplicated] and [drop_duplicates] on frames *)

Lemma duplicated_length d :
  rectangular d -> empty d = false ->
  List.length (duplicated d) = nrows d.
Proof.
  intros Hr He. unfold duplicated. rewrite He.
  rewrite duplicated_from_length. now apply values_length.
Qed.

Lemma nrows_drop_duplicates d :
  rectangular d ->
  nrows (drop_duplicates d) = nrows d - count_true (duplicated d).
Proof.
  intros Hr. unfold drop_duplicates, duplicated.
  destruct (empty d) eqn:He.
  - unfold count_true; simpl. lia.
  - assert (Hl : List.length (duplicated d) = nrows d)
      by now apply duplicated_length.
    unfold duplicated in Hl. rewrite He in Hl.
    rewrite nrows_select_rows by now rewrite length_map.
    rewrite count_true_negb. now rewrite Hl.
Qed.

Lemma rectangular_drop_duplicates d :
  rectangular d -> rectangular (drop_duplicates d).
Proof.
  intros Hr. unfold drop_duplicates. destruct (empty d) eqn:He; [assumption|].
  apply rectangular_select_rows; [assumption|].
  rewrite length_map. now apply duplicated_length.
Qed.

Lemma columns_drop_duplicates d : columns (drop_duplicates d) = columns d.
Proof.
  unfold drop_duplicates. destruct (empty d); [reflexivity|].
  apply columns_select_rows.
Qed.

Lemma values_drop_duplicates d :
  rectangular d -> empty d = false ->
  values (drop_duplicates d) = select (map negb (duplicated d)) (values d).
Proof.
  intros Hr He. unfold drop_duplicates. rewrite He.
  apply values_select_rows; [assumption|].
  rewrite length_map. now apply duplicated_length.
Qed.

Lemma select_rows_all d :
  rectangular d -> select_rows (repeat true (nrows d)) d = d.
Proof.
  intros Hr. destruct d as [idx cols]. unfold select_rows, nrows in *; simpl in *.
  f_equal.
  - now apply select_all.
  - unfold rectangular in Hr; simpl in Hr.
    rewrite <- (map_id cols) at 2. apply map_ext_in.
    intros [n s] Hin. cbn [fst snd].
    rewrite Forall_forall in Hr. specialize (Hr _ Hin).
    unfold nrows in Hr; cbn [snd index] in Hr.
    rewrite select_all by lia. reflexivity.
Qed.

Lemma drop_duplicates_twice d :
  rectangular d -> drop_duplicates (drop_duplicates d) = drop_duplicates d.
Proof.
  intros Hr.
  destruct (empty d) eqn:He.
  - unfold drop_duplicates. now rewrite He, He.
  - pose proof (rectangular_drop_duplicates d Hr) as Hr'.
    pose proof (values_drop_duplicates d Hr He) as Hv.
    remember (drop_duplicates d) as d' eqn:Hd'.
    unfold drop_duplicates at 1.
    destruct (empty d') eqn:He'; [reflexivity|].
    unfold duplicated at 1. rewrite He', Hv.
    unfold duplicated. rewrite He.
    rewrite duplicated_from_kept.
    assert (Hn : count_true (map negb (duplicated_from [] (values d))) = nrows d').
    { rewrite Hd', nrows_drop_duplicates by assumption.
      unfold duplicated. rewrite He. rewrite count_true_negb.
      rewrite duplicated_from_length, values_length; auto. }
    rewrite Hn.
    replace (map negb (repeat false (nrows d'))) with (repeat true (nrows d'))
      by (now rewrite map_repeat).
    now apply select_rows_all.
Qed.

(* ------------------------------------------------------------------ *)
(** ** Orders *)

Lemma Qc_leb_le a b : Qc_leb a b = true <-> (a <= b)%Qc.
Proof. unfold Qc_leb, Qcle. apply Qle_bool_iff. Qed.

Lemma Qc_ltb_ge a b : Qc_ltb a b = false <-> (b <= a)%Qc.
Proof.
  unfold Qc_ltb, Qcle. rewrite negb_false_iff. apply Qle_bool_iff.
Qed.

Lemma Qc_leb_total a b : Qc_leb a b = true \/ Qc_leb b a = true.
Proof.
  rewrite !Qc_leb_le. destruct (Qclt_le_dec a b) as [H|H]; auto.
  left. now apply Qclt_le_weak.
Qed.

Lemma Qc_leb_trans a b c :
  Qc_leb a b = true -> Qc_leb b c = true -> Qc_leb a c = true.
Proof. rewrite !Qc_leb_le. apply Qcle_trans. Qed.

Lemma ascii_compare_Lt_trans a b c :
  Ascii.compare a b = Lt -> Ascii.compare b c = Lt -> Ascii.compare a c = Lt.
Proof.
  unfold Ascii.compare. rewrite !N.compare_lt_iff. apply N.lt_trans.
Qed.

Lemma string_leb_trans a b c :
  String.leb a b = true -> String.leb b c = true -> String.leb a c = true.
Proof.
  unfold String.leb. revert b c.
  induction a as [|x a IH]; intros b c Hab Hbc.
  - destruct c; reflexivity.
  - destruct b as [|y b]; [discriminate|].
    destruct c as [|z c]; [discriminate|].
    simpl in *.
    destruct (Ascii.compare x y) eqn:Exy; try discriminate;
    destruct (Ascii.compare y z) eqn:Eyz; try discriminate.
    + apply Ascii.compare_eq_iff in Exy, Eyz. subst.
      assert (E : Ascii.compare z z = Eq)
        by (unfold Ascii.compare; apply N.compare_refl).
      rewrite E. eapply IH; eauto.
    + apply Ascii.compare_eq_iff in Exy. subst. now rewrite Eyz.
    + apply Ascii.compare_eq_iff in Eyz. subst. now rewrite Exy.
    + now rewrite (ascii_compare_Lt_trans _ _ _ Exy Eyz).
Qed.

(* ------------------------------------------------------------------ *)
(** ** Insertion sort *)

Section SortFacts.
Context {A : Type} (leb : A -> A -> bool).

Lemma insert_length x l : List.length (insert leb x l) = S (List.length l).
Proof.
  induction l as [|y t IH]; simpl; [reflexivity|].
  destruct (leb x y); simpl; auto.
Qed.

Lemma sort_length l : List.length (sort leb l) = List.length l.
Proof.
  induction l as [|x t IH]; simpl; [reflexivity|].
  now rewrite insert_length, IH.
Qed.

Lemma insert_In x l y : In y (insert leb x l) <-> y = x \/ In y l.
Proof.
  induction l as [|z t IH]; simpl.
  - intuition.
  - destruct (leb x z); simpl; rewrite ?IH; intuition.
Qed.

Lemma sort_In l y : In y (sort leb l) <-> In y l.
Proof.
  induction l as [|x t IH]; simpl; [tauto|].
  rewrite insert_In, IH. intuition.
Qed.

(** On a domain [P] where the order is total and transitive, the head of
    the sorted list is below every element. *)
Variable P : A -> Prop.
Hypothesis leb_total :
  forall x y, P x -> P y -> leb x y = true \/ leb y x = true.
Hypothesis leb_trans :
  forall x y z, P x -> P y -> P z ->
                leb x y = true -> leb y z = true -> leb x z = true.

Lemma sort_head_least l h t :
  Forall P l -> sort leb l = h :: t ->
  Forall (fun y => leb h y = true) l.
Proof.
  intros HP. revert h t.
  induction HP as [|x l Hx HP IH]; intros h t; simpl; [discriminate|].
  destruct (sort leb l) as [|h' t'] eqn:E.
  - assert (l = []) as ->.
    { apply length_zero_iff_nil. rewrite <- (sort_length l), E. reflexivity. }
    simpl. intros H; inversion H; subst. constructor; [|constructor].
    destruct (leb_total h h Hx Hx); assumption.
  - assert (Hh' : P h').
    { rewrite Forall_forall in HP. apply HP.
      apply (sort_In l). rewrite E. now left. }
    specialize (IH h' t' eq_refl). simpl.
    destruct (leb x h') eqn:Exh; intros H; inversion H; subst; clear H.
    + constructor.
      * destruct (leb_total h h Hx Hx); assumption.
      * rewrite Forall_forall in *. intros y Hy.
        apply (leb_trans h h' y); auto.
    + constructor; [|assumption].
      destruct (leb_total x h Hx Hh'); congruence.
Qed.
End SortFacts.

Section SortOrder.
Context {A : Type} (leb : A -> A -> bool).

Lemma insert_perm x l : Permutation (insert leb x l) (x :: l).
Proof.
  induction l as [|y t IH]; simpl; [reflexivity|].
  destruct (leb x y); [reflexivity|].
  rewrite IH. apply perm_swap.
Qed.

Lemma sort_perm l : Permutation (sort leb l) l.
Proof.
  induction l as [|x t IH]; simpl; [reflexivity|].
  rewrite insert_perm. now constructor.
Qed.

Hypothesis leb_total : forall x y, leb x y = true \/ leb y x = true.

Lemma insert_sorted x l :
  Sorted (fun a b => leb a b = true) l ->
  Sorted (fun a b => leb a b = true) (insert leb x l).
Proof.
  induction 1 as [|y t Ht IH Hy]; simpl.
  - repeat constructor.
  - destruct (leb x y) eqn:E.
    + repeat constructor; assumption.
    + constructor; [exact IH|].
      destruct (leb_total x y) as [H|H]; [congruence|].
      destruct t as [|z t']; simpl.
      * now constructor.
      * destruct (leb x z); constructor; [exact H|].
        now inversion Hy.
Qed.

Lemma sort_sorted l : Sorted (fun a b => leb a b = true) (sort leb l).
Proof.
  induction l as [|x t IH]; simpl; [constructor|].
  now apply insert_sorted.
Qed.
End SortOrder.

(* ------------------------------------------------------------------ *)
(** ** Median *)

Lemma numbers_In s q : In q (numbers s) <-> In (Num q) s.
Proof.
  induction s as [|c t IH]; simpl; [tauto|].
  destruct c as [|q0|x]; simpl; rewrite IH; split.
  - auto.
  - intros [H|H]; [discriminate|assumption].
  - intros [H|H]; [left; congruence|now right].
  - intros [H|H]; [left; congruence|now right].
  - auto.
  - intros [H|H]; [discriminate|assumption].
Qed.

Lemma middle_NaN v : middle v = NaN <-> v = [].
Proof.
  unfold middle. destruct v as [|x t]; simpl; [tauto|].
  split; [|discriminate]. destruct (Nat.odd _); discriminate.
Qed.

(** The median is missing exactly when the column holds no number. *)
Lemma median_NaN s : median s = Ok NaN <-> Forall (fun c => c = NaN) s.
Proof.
  unfold median. split.
  - destruct (existsb is_str s) eqn:E; [discriminate|].
    intros H. injection H as H1. apply middle_NaN in H1.
    assert (Hn : numbers s = []).
    { apply length_zero_iff_nil. rewrite <- (sort_length Qc_leb), H1. reflexivity. }
    apply Forall_forall. intros c Hc. destruct c as [|q|x].
    + reflexivity.
    + apply numbers_In in Hc. rewrite Hn in Hc. destruct Hc.
    + assert (existsb is_str s = true)
        by (apply existsb_exists; exists (Str x); auto).
      congruence.
  - intros H.
    assert (E : existsb is_str s = false).
    { apply not_true_iff_false. intros E. apply existsb_exists in E as (c & Hc & Hs).
      rewrite Forall_forall in H. rewrite (H c Hc) in Hs. discriminate. }
    rewrite E. f_equal. apply middle_NaN.
    assert (Hn : numbers s = []).
    { destruct (numbers s) as [|q t] eqn:En; [reflexivity|].
      assert (Hq : In q (numbers s)) by (rewrite En; now left).
      apply numbers_In in Hq. rewrite Forall_forall in H.
      specialize (H _ Hq). discriminate. }
    now rewrite Hn.
Qed.

(** The median is the middle of the recorded numbers put in ascending
    order. *)
Lemma median_sorted s m :
  median s = Ok m ->
  exists v,
    Permutation v (numbers s) /\
    Sorted (fun a b => Qc_leb a b = true) v /\
    m = middle v.
Proof.
  unfold median. destruct (existsb is_str s); [discriminate|].
  intros H. injection H as <-.
  exists (sort Qc_leb (numbers s)). split; [apply sort_perm|].
  split; [|reflexivity]. apply sort_sorted. apply Qc_leb_total.
Qed.

(* ------------------------------------------------------------------ *)
(** ** Mode *)

Lemma existsb_cell_eqb c seen : existsb (cell_eqb c) seen = true <-> In c seen.
Proof.
  rewrite existsb_exists. split.
  - intros (x & Hin & Heq). apply cell_eqb_eq in Heq. now subst.
  - intros Hin. exists c. split; [assumption|apply cell_eqb_refl].
Qed.

Lemma dropna_In s c : In c (dropna s) <-> In c s /\ c <> NaN.
Proof.
  unfold dropna. rewrite filter_In. split; intros [H1 H2]; split; auto.
  - intros ->. discriminate.
  - destruct c; simpl; congruence.
Qed.

Lemma count_dropna c s : c <> NaN -> count c (dropna s) = count c s.
Proof.
  intros Hc. unfold count, dropna.
  induction s as [|x t IH]; simpl; [reflexivity|].
  destruct x; simpl; try (destruct (cell_eqb c _); simpl; now rewrite IH).
  destruct c; simpl; congruence.
Qed.

Lemma unique_from_In seen s c :
  In c (unique_from seen s) <-> In c s /\ ~ In c seen.
Proof.
  revert seen. induction s as [|x t IH]; intros seen; simpl; [tauto|].
  destruct (existsb (cell_eqb x) seen) eqn:E.
  - apply existsb_cell_eqb in E. rewrite IH. split.
    + intros [H1 H2]. auto.
    + intros [[H1|H1] H2]; [subst; tauto|auto].
  - assert (Hx : ~ In x seen).
    { intros H. apply existsb_cell_eqb in H. congruence. }
    simpl. rewrite IH. simpl. split.
    + intros [H|[H1 H2]]; [subst; auto|]. split; auto.
    + intros [[H1|H1] H2]; [now left|].
      destruct (cell_eqb x c) eqn:Exc.
      * apply cell_eqb_eq in Exc. now left.
      * right. split; [assumption|]. intros [H|H]; [|auto].
        subst. rewrite cell_eqb_refl in Exc. discriminate.
Qed.

Lemma unique_In s c : In c (unique s) <-> In c s.
Proof. unfold unique. rewrite unique_from_In. simpl. tauto. Qed.

Lemma fold_max_ge {A} (f : A -> nat) l x :
  In x l -> f x <= fold_right Nat.max 0 (map f l).
Proof.
  induction l as [|y t IH]; simpl; [tauto|].
  intros [H|H]; [subst; lia|]. specialize (IH H). lia.
Qed.

Lemma fold_max_attained {A} (f : A -> nat) l :
  l <> [] -> exists x, In x l /\ f x = fold_right Nat.max 0 (map f l).
Proof.
  induction l as [|y t IH]; [congruence|]. intros _. simpl.
  destruct t as [|z t'].
  - exists y. simpl. split; [auto|lia].
  - destruct IH as (x & Hx & Hfx); [discriminate|].
    destruct (Nat.le_ge_cases (f y) (fold_right Nat.max 0 (map f (z :: t')))).
    + exists x. split; [now right|]. lia.
    + exists y. split; [now left|]. lia.
Qed.

Lemma modes_In v c :
  In c (modes v) <-> In c v /\ count c v = max_count v.
Proof.
  unfold modes. rewrite filter_In, unique_In, Nat.eqb_eq. tauto.
Qed.

Lemma mode_unfold s : mode s = sort cell_leb (modes (dropna s)).
Proof. reflexivity. Qed.

Lemma mode_In s c :
  In c (mode s) <->
  In c (dropna s) /\ count c (dropna s) = max_count (dropna s).
Proof. rewrite mode_unfold, sort_In. apply modes_In. Qed.

Lemma mode_nonempty s c : In c s -> c <> NaN -> mode s <> [].
Proof.
  intros Hin Hc.
  assert (Hv : dropna s <> []).
  { intros E. assert (H : In c (dropna s)) by (apply dropna_In; auto).
    rewrite E in H. destruct H. }
  destruct (fold_max_attained (fun c => count c (dropna s)) (dropna s) Hv)
    as (x & Hx & Hmax).
  assert (Hm : In x (mode s)) by (apply mode_In; auto).
  intros E. rewrite E in Hm. destruct Hm.
Qed.

Lemma cell_leb_total x y :
  x <> NaN -> y <> NaN -> cell_leb x y = true \/ cell_leb y x = true.
Proof.
  destruct x, y; simpl; try congruence; auto; intros _ _.
  - apply Qc_leb_total.
  - apply String.leb_total.
Qed.

Lemma cell_leb_trans x y z :
  x <> NaN -> y <> NaN -> z <> NaN ->
  cell_leb x y = true -> cell_leb y z = true -> cell_leb x z = true.
Proof.
  destruct x, y, z; simpl; try congruence; try discriminate; intros _ _ _.
  - apply Qc_leb_trans.
  - apply string_leb_trans.
Qed.

(** The first mode is the least of the modes. *)
Lemma mode_first_least s mz :
  getitem0 (mode s) = Ok mz ->
  forall c, In c (mode s) -> cell_leb mz c = true.
Proof.
  intros Hmz c Hc.
  assert (Hc' : In c (modes (dropna s))).
  { apply modes_In. now apply mode_In. }
  rewrite mode_unfold in Hmz.
  destruct (sort cell_leb (modes (dropna s))) as [|h t] eqn:E; [discriminate|].
  simpl in Hmz. injection Hmz as ->.
  assert (Hall : Forall (fun x => x <> NaN) (modes (dropna s))).
  { apply Forall_forall. intros x Hx. apply modes_In in Hx as [Hx _].
    now apply dropna_In in Hx. }
  pose proof (sort_head_least cell_leb (fun x => x <> NaN)
                cell_leb_total cell_leb_trans _ _ _ Hall E) as Hleast.
  rewrite Forall_forall in Hleast. auto.
Qed.

(** What [s.mode()[0]] is. *)
Lemma mode_first_spec s mz :
  getitem0 (mode s) = Ok mz ->
  mz <> NaN /\ In mz s /\
  (forall c, In c s -> c <> NaN -> count c s <= count mz s) /\
  (forall c, In c s -> c <> NaN -> count c s = count mz s ->
             cell_leb mz c = true).
Proof.
  intros Hmz.
  assert (Hin : In mz (mode s)).
  { destruct (mode s) as [|h t]; [discriminate|].
    simpl in Hmz. injection Hmz as ->. now left. }
  apply mode_In in Hin as [Hd Hmax].
  apply dropna_In in Hd as [Hin Hn].
  rewrite count_dropna in Hmax by assumption.
  repeat split; auto.
  - intros c Hc Hcn. rewrite Hmax, <- (count_dropna c s Hcn).
    apply (fold_max_ge (fun c => count c (dropna s))).
    apply dropna_In; auto.
  - intros c Hc Hcn Heq.
    apply (mode_first_least s mz Hmz).
    apply mode_In. split; [apply dropna_In; auto|].
    rewrite count_dropna by assumption. congruence.
Qed.

(* ------------------------------------------------------------------ *)
(** ** [strip] and [capitalize] *)

Lemma string_app_nil_r (s : string) : (s ++ EmptyString)%string = s.
Proof. induction s as [|c s IH]; simpl; [reflexivity|now rewrite IH]. Qed.

Lemma string_app_assoc (a b c : string) :
  ((a ++ b) ++ c)%string = (a ++ (b ++ c))%string.
Proof. induction a as [|x a IH]; simpl; [reflexivity|now rewrite IH]. Qed.

Lemma reversed_app (a b : string) :
  Py.reversed (a ++ b) = (Py.reversed b ++ Py.reversed a)%string.
Proof.
  induction a as [|x a IH]; simpl.
  - now rewrite string_app_nil_r.
  - now rewrite IH, string_app_assoc.
Qed.

Lemma reversed_involutive (s : string) : Py.reversed (Py.reversed s) = s.
Proof.
  induction s as [|c s IH]; simpl; [reflexivity|].
  rewrite reversed_app, IH. reflexivity.
Qed.

Lemma all_space_app (a b : string) :
  all_space (a ++ b) = all_space a && all_space b.
Proof.
  induction a as [|x a IH]; simpl; [reflexivity|].
  now rewrite IH, andb_assoc.
Qed.

Lemma all_space_reversed (s : string) : all_space (Py.reversed s) = all_space s.
Proof.
  induction s as [|c s IH]; simpl; [reflexivity|].
  rewrite all_space_app, IH. simpl. rewrite andb_true_r. apply andb_comm.
Qed.

Lemma lstrip_spec (s : string) :
  exists l, s = (l ++ Py.lstrip s)%string /\ all_space l = true /\
            starts_with_space (Py.lstrip s) = false.
Proof.
  induction s as [|c s (l & Hs & Hl & Hstart)]; simpl.
  - exists EmptyString. auto.
  - destruct (Py.isspace c) eqn:E.
    + exists (String c l). simpl. rewrite E, Hl, <- Hs. auto.
    + exists EmptyString. simpl. auto.
Qed.

Lemma rstrip_spec (s : string) :
  exists r, s = (Py.rstrip s ++ r)%string /\ all_space r = true /\
            ends_with_space (Py.rstrip s) = false.
Proof.
  unfold Py.rstrip, ends_with_space.
  destruct (lstrip_spec (Py.reversed s)) as (l & Hs & Hl & Hstart).
  exists (Py.reversed l). repeat split.
  - rewrite <- reversed_app, <- Hs. symmetry. apply reversed_involutive.
  - now rewrite all_space_reversed.
  - now rewrite reversed_involutive.
Qed.

(** [strip] removes a run of whitespace at each end, and what is left
    neither starts nor ends with whitespace. *)
Lemma strip_spec (s : string) :
  exists l r,
    s = (l ++ Py.strip s ++ r)%string /\
    all_space l = true /\ all_space r = true /\
    starts_with_space (Py.strip s) = false /\
    ends_with_space (Py.strip s) = false.
Proof.
  unfold Py.strip.
  destruct (lstrip_spec s) as (l & Hs & Hl & Hstart).
  destruct (rstrip_spec (Py.lstrip s)) as (r & Hr & Hrs & Hend).
  exists l, r. repeat split; auto.
  - now rewrite <- Hr.
  - rewrite Hr in Hstart.
    destruct (Py.rstrip (Py.lstrip s)); [reflexivity|exact Hstart].
Qed.




Lemma str_map_nth_error f s i :
  nth_error (str_map f s) i =
  option_map (fun c => match c with Str x => Str (f x) | _ => NaN end)
             (nth_error s i).
Proof. unfold str_map. apply nth_error_map. Qed.

(** ASCII text stays ASCII. *)
Lemma isascii_app a b :
  Py.isascii (a ++ b) = Py.isascii a && Py.isascii b.
Proof.
  induction a as [|c a IH]; simpl; [reflexivity|].
  now rewrite IH, andb_assoc.
Qed.

Lemma isascii_upper_char c :
  Nat.ltb (nat_of_ascii (Py.upper_char c)) 128 = Nat.ltb (nat_of_ascii c) 128.
Proof. destruct c as [[] [] [] [] [] [] [] []]; reflexivity. Qed.

Lemma isascii_lower_char c :
  Nat.ltb (nat_of_ascii (Py.lower_char c)) 128 = Nat.ltb (nat_of_ascii c) 128.
Proof. destruct c as [[] [] [] [] [] [] [] []]; reflexivity. Qed.

Lemma isascii_lower s : Py.isascii (Py.lower s) = Py.isascii s.
Proof.
  induction s as [|c s IH]; simpl; [reflexivity|].
  now rewrite isascii_lower_char, IH.
Qed.

Lemma isascii_capitalize s : Py.isascii (Py.capitalize s) = Py.isascii s.
Proof.
  destruct s as [|c s]; simpl; [reflexivity|].
  now rewrite isascii_upper_char, isascii_lower.
Qed.

Lemma isascii_strip s : Py.isascii s = true -> Py.isascii (Py.strip s) = true.
Proof.
  destruct (strip_spec s) as (l & r & Hs & _). intros H.
  rewrite Hs, !isascii_app in H.
  apply andb_true_iff in H as [_ H]. now apply andb_true_iff in H as [H _].
Qed.

(* ------------------------------------------------------------------ *)
(** ** Columns of a frame *)

Lemma lookup_replace_same name s cols :
  lookup name (replace name s cols) = Some s.
Proof.
  induction cols as [|[n s0] t IH]; simpl.
  - now rewrite String.eqb_refl.
  - destruct (String.eqb n name) eqn:E; simpl; rewrite E; auto.
Qed.

Lemma lookup_replace_other name other s cols :
  name <> other ->
  lookup name (replace other s cols) = lookup name cols.
Proof.
  intros Hne. induction cols as [|[n s0] t IH]; simpl.
  - destruct (String.eqb_spec other name); congruence.
  - destruct (String.eqb_spec n other) as [->|Hn]; simpl.
    + destruct (String.eqb_spec other name); congruence.
    + now rewrite IH.
Qed.

Lemma names_replace name s s0 cols :
  lookup name cols = Some s0 ->
  map fst (replace name s cols) = map fst cols.
Proof.
  induction cols as [|[n s1] t IH]; simpl; [discriminate|].
  destruct (String.eqb n name); simpl; intros H; [reflexivity|].
  now rewrite IH.
Qed.

Lemma getitem_setitem_same name s d :
  getitem name (setitem name s d) = Ok s.
Proof. unfold getitem, setitem; simpl. now rewrite lookup_replace_same. Qed.

Lemma getitem_setitem_other name other s d :
  name <> other ->
  getitem name (setitem other s d) = getitem name d.
Proof.
  intros H. unfold getitem, setitem; simpl.
  now rewrite lookup_replace_other.
Qed.

Lemma getitem_Ok name d s :
  getitem name d = Ok s <-> lookup name (data d) = Some s.
Proof.
  unfold getitem. destruct (lookup name (data d)); split; congruence.
Qed.

Lemma columns_setitem name s s0 d :
  getitem name d = Ok s0 ->
  columns (setitem name s d) = columns d.
Proof.
  intros H. apply getitem_Ok in H. unfold columns, setitem; simpl.
  eapply names_replace; eauto.
Qed.

(* ------------------------------------------------------------------ *)
(** ** Running the cells *)

Lemma bind_Ok {A B} (m : M A) (f : A -> M B) st b st' :
  bind m f st = (Ok b, st') ->
  exists a st1, m st = (Ok a, st1) /\ f a st1 = (Ok b, st').
Proof.
  unfold bind. destruct (m st) as [[a|e] st1]; intros H.
  - eauto.
  - discriminate.
Qed.

Lemma handle_duplicates_run st :
  handle_duplicates st =
  (Ok tt,
   mkState (drop_duplicates (df st))
           (stdout st ++
            [TextNat "Registros después de eliminar duplicados: "
                     (nrows (drop_duplicates (df st)))])
           (fs st)).
Proof. reflexivity. Qed.

Lemma str_accessor_Ok s s' : str_accessor s = Ok s' -> s' = s.
Proof.
  unfold str_accessor. destruct s; [congruence|].
  destruct (existsb _ _); congruence.
Qed.

Lemma str_map_keeps_text f s :
  existsb is_str (str_map f s) = existsb is_str s.
Proof.
  induction s as [|c t IH]; simpl; [reflexivity|].
  rewrite IH. now destruct c.
Qed.

Lemma str_accessor_str_map f s :
  str_accessor s = Ok s -> str_accessor (str_map f s) = Ok (str_map f s).
Proof.
  unfold str_accessor. destruct s as [|c t]; [reflexivity|].
  change (str_map f (c :: t)) with
    ((match c with Str x => Str (f x) | _ => NaN end) :: str_map f t).
  cbv beta iota.
  change ((match c with Str x => Str (f x) | _ => NaN end) :: str_map f t)
    with (str_map f (c :: t)).
  rewrite str_map_keeps_text. destruct (existsb is_str (c :: t)); congruence.
Qed.

Lemma standardize_text_Ok st st' :
  standardize_text st = (Ok tt, st') ->
  exists t,
    getitem "tipo_vehiculo" (df st) = Ok t /\
    str_accessor t = Ok t /\
    df st' = setitem "tipo_vehiculo"
               (str_map Py.capitalize (str_map Py.strip t)) (df st) /\
    fs st' = fs st.
Proof.
  unfold standardize_text, df_getitem, df_setitem, get_df, put_df, print, lift,
    bind; cbn [df stdout fs].
  destruct (getitem "tipo_vehiculo" (df st)) as [t|e] eqn:Ht; [|discriminate].
  unfold str_strip.
  destruct (str_accessor t) as [t'|e] eqn:Hacc; [|discriminate].
  pose proof (str_accessor_Ok _ _ Hacc) as ->.
  unfold str_capitalize.
  rewrite (str_accessor_str_map Py.strip t Hacc).
  rewrite getitem_setitem_same.
  intros H. inversion H; subst; clear H. cbn [df fs].
  exists t. auto.
Qed.

Lemma median_Ok s m : median s = Ok m -> existsb is_str s = false.
Proof. unfold median. destruct (existsb is_str s); congruence. Qed.

Lemma median_not_text s m : median s = Ok m -> is_str m = false.
Proof.
  unfold median. destruct (existsb is_str s); [discriminate|].
  intros H; inversion H; subst; clear H. unfold middle.
  destruct (Nat.eqb _ 0); [reflexivity|]. now destruct (Nat.odd _).
Qed.

Lemma fillna_no_text v s :
  is_str v = false -> existsb is_str s = false ->
  existsb is_str (fillna v s) = false.
Proof.
  intros Hv. induction s as [|c t IH]; simpl; [reflexivity|].
  intros H. apply orb_false_iff in H as [Hc Ht].
  rewrite (IH Ht). destruct c; simpl in *; try congruence.
  now rewrite Hv.
Qed.

Lemma lt_Ok s k mask :
  lt s k = Ok mask ->
  mask = map (fun c => match c with Num q => Qc_ltb q k | _ => false end) s.
Proof. unfold lt. destruct (existsb is_str s); congruence. Qed.

Lemma lt_no_text s k :
  existsb is_str s = false ->
  lt s k = Ok (map (fun c => match c with Num q => Qc_ltb q k | _ => false end) s).
Proof. unfold lt. now intros ->. Qed.

Lemma impute_duracion_Ok st st' m :
  impute_duracion st = (Ok m, st') ->
  exists u,
    getitem "duracion_dias" (df st) = Ok u /\
    median u = Ok m /\
    df st' = setitem "duracion_dias" (fillna m u) (df st) /\
    fs st' = fs st.
Proof.
  unfold impute_duracion, fillna_inplace, df_getitem, get_df, put_df, lift,
    bind, ret; cbn [df stdout fs].
  destruct (getitem "duracion_dias" (df st)) as [u|e] eqn:Hu; [|discriminate].
  destruct (median u) as [m'|e] eqn:Hm; [|discriminate].
  intros H. inversion H; subst; clear H. cbn [df fs].
  exists u. auto.
Qed.

Lemma impute_zona_Ok st st' :
  impute_zona st = (Ok tt, st') ->
  exists z mz,
    getitem "zona_circulacion" (df st) = Ok z /\
    getitem0 (mode z) = Ok mz /\
    df st' = setitem "zona_circulacion" (fillna mz z) (df st) /\
    fs st' = fs st.
Proof.
  unfold impute_zona, fillna_inplace, df_getitem, get_df, put_df, lift, bind;
    cbn [df stdout fs].
  destruct (getitem "zona_circulacion" (df st)) as [z|e] eqn:Hz; [|discriminate].
  destruct (getitem0 (mode z)) as [mz|e] eqn:Hmz; [|discriminate].
  intros H. inversion H; subst; clear H. cbn [df fs].
  exists z, mz. auto.
Qed.

Lemma correct_invalid_Ok m st st' :
  correct_invalid m st = (Ok tt, st') ->
  exists s mask,
    getitem "duracion_dias" (df st) = Ok s /\
    lt s (int 0) = Ok mask /\
    df st' = setitem "duracion_dias" (mask_set mask m s) (df st) /\
    fs st' = fs st.
Proof.
  unfold correct_invalid, loc_setitem, df_getitem, get_df, put_df, lift, bind;
    cbn [df stdout fs].
  destruct (getitem "duracion_dias" (df st)) as [s|e] eqn:Hs; [|discriminate].
  destruct (lt s (int 0)) as [mask|e] eqn:Hmask; [|discriminate].
  apply getitem_Ok in Hs. rewrite Hs.
  intros H. inversion H; subst; clear H. cbn [df fs].
  exists s, mask. auto.
Qed.

Lemma clean_cell_Ok st st' :
  clean_cell st = (Ok tt, st') ->
  exists t u z m mz,
    getitem "tipo_vehiculo" (drop_duplicates (df st)) = Ok t /\
    str_accessor t = Ok t /\
    getitem "duracion_dias" (drop_duplicates (df st)) = Ok u /\
    median u = Ok m /\
    getitem "zona_circulacion" (drop_duplicates (df st)) = Ok z /\
    getitem0 (mode z) = Ok mz /\
    df st' = cleaned (drop_duplicates (df st)) t u z m mz /\
    fs st' = fs st.
Proof.
  unfold clean_cell. intros H.
  apply bind_Ok in H as ([] & st1 & H1 & H).
  apply bind_Ok in H as ([] & st2 & H2 & H).
  apply bind_Ok in H as (m & st3 & H3 & H).
  apply bind_Ok in H as ([] & st4 & H4 & H5).
  rewrite handle_duplicates_run in H1. inversion H1; subst st1; clear H1.
  apply standardize_text_Ok in H2 as (t & Ht & Hacc & Hd2 & Hf2).
  apply impute_duracion_Ok in H3 as (u & Hu & Hm & Hd3 & Hf3).
  apply impute_zona_Ok in H4 as (z & mz & Hz & Hmz & Hd4 & Hf4).
  apply correct_invalid_Ok in H5 as (s & mask & Hs & Hmask & Hd5 & Hf5).
  cbn [df fs] in *.
  rewrite Hd2, getitem_setitem_other in Hu by discriminate.
  rewrite Hd3, getitem_setitem_other in Hz by discriminate.
  rewrite Hd2, getitem_setitem_other in Hz by discriminate.
  rewrite Hd4, getitem_setitem_other in Hs by discriminate.
  rewrite Hd3, getitem_setitem_same in Hs. inversion Hs; subst s; clear Hs.
  apply lt_Ok in Hmask.
  exists t, u, z, m, mz. repeat split; auto.
  - rewrite Hd5, Hd4, Hd3, Hd2, Hmask. reflexivity.
  - congruence.
Qed.

Lemma bind_run {A B} (m : M A) (f : A -> M B) st a st1 :
  m st = (Ok a, st1) -> bind m f st = f a st1.
Proof. unfold bind. now intros ->. Qed.

Lemma standardize_text_run st t :
  getitem "tipo_vehiculo" (df st) = Ok t ->
  str_accessor t = Ok t ->
  exists st',
    standardize_text st = (Ok tt, st') /\
    df st' = setitem "tipo_vehiculo"
               (str_map Py.capitalize (str_map Py.strip t)) (df st).
Proof.
  intros Ht Hacc.
  unfold standardize_text, df_getitem, df_setitem, get_df, put_df, print, lift,
    bind; cbn [df stdout fs].
  rewrite Ht. unfold str_strip, str_capitalize. rewrite Hacc.
  rewrite (str_accessor_str_map Py.strip t Hacc).
  rewrite getitem_setitem_same. eexists; split; reflexivity.
Qed.

Lemma impute_duracion_run st u m :
  getitem "duracion_dias" (df st) = Ok u ->
  median u = Ok m ->
  exists st',
    impute_duracion st = (Ok m, st') /\
    df st' = setitem "duracion_dias" (fillna m u) (df st).
Proof.
  intros Hu Hm.
  unfold impute_duracion, fillna_inplace, df_getitem, get_df, put_df, lift,
    bind, ret; cbn [df stdout fs].
  rewrite Hu, Hm. eexists; split; reflexivity.
Qed.

Lemma impute_zona_run st z mz :
  getitem "zona_circulacion" (df st) = Ok z ->
  getitem0 (mode z) = Ok mz ->
  exists st',
    impute_zona st = (Ok tt, st') /\
    df st' = setitem "zona_circulacion" (fillna mz z) (df st).
Proof.
  intros Hz Hmz.
  unfold impute_zona, fillna_inplace, df_getitem, get_df, put_df, lift, bind;
    cbn [df stdout fs].
  rewrite Hz, Hmz. eexists; split; reflexivity.
Qed.

Lemma correct_invalid_run st s m :
  getitem "duracion_dias" (df st) = Ok s ->
  existsb is_str s = false ->
  exists st', correct_invalid m st = (Ok tt, st').
Proof.
  intros Hs Htext.
  unfold correct_invalid, loc_setitem, df_getitem, get_df, put_df, lift, bind;
    cbn [df stdout fs].
  rewrite Hs, (lt_no_text _ _ Htext). eexists; reflexivity.
Qed.

(** The cleaning cell completes exactly when the three columns exist,
    [tipo_vehiculo] accepts [.str], [duracion_dias] has a median and
    [zona_circulacion] has a mode. *)
Lemma clean_cell_complete st t u z m mz :
  getitem "tipo_vehiculo" (drop_duplicates (df st)) = Ok t ->
  str_accessor t = Ok t ->
  getitem "duracion_dias" (drop_duplicates (df st)) = Ok u ->
  median u = Ok m ->
  getitem "zona_circulacion" (drop_duplicates (df st)) = Ok z ->
  getitem0 (mode z) = Ok mz ->
  exists st', clean_cell st = (Ok tt, st').
Proof.
  intros Ht Hacc Hu Hm Hz Hmz.
  unfold clean_cell.
  rewrite (bind_run _ _ _ _ _ (handle_duplicates_run st)).
  match goal with
  | |- context [bind standardize_text _ ?s] =>
      destruct (standardize_text_run s t Ht Hacc) as (st2 & R2 & D2)
  end.
  cbn [df] in D2.
  rewrite (bind_run _ _ _ _ _ R2).
  assert (Hu2 : getitem "duracion_dias" (df st2) = Ok u)
    by (rewrite D2, getitem_setitem_other by discriminate; exact Hu).
  destruct (impute_duracion_run _ u m Hu2 Hm) as (st3 & R3 & D3).
  rewrite (bind_run _ _ _ _ _ R3).
  assert (Hz3 : getitem "zona_circulacion" (df st3) = Ok z)
    by (rewrite D3, D2, !getitem_setitem_other by discriminate; exact Hz).
  destruct (impute_zona_run _ z mz Hz3 Hmz) as (st4 & R4 & D4).
  rewrite (bind_run _ _ _ _ _ R4).
  apply (correct_invalid_run st4 (fillna m u)).
  - rewrite D4, getitem_setitem_other by discriminate.
    rewrite D3. apply getitem_setitem_same.
  - apply fillna_no_text; eauto using median_not_text, median_Ok.
Qed.

Lemma impute_zona_input z c :
  In c z -> c <> NaN -> exists mz, getitem0 (mode z) = Ok mz.
Proof.
  intros Hin Hc. pose proof (mode_nonempty z c Hin Hc) as Hne.
  destruct (mode z) as [|mz t]; [congruence|]. now exists mz.
Qed.

(** The cleaning cell runs to the end on a table whose [tipo_vehiculo] is a
    text column, whose [duracion_dias] holds no text and whose
    [zona_circulacion] records at least one value. *)
Lemma clean_cell_completes st t u z c :
  getitem "tipo_vehiculo" (drop_duplicates (df st)) = Ok t ->
  str_accessor t = Ok t ->
  getitem "duracion_dias" (drop_duplicates (df st)) = Ok u ->
  existsb is_str u = false ->
  getitem "zona_circulacion" (drop_duplicates (df st)) = Ok z ->
  In c z -> c <> NaN ->
  exists st', clean_cell st = (Ok tt, st').
Proof.
  intros Ht Hacc Hu Hnum Hz Hin Hc.
  destruct (impute_zona_input z c Hin Hc) as [mz Hmz].
  eapply (clean_cell_complete st t u z _ mz); eauto.
  unfold median. now rewrite Hnum.
Qed.

(* ------------------------------------------------------------------ *)
(** ** Filling and overwriting a column *)

Lemma fillna_length v s : List.length (fillna v s) = List.length s.
Proof. unfold fillna. apply length_map. Qed.

Lemma str_map_length f s : List.length (str_map f s) = List.length s.
Proof. unfold str_map. apply length_map. Qed.

Lemma mask_set_length mask v s :
  List.length (mask_set mask v s) = List.length s.
Proof.
  revert s. induction mask as [|b m IH]; intros [|c t]; simpl; auto.
Qed.

Lemma mask_set_map (g : cell -> bool) v s :
  mask_set (map g s) v s = map (fun c => if g c then v else c) s.
Proof. induction s as [|c t IH]; simpl; [reflexivity|now rewrite IH]. Qed.

Lemma fillna_nth_error v s i :
  nth_error (fillna v s) i =
  option_map (fun c => if isna c then v else c) (nth_error s i).
Proof. unfold fillna. apply nth_error_map. Qed.

(** The column [duracion_dias] at the end of the cleaning cell, cell by
    cell. *)
Lemma corrected_nth_error m u i :
  nth_error (mask_set (map negative (fillna m u)) m (fillna m u)) i =
  option_map (fun c => let f := if isna c then m else c in
                       if negative f then m else f)
             (nth_error u i).
Proof.
  rewrite mask_set_map, nth_error_map, fillna_nth_error.
  now destruct (nth_error u i).
Qed.

Lemma fillna_notna v s :
  v <> NaN -> Forall (fun c => c <> NaN) (fillna v s).
Proof.
  intros Hv. unfold fillna. apply Forall_map, Forall_forall.
  intros c _. destruct c; simpl; congruence.
Qed.

(* ------------------------------------------------------------------ *)
(** ** The frame around the three cleaned columns *)

Lemma rectangular_setitem name s s0 d :
  rectangular d -> getitem name d = Ok s0 -> List.length s = nrows d ->
  rectangular (setitem name s d).
Proof.
  unfold rectangular, setitem, nrows; simpl. intros Hr _ Hs.
  induction Hr as [|[n s1] t Hc Hr IH]; simpl.
  - constructor; auto.
  - destruct (String.eqb n name); constructor; auto.
Qed.

Section Cleaned.
Variables (d : DataFrame) (t u z : Series) (m mz : cell).
Hypothesis Ht : getitem "tipo_vehiculo" d = Ok t.
Hypothesis Hu : getitem "duracion_dias" d = Ok u.
Hypothesis Hz : getitem "zona_circulacion" d = Ok z.

Lemma cleaned_index : index (cleaned d t u z m mz) = index d.
Proof. reflexivity. Qed.

Lemma cleaned_tipo :
  getitem "tipo_vehiculo" (cleaned d t u z m mz) =
  Ok (str_map Py.capitalize (str_map Py.strip t)).
Proof.
  unfold cleaned. rewrite !getitem_setitem_other by discriminate.
  apply getitem_setitem_same.
Qed.

Lemma cleaned_duracion :
  getitem "duracion_dias" (cleaned d t u z m mz) =
  Ok (mask_set (map negative (fillna m u)) m (fillna m u)).
Proof. unfold cleaned. apply getitem_setitem_same. Qed.

Lemma cleaned_zona :
  getitem "zona_circulacion" (cleaned d t u z m mz) = Ok (fillna mz z).
Proof.
  unfold cleaned. rewrite getitem_setitem_other by discriminate.
  apply getitem_setitem_same.
Qed.

Lemma cleaned_other name :
  name <> "tipo_vehiculo" -> name <> "duracion_dias" ->
  name <> "zona_circulacion" ->
  getitem name (cleaned d t u z m mz) = getitem name d.
Proof.
  intros H1 H2 H3. unfold cleaned.
  now rewrite !getitem_setitem_other by assumption.
Qed.

Lemma cleaned_columns : columns (cleaned d t u z m mz) = columns d.
Proof.
  unfold cleaned.
  erewrite columns_setitem
    by (rewrite getitem_setitem_other by discriminate;
        apply getitem_setitem_same).
  erewrite columns_setitem
    by (rewrite !getitem_setitem_other by discriminate; exact Hz).
  erewrite columns_setitem
    by (rewrite getitem_setitem_other by discriminate; exact Hu).
  erewrite columns_setitem by exact Ht.
  reflexivity.
Qed.

Lemma cleaned_rectangular :
  rectangular d -> rectangular (cleaned d t u z m mz).
Proof.
  intros Hr.
  assert (Hlen : forall name s, getitem name d = Ok s ->
                                List.length s = nrows d).
  { intros name s Hs. apply getitem_Ok in Hs.
    unfold rectangular in Hr. rewrite Forall_forall in Hr.
    revert Hs Hr. generalize (nrows d) as n. generalize (data d) as cols.
    induction cols as [|[n0 s0] cols IH]; simpl; [discriminate|].
    intros n Hs Hr. destruct (String.eqb n0 name).
    - inversion Hs; subst. apply (Hr (n0, s)). now left.
    - apply IH; auto. }
  unfold cleaned.
  eapply rectangular_setitem.
  - eapply rectangular_setitem.
    + eapply rectangular_setitem.
      * eapply rectangular_setitem; [exact Hr|exact Ht|].
        rewrite !str_map_length. eauto.
      * rewrite getitem_setitem_other by discriminate. exact Hu.
      * rewrite fillna_length. unfold nrows; simpl. eapply Hlen; eauto.
    + rewrite !getitem_setitem_other by discriminate. exact Hz.
    + rewrite fillna_length. unfold nrows; simpl. eapply Hlen; eauto.
  - rewrite getitem_setitem_other by discriminate.
    apply getitem_setitem_same.
  - rewrite mask_set_length, fillna_length. unfold nrows; simpl.
    eapply Hlen; eauto.
Qed.
End Cleaned.

(* ------------------------------------------------------------------ *)
(** ** The inspection cell and the persistence cell *)

Lemma inspect_cell_state st :
  df (snd (inspect_cell st)) = df st /\ fs (snd (inspect_cell st)) = fs st.
Proof.
  unfold inspect_cell, df_getitem, get_df, print, lift, bind; cbn [df stdout fs].
  destruct (getitem "duracion_dias" (df st)) as [s|e]; [|split; reflexivity].
  destruct (lt s (int 0)) as [mask|e]; split; reflexivity.
Qed.

Lemma path_eqb_refl p : path_eqb p p = true.
Proof.
  induction p as [|a p IH]; simpl; [reflexivity|].
  now rewrite String.eqb_refl, IH.
Qed.

Lemma read_write_file p c f f' :
  write_file p c f = (Ok tt, f') -> read_file p f' = Some c.
Proof.
  unfold write_file, read_file.
  destruct (is_dir p f || negb (is_dir (removelast p) f)); [discriminate|].
  destruct (is_readonly _ f); [discriminate|].
  destruct (room f) as [k|]; [destruct (Nat.leb (lines c) k); [|discriminate]|];
    intros H; injection H as <-; simpl; now rewrite path_eqb_refl.
Qed.

(** The persistence cell, step by step. *)
Lemma persist_cell_steps st :
  exists out1 out2 out3,
    persist_cell st =
    match getitem "duracion_dias" (df st) with
    | Raise e => (Raise e, mkState (df st) out1 (fs st))
    | Ok s =>
        match makedirs processed_dir (fs st) with
        | (Raise e, f1) => (Raise e, mkState (df st) out2 f1)
        | (Ok _, f1) =>
            match write_file cleaned_csv (to_csv_content false (df st)) f1 with
            | (Raise e, f2) => (Raise e, mkState (df st) out2 f2)
            | (Ok _, f2) => (Ok tt, mkState (df st) out3 f2)
            end
        end
    end /\
    forall s, getitem "duracion_dias" (df st) = Ok s ->
              exists last,
                out3 = stdout st ++ persist_report (df st) s ++ [last].
Proof.
  unfold persist_cell, df_getitem, os_makedirs, df_to_csv, on_fs, get_df,
    print, lift, bind; cbn [df stdout fs].
  destruct (getitem "duracion_dias" (df st)) as [s|e].
  - destruct (makedirs processed_dir (fs st)) as [[[]|e] f1]; cbn [df stdout fs].
    + destruct (write_file cleaned_csv _ f1) as [[[]|e] f2]; cbn [df stdout fs].
      * eexists [], [], _. split; [reflexivity|]. intros s' Hs'.
        injection Hs' as <-. eexists. rewrite <- !app_assoc. reflexivity.
      * eexists [], _, (stdout st ++ persist_report (df st) s ++ [Text EmptyString]).
        split; [reflexivity|]. intros s' Hs'. injection Hs' as <-. eauto.
    + eexists [], _, (stdout st ++ persist_report (df st) s ++ [Text EmptyString]).
      split; [reflexivity|]. intros s' Hs'. injection Hs' as <-. eauto.
  - eexists _, [], []. split; [reflexivity|]. discriminate.
Qed.

Lemma persist_cell_inv st st' :
  persist_cell st = (Ok tt, st') ->
  exists s f1 f2,
    getitem "duracion_dias" (df st) = Ok s /\
    makedirs processed_dir (fs st) = (Ok tt, f1) /\
    write_file cleaned_csv (to_csv_content false (df st)) f1 = (Ok tt, f2) /\
    df st' = df st /\ fs st' = f2 /\
    exists last, stdout st' = stdout st ++ persist_report (df st) s ++ [last].
Proof.
  destruct (persist_cell_steps st) as (o1 & o2 & o3 & -> & Hout).
  destruct (getitem "duracion_dias" (df st)) as [s|e]; [|discriminate].
  destruct (makedirs processed_dir (fs st)) as [[[]|e] f1]; [|discriminate].
  destruct (write_file cleaned_csv _ f1) as [[[]|e] f2] eqn:Hw; [|discriminate].
  intros H. injection H as <-. cbn [df fs stdout].
  exists s, f1, f2. repeat split; auto.
Qed.

Lemma persist_cell_Ok st st' :
  persist_cell st = (Ok tt, st') ->
  df st' = df st /\
  read_file cleaned_csv (fs st') = Some (to_csv_content false (df st)).
Proof.
  intros H.
  apply persist_cell_inv in H as (s & f1 & f2 & _ & _ & Hw & Hd & Hf & _).
  split; [exact Hd|]. rewrite Hf. eapply read_write_file; eauto.
Qed.

Lemma run_all_Ok st st' :
  run_all st = (Ok tt, st') ->
  exists st1 st2,
    df st1 = df st /\
    clean_cell st1 = (Ok tt, st2) /\
    df st' = df st2 /\
    read_file cleaned_csv (fs st') = Some (to_csv_content false (df st2)).
Proof.
  unfold run_all. intros H.
  apply bind_Ok in H as ([] & st1 & H1 & H).
  apply bind_Ok in H as ([] & st2 & H2 & H3).
  apply persist_cell_Ok in H3 as [Hd Hf].
  exists st1, st2. repeat split; auto.
  pose proof (inspect_cell_state st) as [Hi _].
  rewrite H1 in Hi. exact Hi.
Qed.

(** The first component of a run decides the pair. *)
Lemma run_pair {A} (m : M A) st a :
  fst (m st) = Ok a -> m st = (Ok a, snd (m st)).
Proof. destruct (m st) as [r st']; simpl. now intros ->. Qed.

Lemma select_combine {A B} m (a : list A) (b : list B) :
  select m (combine a b) = combine (select m a) (select m b).
Proof.
  revert a b. induction m as [|x m IH]; intros a b; [reflexivity|].
  destruct a as [|ha a]; [reflexivity|].
  destruct b as [|hb b].
  - simpl. now destruct (if x then ha :: select m a else select m a).
  - simpl. destruct x; simpl; now rewrite IH.
Qed.

Lemma select_subseq {A} m (l : list A) : subseq (select m l) l.
Proof.
  revert l. induction m as [|b m IH]; intros l.
  - simpl. induction l; constructor; auto.
  - destruct l as [|x l]; simpl; [constructor|].
    destruct b; constructor; apply IH.
Qed.

(* ------------------------------------------------------------------ *)
(** ** Rows through the cleaning cell *)

Lemma empty_no_rows d : data d <> [] -> empty d = true -> nrows d = 0.
Proof.
  unfold empty, ncols. intros Hd H. apply orb_true_iff in H as [H|H].
  - now apply Nat.eqb_eq in H.
  - apply Nat.eqb_eq, length_zero_iff_nil in H. contradiction.
Qed.

Lemma values_no_rows d :
  rectangular d -> data d <> [] -> nrows d = 0 -> values d = [].
Proof.
  intros Hr Hd Hn. apply length_zero_iff_nil.
  now rewrite values_length.
Qed.

Lemma clean_cell_has_columns st st' :
  clean_cell st = (Ok tt, st') -> data (df st) <> [].
Proof.
  intros Hrun.
  destruct (clean_cell_Ok _ _ Hrun)
    as (t & u & z & m & mz & Ht & _).
  intros E. apply getitem_Ok in Ht.
  assert (Hc : columns (drop_duplicates (df st)) = []).
  { rewrite columns_drop_duplicates. unfold columns. now rewrite E. }
  unfold columns in Hc. apply map_eq_nil in Hc. rewrite Hc in Ht. discriminate.
Qed.

Lemma clean_cell_nrows st st' :
  rectangular (df st) ->
  clean_cell st = (Ok tt, st') ->
  rectangular (df st') /\
  nrows (df st') = nrows (df st) - count_true (duplicated (df st)).
Proof.
  intros Hr Hrun.
  destruct (clean_cell_Ok _ _ Hrun)
    as (t & u & z & m & mz & Ht & _ & Hu & _ & Hz & _ & Hdf & _).
  rewrite Hdf. split.
  - apply cleaned_rectangular; auto. now apply rectangular_drop_duplicates.
  - unfold nrows at 1. rewrite cleaned_index.
    now apply nrows_drop_duplicates.
Qed.

Lemma drop_duplicates_select d :
  rectangular d -> data d <> [] ->
  drop_duplicates d = select_rows (map negb (duplicated d)) d.
Proof.
  intros Hr Hd. unfold drop_duplicates, duplicated.
  destruct (empty d) eqn:He; [|reflexivity].
  pose proof (empty_no_rows d Hd He) as Hn.
  destruct d as [idx cols]. unfold select_rows, rectangular, nrows in *.
  simpl in *. apply length_zero_iff_nil in Hn. subst idx. f_equal.
  rewrite <- (map_id cols) at 1. apply map_ext_in.
  intros [n s] Hin. rewrite Forall_forall in Hr. specialize (Hr _ Hin).
  simpl in *. apply length_zero_iff_nil in Hr. now subst s.
Qed.

Lemma lookup_select name m cols :
  lookup name (map (fun c => (fst c, select m (snd c))) cols) =
  option_map (select m) (lookup name cols).
Proof.
  induction cols as [|[n s] t IH]; simpl; [reflexivity|].
  destruct (String.eqb n name); [reflexivity|exact IH].
Qed.

Lemma getitem_select_rows name m d s :
  getitem name d = Ok s ->
  getitem name (select_rows m d) = Ok (select m s).
Proof.
  rewrite !getitem_Ok. unfold select_rows; simpl.
  rewrite lookup_select. now intros ->.
Qed.

Lemma zip_cons_row_length k c rows :
  Forall (fun r => List.length r = k) rows ->
  Forall (fun r => List.length r = S k) (zip_cons c rows).
Proof.
  intros H. revert c. induction H as [|r rows Hr _ IH]; intros [|x c]; simpl;
    constructor; simpl; auto.
Qed.

Lemma to_rows_row_length n cols :
  Forall (fun r => List.length r = List.length cols) (to_rows n cols).
Proof.
  induction cols as [|c cs IH]; simpl.
  - apply Forall_forall. intros r Hr. apply repeat_spec in Hr. now subst.
  - now apply zip_cons_row_length.
Qed.

(* ------------------------------------------------------------------ *)
(** ** A column and the rows it runs through *)

Lemma select_map {A B} (f : A -> B) m l :
  select m (map f l) = map f (select m l).
Proof.
  revert l. induction m as [|b m IH]; intros [|x l]; simpl; auto.
  destruct b; simpl; now rewrite IH.
Qed.

Lemma zip_cons_heads c rows :
  List.length c <= List.length rows ->
  map (fun r => nth 0 r NaN) (zip_cons c rows) = c.
Proof.
  revert rows. induction c as [|x c IH]; intros [|r rows]; simpl; auto.
  - lia.
  - intros H. f_equal. apply IH. lia.
Qed.

Lemma zip_cons_tails k c rows :
  List.length rows <= List.length c ->
  map (fun r => nth (S k) r NaN) (zip_cons c rows) =
  map (fun r => nth k r NaN) rows.
Proof.
  revert rows. induction c as [|x c IH]; intros [|r rows]; simpl; auto.
  - lia.
  - intros H. f_equal. apply IH. lia.
Qed.

Lemma to_rows_column n cols k s :
  Forall (fun c => List.length c = n) cols ->
  nth_error cols k = Some s ->
  map (fun r => nth k r NaN) (to_rows n cols) = s.
Proof.
  intros H. revert k. induction H as [|c cs Hc Hcs IH]; intros k Hk.
  - destruct k; discriminate.
  - pose proof (to_rows_length n cs Hcs) as Hl. simpl.
    destruct k as [|k]; simpl in Hk.
    + injection Hk as <-. apply zip_cons_heads. lia.
    + rewrite zip_cons_tails by lia. now apply IH.
Qed.

Lemma lookup_position name cols s :
  lookup name cols = Some s -> exists k, nth_error (map snd cols) k = Some s.
Proof.
  induction cols as [|[n s0] t IH]; simpl; [discriminate|].
  destruct (String.eqb n name).
  - intros H. exists 0. exact H.
  - intros H. destruct (IH H) as [k Hk]. now exists (S k).
Qed.

(** A value of a column is still in that column once duplicates are
    dropped: the first of the rows that carry it is kept. *)
Lemma drop_duplicates_keeps_values d name s c :
  rectangular d -> data d <> [] ->
  getitem name d = Ok s -> In c s ->
  exists s', getitem name (drop_duplicates d) = Ok s' /\ In c s'.
Proof.
  intros Hr Hd Hs Hc.
  rewrite (drop_duplicates_select d Hr Hd).
  exists (select (map negb (duplicated d)) s).
  split; [now apply getitem_select_rows|].
  destruct (empty d) eqn:He.
  { pose proof (empty_no_rows d Hd He) as Hn.
    apply getitem_Ok, lookup_position in Hs as [k Hk].
    pose proof (rectangular_columns d Hr) as Hcols.
    rewrite Forall_forall in Hcols.
    specialize (Hcols s (nth_error_In _ _ Hk)).
    rewrite Hn in Hcols. apply length_zero_iff_nil in Hcols.
    subst s. destruct Hc. }
  apply getitem_Ok, lookup_position in Hs as [k Hk].
  pose proof (to_rows_column _ _ _ _ (rectangular_columns d Hr) Hk) as Hcol.
  fold (values d) in Hcol.
  rewrite <- Hcol, select_map. rewrite <- Hcol in Hc.
  apply in_map_iff in Hc as (r & Hrc & Hin).
  apply in_map_iff. exists r. split; [exact Hrc|].
  unfold duplicated. rewrite He.
  destruct (kept_all [] _ _ Hin) as [[]|H]. exact H.
Qed.

(* ------------------------------------------------------------------ *)
(** ** The sample tables run through the cleaning cell *)

Lemma sample_cleans : fst (clean_cell (session sample)) = Ok tt.
Proof. vm_compute. reflexivity. Qed.

Lemma sample_deduplicated_durations :
  getitem "duracion_dias" (drop_duplicates (df (session sample))) =
  Ok sample_durations.
Proof. vm_compute. reflexivity. Qed.

Lemma sample_negative_cleans : fst (clean_cell (session sample_negative)) = Ok tt.
Proof. vm_compute. reflexivity. Qed.

Lemma sample_no_duration_cleans :
  fst (clean_cell (session sample_no_duration)) = Ok tt.
Proof. vm_compute. reflexivity. Qed.

Lemma median_sample_durations : median sample_durations = Ok (Num (int 6)).
Proof.
  unfold median. change (existsb is_str sample_durations) with false.
  cbv iota. f_equal. apply cell_eqb_eq. vm_compute. reflexivity.
Qed.

(* ------------------------------------------------------------------ *)
(** ** Median imputation: C1, C2, C3 *)

(** C1, as the claim states it, fails: on a table whose de-duplicated
    durations are [5, -3, null, 7, 9] the cell does not compute the median
    7 and does not put 7 in the two corrected rows. *)
Lemma median_7_refuted :
  ~ (forall st st' final,
       getitem "duracion_dias" (drop_duplicates (df st)) = Ok sample_durations ->
       clean_cell st = (Ok tt, st') ->
       getitem "duracion_dias" (df st') = Ok final ->
       median sample_durations = Ok (Num (int 7)) /\
       nth_error final 2 = Some (Num (int 7)) /\
       nth_error final 1 = Some (Num (int 7))).
Proof.
  intros H.
  pose proof (run_pair _ _ _ sample_cleans) as Hrun.
  destruct (clean_cell_Ok _ _ Hrun)
    as (t & u & z & m & mz & _ & _ & _ & _ & _ & _ & Hdf & _).
  destruct (H _ _ _ sample_deduplicated_durations Hrun
              (eq_trans (f_equal _ Hdf) (cleaned_duracion _ _ _ _ _ _)))
    as [Hm _].
  rewrite median_sample_durations in Hm.
  injection Hm as Hm. discriminate Hm.
Qed.

(** C1, amended: for de-duplicated durations [5, -3, null, 7, 9] the median
    is taken over the four recorded values, the negative one included, so
    [median_duracion] is 6, and after cleaning both the row that had null
    and the row that had -3 hold 6. *)
Theorem median_of_sample_durations st st' :
  getitem "duracion_dias" (drop_duplicates (df st)) = Ok sample_durations ->
  clean_cell st = (Ok tt, st') ->
  median sample_durations = Ok (Num (int 6)) /\
  exists final,
    getitem "duracion_dias" (df st') = Ok final /\
    nth_error final 2 = Some (Num (int 6)) /\
    nth_error final 1 = Some (Num (int 6)) /\
    final = [Num (int 5); Num (int 6); Num (int 6); Num (int 7); Num (int 9)].
Proof.
  intros Hu Hrun.
  destruct (clean_cell_Ok _ _ Hrun)
    as (t & u & z & m & mz & _ & _ & Hu' & Hm & _ & _ & Hdf & _).
  rewrite Hu in Hu'. injection Hu' as <-.
  rewrite median_sample_durations in Hm. injection Hm as <-.
  split; [exact median_sample_durations|].
  eexists. split; [rewrite Hdf; apply cleaned_duracion|].
  repeat split.
Qed.

Lemma median_of_sample_durations_witness :
  let st' := snd (clean_cell (session sample)) in
  getitem "duracion_dias" (drop_duplicates (df (session sample))) =
  Ok sample_durations /\
  clean_cell (session sample) = (Ok tt, st') /\
  median sample_durations = Ok (Num (int 6)) /\
  exists final,
    getitem "duracion_dias" (df st') = Ok final /\
    nth_error final 2 = Some (Num (int 6)) /\
    nth_error final 1 = Some (Num (int 6)) /\
    final = [Num (int 5); Num (int 6); Num (int 6); Num (int 7); Num (int 9)].
Proof.
  intros st'.
  assert (h1 := sample_deduplicated_durations).
  assert (h2 := run_pair clean_cell (session sample) tt sample_cleans).
  exact (conj h1 (conj h2 (median_of_sample_durations _ _ h1 h2))).
Defined.

(** C2, as the claim states it, fails: when the median of the recorded
    durations is negative, every corrected duration is negative. *)
Lemma nonnegative_durations_refuted :
  ~ (forall st st' final,
       clean_cell st = (Ok tt, st') ->
       getitem "duracion_dias" (df st') = Ok final ->
       Forall nonnegative final).
Proof.
  intros H.
  pose proof (run_pair _ _ _ sample_negative_cleans) as Hrun.
  destruct (clean_cell_Ok _ _ Hrun)
    as (t & u & z & m & mz & _ & _ & Hu & Hm & _ & _ & Hdf & _).
  specialize (H _ _ _ Hrun (eq_trans (f_equal _ Hdf) (cleaned_duracion _ _ _ _ _ _))).
  assert (Hu0 : u = [Num (int (-5)); Num (int (-3)); NaN]).
  { vm_compute in Hu. now injection Hu as <-. }
  subst u.
  assert (Hm0 : m = Num (int (-4))).
  { assert (E : median [Num (int (-5)); Num (int (-3)); NaN] =
                 Ok (Num (int (-4)))).
    { unfold median. cbn [existsb is_str orb]. f_equal.
      apply cell_eqb_eq. vm_compute. reflexivity. }
    congruence. }
  subst m.
  apply Forall_inv in H. destruct H as (q & Hq & Hle).
  vm_compute in Hq. injection Hq as Hq.
  unfold Qcle in Hle. rewrite <- Hq in Hle. vm_compute in Hle.
  apply Hle. reflexivity.
Qed.

(** C2, amended: when the cleaning cell completes and the median of the
    recorded durations is a number that is not negative, no duration is
    negative afterwards; and in every case the value the fill writes into a
    missing duration is the median, which the overwrite of negative values
    leaves in place. *)
Theorem durations_after_cleaning st st' :
  clean_cell st = (Ok tt, st') ->
  exists u m,
    getitem "duracion_dias" (drop_duplicates (df st)) = Ok u /\
    median u = Ok m /\
    let filled := fillna m u in
    let final := mask_set (map negative filled) m filled in
    getitem "duracion_dias" (df st') = Ok final /\
    (forall i, nth_error u i = Some NaN ->
               nth_error filled i = Some m /\ nth_error final i = Some m) /\
    (forall q, m = Num q -> (int 0 <= q)%Qc -> Forall nonnegative final).
Proof.
  intros Hrun.
  destruct (clean_cell_Ok _ _ Hrun)
    as (t & u & z & m & mz & _ & _ & Hu & Hm & _ & _ & Hdf & _).
  exists u, m. repeat split; auto.
  - rewrite Hdf. apply cleaned_duracion.
  - rewrite fillna_nth_error, H. reflexivity.
  - rewrite corrected_nth_error, H. simpl.
    now destruct (negative m).
  - intros q -> Hq. apply Forall_forall. intros c Hc.
    apply In_nth_error in Hc as [i Hi].
    rewrite corrected_nth_error in Hi.
    destruct (nth_error u i) as [c0|] eqn:E; [|discriminate].
    simpl in Hi. injection Hi as <-.
    assert (Hnot : is_str c0 = false).
    { apply median_Ok in Hm.
      destruct (is_str c0) eqn:Es; [|reflexivity].
      assert (existsb is_str u = true).
      { apply existsb_exists. exists c0. split; [|assumption].
        eapply nth_error_In; eauto. }
      congruence. }
    destruct c0 as [|q0|x]; simpl in *; try discriminate.
    + destruct (Qc_ltb q (int 0)); exists q; auto.
    + destruct (Qc_ltb q0 (int 0)) eqn:El.
      * exists q; auto.
      * exists q0. split; [reflexivity|]. now apply Qc_ltb_ge.
Qed.

Lemma durations_after_cleaning_witness :
  clean_cell (session sample) = (Ok tt, snd (clean_cell (session sample))) /\
  exists u m,
    getitem "duracion_dias" (drop_duplicates (df (session sample))) = Ok u /\
    median u = Ok m /\
    let filled := fillna m u in
    let final := mask_set (map negative filled) m filled in
    getitem "duracion_dias" (df (snd (clean_cell (session sample)))) = Ok final /\
    (forall i, nth_error u i = Some NaN ->
               nth_error filled i = Some m /\ nth_error final i = Some m) /\
    (forall q, m = Num q -> (int 0 <= q)%Qc -> Forall nonnegative final).
Proof.
  assert (h := run_pair clean_cell (session sample) tt sample_cleans).
  exact (conj h (durations_after_cleaning _ _ h)).
Defined.

(** C3, as the claim states it, fails: when no duration is recorded the
    cleaning cell completes and every duration is still missing. *)
Lemma no_missing_values_refuted :
  ~ (forall st st' durations zones,
       clean_cell st = (Ok tt, st') ->
       getitem "duracion_dias" (df st') = Ok durations ->
       getitem "zona_circulacion" (df st') = Ok zones ->
       Forall (fun c => c <> NaN) durations /\
       Forall (fun c => c <> NaN) zones).
Proof.
  intros H.
  pose proof (run_pair _ _ _ sample_no_duration_cleans) as Hrun.
  destruct (H _ _ [NaN; NaN] [Str "A"; Str "B"] Hrun) as [Hd _];
    try (vm_compute; reflexivity).
  apply Forall_inv in Hd. congruence.
Qed.

(** C3, amended: when the cleaning cell completes, no zone is missing, and
    no duration is missing provided the de-duplicated table, or the
    rectangular table it comes from, records at least one duration; a
    [duracion_dias] column that is entirely missing is left as it is. *)
Theorem missing_values_after_cleaning st st' :
  clean_cell st = (Ok tt, st') ->
  exists u durations zones,
    getitem "duracion_dias" (drop_duplicates (df st)) = Ok u /\
    getitem "duracion_dias" (df st') = Ok durations /\
    getitem "zona_circulacion" (df st') = Ok zones /\
    Forall (fun c => c <> NaN) zones /\
    ((exists c, In c u /\ c <> NaN) -> Forall (fun c => c <> NaN) durations) /\
    (rectangular (df st) ->
     forall s, getitem "duracion_dias" (df st) = Ok s ->
               (exists c, In c s /\ c <> NaN) ->
               Forall (fun c => c <> NaN) durations) /\
    (Forall (fun c => c = NaN) u -> durations = u).
Proof.
  intros Hrun.
  destruct (clean_cell_Ok _ _ Hrun)
    as (t & u & z & m & mz & _ & _ & Hu & Hm & _ & Hmz & Hdf & _).
  exists u, (mask_set (map negative (fillna m u)) m (fillna m u)), (fillna mz z).
  split; [assumption|].
  split; [rewrite Hdf; apply cleaned_duracion|].
  split; [rewrite Hdf; apply cleaned_zona|].
  assert (Hrecorded :
            (exists c, In c u /\ c <> NaN) ->
            Forall (fun c => c <> NaN)
                   (mask_set (map negative (fillna m u)) m (fillna m u))).
  { intros (c & Hc & Hcn).
    assert (Hmn : m <> NaN).
    { intros ->. apply median_NaN in Hm. rewrite Forall_forall in Hm. auto. }
    rewrite mask_set_map. apply Forall_map, Forall_forall.
    intros x Hx. apply (proj1 (Forall_forall _ _) (fillna_notna m u Hmn)) in Hx.
    now destruct (negative x). }
  split; [|split; [|split]].
  - apply fillna_notna. now apply mode_first_spec in Hmz.
  - exact Hrecorded.
  - intros Hr s Hs (c & Hc & Hcn). apply Hrecorded.
    destruct (drop_duplicates_keeps_values _ _ _ _ Hr
                (clean_cell_has_columns _ _ Hrun) Hs Hc) as (s' & Hs' & Hc').
    rewrite Hu in Hs'. injection Hs' as <-. eauto.
  - intros Hall.
    assert (m = NaN) as ->.
    { apply median_NaN in Hall. congruence. }
    rewrite mask_set_map. unfold fillna. rewrite map_map.
    rewrite <- (map_id u) at 2. apply map_ext_in.
    intros c Hc. rewrite Forall_forall in Hall. now rewrite (Hall c Hc).
Qed.

Lemma missing_values_after_cleaning_witness :
  clean_cell (session sample) = (Ok tt, snd (clean_cell (session sample))) /\
  exists u durations zones,
    getitem "duracion_dias" (drop_duplicates (df (session sample))) = Ok u /\
    getitem "duracion_dias" (df (snd (clean_cell (session sample)))) =
    Ok durations /\
    getitem "zona_circulacion" (df (snd (clean_cell (session sample)))) =
    Ok zones /\
    Forall (fun c => c <> NaN) zones /\
    ((exists c, In c u /\ c <> NaN) -> Forall (fun c => c <> NaN) durations) /\
    (rectangular (df (session sample)) ->
     forall s, getitem "duracion_dias" (df (session sample)) = Ok s ->
               (exists c, In c s /\ c <> NaN) ->
               Forall (fun c => c <> NaN) durations) /\
    (Forall (fun c => c = NaN) u -> durations = u).
Proof.
  assert (h := run_pair clean_cell (session sample) tt sample_cleans).
  exact (conj h (missing_values_after_cleaning _ _ h)).
Defined.

(* ------------------------------------------------------------------ *)
(** ** Mode imputation: C4 *)

(** C4, as the claim states it, fails: in the sample the zones B and A tie
    and B comes first in the column, yet the missing zone is filled
    with A. *)
Lemma first_encountered_tie_break_refuted :
  ~ (forall st st' z,
       clean_cell st = (Ok tt, st') ->
       getitem "zona_circulacion" (drop_duplicates (df st)) = Ok z ->
       getitem "zona_circulacion" (df st') =
       Ok (fillna (first_encountered_mode z) z)).
Proof.
  intros H.
  pose proof (run_pair _ _ _ sample_cleans) as Hrun.
  specialize (H _ _ [Str "B"; Str "A"; NaN; Str "B"; Str "A"] Hrun eq_refl).
  vm_compute in H. discriminate H.
Qed.

(** C4, amended: when the cleaning cell completes, every missing zone of
    the de-duplicated table is filled with one value of the column, recorded
    zones are left as they are, no other recorded value is more frequent
    than the filling one, and any value that is as frequent is above it or
    equal to it in ascending order ([cell_leb]: numbers by value, texts by
    code point, a number before a text). *)
Theorem zones_after_cleaning st st' z :
  clean_cell st = (Ok tt, st') ->
  getitem "zona_circulacion" (drop_duplicates (df st)) = Ok z ->
  exists most_frequent_zona,
    most_frequent_zona <> NaN /\ In most_frequent_zona z /\
    getitem "zona_circulacion" (df st') = Ok (fillna most_frequent_zona z) /\
    (forall i, nth_error z i = Some NaN ->
               nth_error (fillna most_frequent_zona z) i =
               Some most_frequent_zona) /\
    (forall i c, nth_error z i = Some c -> c <> NaN ->
                 nth_error (fillna most_frequent_zona z) i = Some c) /\
    (forall c, In c z -> c <> NaN -> count c z <= count most_frequent_zona z) /\
    (forall c, In c z -> c <> NaN -> count c z = count most_frequent_zona z ->
               cell_leb most_frequent_zona c = true).
Proof.
  intros Hrun Hz.
  destruct (clean_cell_Ok _ _ Hrun)
    as (t & u & z' & m & mz & _ & _ & _ & _ & Hz' & Hmz & Hdf & _).
  rewrite Hz in Hz'. injection Hz' as <-.
  destruct (mode_first_spec _ _ Hmz) as (Hn & Hin & Hmax & Hleast).
  exists mz. repeat split; auto.
  - rewrite Hdf. apply cleaned_zona.
  - intros i Hi. now rewrite fillna_nth_error, Hi.
  - intros i c Hi Hc. rewrite fillna_nth_error, Hi. simpl.
    destruct c; simpl; congruence.
Qed.

Lemma zones_after_cleaning_witness :
  let z := [Str "B"; Str "A"; NaN; Str "B"; Str "A"] in
  let st' := snd (clean_cell (session sample)) in
  let zm := [Str "b"; Num (int 2); NaN; Str "b"; Num (int 2)] in
  let stm := snd (clean_cell (session sample_mixed_zones)) in
  (clean_cell (session sample) = (Ok tt, st') /\
   getitem "zona_circulacion" (drop_duplicates (df (session sample))) = Ok z /\
   getitem "zona_circulacion" (df st') = Ok (fillna (Str "A") z)) /\
  (clean_cell (session sample_mixed_zones) = (Ok tt, stm) /\
   getitem "zona_circulacion"
     (drop_duplicates (df (session sample_mixed_zones))) = Ok zm /\
   getitem "zona_circulacion" (df stm) = Ok (fillna (Num (int 2)) zm)).
Proof.
  intros z st' zm stm. subst z st' zm stm.
  assert (h1 := run_pair clean_cell (session sample) tt sample_cleans).
  assert (h2 : getitem "zona_circulacion"
                 (drop_duplicates (df (session sample))) =
               Ok [Str "B"; Str "A"; NaN; Str "B"; Str "A"])
    by (vm_compute; reflexivity).
  assert (h3 := run_pair clean_cell (session sample_mixed_zones) tt
                  ltac:(vm_compute; reflexivity)).
  assert (h4 : getitem "zona_circulacion"
                 (drop_duplicates (df (session sample_mixed_zones))) =
               Ok [Str "b"; Num (int 2); NaN; Str "b"; Num (int 2)])
    by (vm_compute; reflexivity).
  split.
  - destruct (zones_after_cleaning _ _ _ h1 h2)
      as (mz & Hn & Hin & Hz & _ & _ & Hmax & Hleast).
    split; [exact h1|]. split; [exact h2|].
    rewrite Hz. do 2 f_equal.
    (* the filling value is B or A, and B is above A *)
    cbn [In] in Hin.
    destruct Hin as [<-|[<-|[<-|[<-|[<-|[]]]]]]; try reflexivity;
      try congruence;
      specialize (Hleast (Str "A") (or_intror (or_introl eq_refl))
                         ltac:(discriminate) eq_refl);
      discriminate Hleast.
  - destruct (zones_after_cleaning _ _ _ h3 h4)
      as (mz & Hn & Hin & Hz & _ & _ & Hmax & Hleast).
    split; [exact h3|]. split; [exact h4|].
    rewrite Hz. do 2 f_equal.
    (* the filling value is b or 2, and the text is above the number *)
    cbn [In] in Hin.
    destruct Hin as [<-|[<-|[<-|[<-|[<-|[]]]]]]; try reflexivity;
      try congruence;
      specialize (Hleast (Num (int 2)) (or_intror (or_introl eq_refl))
                         ltac:(discriminate) eq_refl);
      discriminate Hleast.
Defined.

(* ------------------------------------------------------------------ *)
(** ** Text normalisation: C5, C10 *)




(** C10: the cleaning cell never imputes [tipo_vehiculo]; a row of the
    de-duplicated table whose [tipo_vehiculo] is missing still has it
    missing afterwards. *)
Theorem missing_tipo_vehiculo_stays_missing st st' t :
  clean_cell st = (Ok tt, st') ->
  getitem "tipo_vehiculo" (drop_duplicates (df st)) = Ok t ->
  exists t',
    getitem "tipo_vehiculo" (df st') = Ok t' /\
    List.length t' = List.length t /\
    forall i, nth_error t i = Some NaN -> nth_error t' i = Some NaN.
Proof.
  intros Hrun Ht.
  destruct (clean_cell_Ok _ _ Hrun)
    as (t0 & u & z & m & mz & Ht0 & _ & _ & _ & _ & _ & Hdf & _).
  rewrite Ht in Ht0. injection Ht0 as <-.
  exists (str_map Py.capitalize (str_map Py.strip t)).
  split; [rewrite Hdf; apply cleaned_tipo|].
  split; [now rewrite !str_map_length|].
  intros i Hi. now rewrite !str_map_nth_error, Hi.
Qed.

Lemma missing_tipo_vehiculo_stays_missing_witness :
  let t := [Str " auto "; Str "CAMION"; Str "moto"; NaN; Str "Auto"] in
  let st' := snd (clean_cell (session sample)) in
  clean_cell (session sample) = (Ok tt, st') /\
  getitem "tipo_vehiculo" (drop_duplicates (df (session sample))) = Ok t /\
  nth_error t 3 = Some NaN /\
  exists t',
    getitem "tipo_vehiculo" (df st') = Ok t' /\
    List.length t' = List.length t /\
    forall i, nth_error t i = Some NaN -> nth_error t' i = Some NaN.
Proof.
  intros t st'.
  assert (h1 := run_pair clean_cell (session sample) tt sample_cleans).
  assert (h2 : getitem "tipo_vehiculo"
                 (drop_duplicates (df (session sample))) = Ok t)
    by reflexivity.
  exact (conj h1 (conj h2 (conj eq_refl
           (missing_tipo_vehiculo_stays_missing _ _ _ h1 h2)))).
Defined.

(* ------------------------------------------------------------------ *)
(** ** Duplicate removal and row accounting: C6, C7 *)

(** C6: on a rectangular table with at least one column, [duplicated] flags
    exactly the rows equal to an earlier row; [drop_duplicates] keeps
    exactly the rows that are not flagged, with their labels and in their
    order, so that no two kept rows are equal and every row of the table is
    equal to a kept one; the number of rows goes down by the number of
    flagged rows; and when the three cells run to the end, the table left
    in [df] and the file written have that number of rows. *)
Theorem drop_duplicates_accounting d :
  rectangular d -> data d <> [] ->
  let keep := map negb (duplicated d) in
  List.length (duplicated d) = nrows d /\
  (forall i r,
     nth_error (values d) i = Some r ->
     (nth_error (duplicated d) i = Some true <->
      exists j, j < i /\ nth_error (values d) j = Some r)) /\
  values (drop_duplicates d) = select keep (values d) /\
  index (drop_duplicates d) = select keep (index d) /\
  subseq (combine (index (drop_duplicates d)) (values (drop_duplicates d)))
         (combine (index d) (values d)) /\
  NoDup (values (drop_duplicates d)) /\
  (forall r, In r (values d) -> In r (values (drop_duplicates d))) /\
  nrows (drop_duplicates d) = nrows d - count_true (duplicated d) /\
  (forall st st',
     df st = d -> run_all st = (Ok tt, st') ->
     nrows (df st') = nrows d - count_true (duplicated d) /\
     exists f,
       read_file cleaned_csv (fs st') = Some f /\
       List.length (records f) = nrows d - count_true (duplicated d)).
Proof.
  intros Hr Hd keep.
  assert (Hlen : List.length (duplicated d) = nrows d).
  { destruct (empty d) eqn:He.
    - unfold duplicated. rewrite He. simpl. symmetry.
      now apply empty_no_rows.
    - now apply duplicated_length. }
  assert (Hvals : values (drop_duplicates d) = select keep (values d)).
  { destruct (empty d) eqn:He.
    - unfold drop_duplicates. rewrite He.
      rewrite (values_no_rows d Hr Hd (empty_no_rows d Hd He)).
      now destruct keep.
    - now apply values_drop_duplicates. }
  assert (Hidx : index (drop_duplicates d) = select keep (index d)).
  { destruct (empty d) eqn:He.
    - unfold drop_duplicates. rewrite He.
      pose proof (empty_no_rows d Hd He) as Hn. unfold nrows in Hn.
      apply length_zero_iff_nil in Hn. rewrite Hn. now destruct keep.
    - unfold drop_duplicates. rewrite He. reflexivity. }
  assert (Hdup : empty d = false ->
                 duplicated d = duplicated_from [] (values d)).
  { intros He. unfold duplicated. now rewrite He. }
  split; [exact Hlen|].
  split.
  { intros i r Hi. destruct (empty d) eqn:He.
    - rewrite (values_no_rows d Hr Hd (empty_no_rows d Hd He)) in Hi.
      destruct i; discriminate.
    - rewrite (Hdup eq_refl), (duplicated_from_spec [] _ _ _ Hi).
      simpl. tauto. }
  split; [exact Hvals|].
  split; [exact Hidx|].
  split.
  { rewrite Hvals, Hidx, <- select_combine. apply select_subseq. }
  split.
  { rewrite Hvals. destruct (empty d) eqn:He.
    - rewrite (values_no_rows d Hr Hd (empty_no_rows d Hd He)).
      destruct keep; constructor.
    - unfold keep. rewrite (Hdup eq_refl). apply kept_NoDup. }
  split.
  { intros r Hin. rewrite Hvals. destruct (empty d) eqn:He.
    - rewrite (values_no_rows d Hr Hd (empty_no_rows d Hd He)) in Hin.
      destruct Hin.
    - unfold keep. rewrite (Hdup eq_refl).
      destruct (kept_all [] _ _ Hin) as [[]|H]. exact H. }
  split; [now apply nrows_drop_duplicates|].
  intros st st' Hst Hrun.
  apply run_all_Ok in Hrun as (st1 & st2 & H1 & H2 & H3 & H4).
  assert (Hr1 : rectangular (df st1)) by (rewrite H1, Hst; exact Hr).
  destruct (clean_cell_nrows _ _ Hr1 H2) as [Hr2 Hn2].
  rewrite H1, Hst in Hn2.
  split; [now rewrite H3|].
  eexists. split; [exact H4|]. simpl.
  now rewrite values_length.
Qed.

Lemma drop_duplicates_accounting_witness :
  rectangular sample /\ data sample <> [] /\
  duplicated sample = [false; false; false; false; false; true] /\
  index (drop_duplicates sample) = [0; 1; 2; 3; 4] /\
  nrows (drop_duplicates sample) = 5 /\
  exists f,
    read_file cleaned_csv (fs (snd (run_all (session sample)))) = Some f /\
    List.length (records f) = 5.
Proof.
  assert (h1 : rectangular sample) by (repeat constructor).
  assert (h2 : data sample <> []) by discriminate.
  destruct (drop_duplicates_accounting sample h1 h2)
    as (_ & _ & _ & _ & _ & _ & _ & Hn & Hrun).
  assert (h3 : run_all (session sample) =
               (Ok tt, snd (run_all (session sample))))
    by (apply run_pair; vm_compute; reflexivity).
  destruct (Hrun (session sample) _ eq_refl h3) as (_ & f & Hf & Hlen).
  split; [exact h1|]. split; [exact h2|].
  split; [reflexivity|]. split; [reflexivity|].
  split; [exact Hn|].
  exists f. split; [exact Hf|exact Hlen].
Defined.

(** C7: removing duplicates twice is the same as removing them once. *)
Theorem drop_duplicates_idempotent d :
  rectangular d ->
  drop_duplicates (drop_duplicates d) = drop_duplicates d.
Proof. apply drop_duplicates_twice. Qed.

Lemma drop_duplicates_idempotent_witness :
  rectangular sample /\
  drop_duplicates sample <> sample /\
  drop_duplicates (drop_duplicates sample) = drop_duplicates sample.
Proof.
  assert (h : rectangular sample) by (repeat constructor).
  split; [exact h|]. split; [|exact (drop_duplicates_idempotent sample h)].
  intros E. apply (f_equal nrows) in E. vm_compute in E. discriminate E.
Defined.

(* ------------------------------------------------------------------ *)
(** ** The frame of the run: C8, C9 *)

(** C8: when the three cells run to the end on a rectangular table, [df]
    has the columns of the input in the same order and the labels of the
    rows that survive; the file written has those column names as its
    header and the rows of [df] as its records, with no cell for the row
    label; and any column other than [tipo_vehiculo], [duracion_dias] and
    [zona_circulacion] holds, for the rows that survive, the values it held
    in the input. *)
Theorem other_columns_unchanged st st' :
  rectangular (df st) ->
  run_all st = (Ok tt, st') ->
  let keep := map negb (duplicated (df st)) in
  columns (df st') = columns (df st) /\
  index (df st') = select keep (index (df st)) /\
  (exists f,
     read_file cleaned_csv (fs st') = Some f /\
     header f = columns (df st) /\
     records f = values (df st') /\
     Forall (fun r => List.length r = List.length (columns (df st)))
            (records f)) /\
  (forall name s,
     name <> "tipo_vehiculo" -> name <> "duracion_dias" ->
     name <> "zona_circulacion" ->
     getitem name (df st) = Ok s ->
     getitem name (df st') = Ok (select keep s)).
Proof.
  intros Hr Hrun keep.
  apply run_all_Ok in Hrun as (st1 & st2 & H1 & H2 & H3 & H4).
  pose proof (clean_cell_has_columns _ _ H2) as Hd.
  destruct (clean_cell_Ok _ _ H2)
    as (t & u & z & m & mz & Ht & _ & Hu & _ & Hz & _ & Hdf & _).
  rewrite H1 in *. rewrite H3, Hdf.
  assert (Hcols : columns (cleaned (drop_duplicates (df st)) t u z m mz) =
                  columns (df st)).
  { rewrite (cleaned_columns _ _ _ _ _ _ Ht Hu Hz).
    apply columns_drop_duplicates. }
  split; [exact Hcols|].
  split.
  { rewrite cleaned_index, (drop_duplicates_select _ Hr Hd). reflexivity. }
  split.
  { eexists. split; [exact H4|]. rewrite Hdf. simpl.
    split; [exact Hcols|]. split; [reflexivity|].
    eapply Forall_impl; [|apply to_rows_row_length].
    intros r Hlen. cbv beta in Hlen. rewrite Hlen, <- Hcols.
    unfold columns. now rewrite !length_map. }
  intros name s Hn1 Hn2 Hn3 Hs.
  rewrite cleaned_other by assumption.
  rewrite (drop_duplicates_select _ Hr Hd).
  now apply getitem_select_rows.
Qed.

Lemma other_columns_unchanged_witness :
  let st' := snd (run_all (session sample)) in
  rectangular (df (session sample)) /\
  run_all (session sample) = (Ok tt, st') /\
  columns (df st') =
  ["id"; "tipo_vehiculo"; "duracion_dias"; "zona_circulacion"] /\
  getitem "id" (df st') = Ok (ints [1; 2; 3; 4; 5]%Z) /\
  exists f,
    read_file cleaned_csv (fs st') = Some f /\
    header f = ["id"; "tipo_vehiculo"; "duracion_dias"; "zona_circulacion"].
Proof.
  intros st'.
  assert (h1 : rectangular (df (session sample))) by (repeat constructor).
  assert (h2 : run_all (session sample) = (Ok tt, st'))
    by (apply run_pair; vm_compute; reflexivity).
  destruct (other_columns_unchanged _ _ h1 h2)
    as (Hc & _ & (f & Hf & Hh & _) & Hother).
  split; [exact h1|]. split; [exact h2|]. split; [exact Hc|].
  split.
  - assert (Hid : getitem "id" (df (session sample)) =
                  Ok (ints [1; 2; 3; 4; 5; 1]%Z)) by reflexivity.
    etransitivity.
    + apply (Hother "id" _ ltac:(discriminate) ltac:(discriminate)
                    ltac:(discriminate) Hid).
    + vm_compute. reflexivity.
  - exists f. split; [exact Hf|exact Hh].
Defined.

(** C9: the inspection cell leaves the table in [df], and the file system,
    as they were, whether it runs to the end or raises; it only prints. *)
Theorem inspect_cell_does_not_mutate st :
  df (snd (inspect_cell st)) = df st /\
  fs (snd (inspect_cell st)) = fs st /\
  exists printed, stdout (snd (inspect_cell st)) = stdout st ++ printed.
Proof.
  destruct (inspect_cell_state st) as [Hd Hf].
  split; [exact Hd|]. split; [exact Hf|].
  unfold inspect_cell, df_getitem, get_df, print, lift, bind; cbn [df stdout fs].
  destruct (getitem "duracion_dias" (df st)) as [s|e].
  - destruct (lt s (int 0)) as [mask|e]; cbn [snd stdout];
      rewrite <- ?app_assoc; eexists; reflexivity.
  - cbn [snd stdout]. rewrite <- ?app_assoc. eexists; reflexivity.
Qed.

(* ================================================================== *)
(** * Further properties of the cells *)

(* ------------------------------------------------------------------ *)
(** ** When the cleaning cell stops *)

Lemma bind_raise {A B} (m : M A) (f : A -> M B) st e st1 :
  m st = (Raise e, st1) -> bind m f st = (Raise e, st1).
Proof. unfold bind. now intros ->. Qed.

Lemma select_In {A} m (l : list A) x : In x (select m l) -> In x l.
Proof.
  revert l. induction m as [|b m IH]; intros [|y t]; simpl; try tauto.
  destruct b; simpl; intros H; [destruct H as [H|H]|]; auto.
Qed.

Lemma has_text_In s : has_text s = true <-> exists x, In (Str x) s.
Proof.
  unfold has_text. rewrite existsb_exists. split.
  - intros (c & Hc & Hs). destruct c; try discriminate. eauto.
  - intros (x & Hx). exists (Str x). auto.
Qed.

Lemma has_value_In s : has_value s = true <-> exists c, In c s /\ c <> NaN.
Proof.
  unfold has_value. rewrite existsb_exists. split.
  - intros (c & Hc & Hn). exists c. split; [assumption|].
    intros ->. discriminate.
  - intros (c & Hc & Hn). exists c. split; [assumption|].
    destruct c; simpl; congruence.
Qed.

Lemma getitem_drop_duplicates_raise name d e :
  getitem name d = Raise e -> getitem name (drop_duplicates d) = Raise e.
Proof.
  unfold drop_duplicates. destruct (empty d); [auto|].
  unfold getitem, select_rows; simpl. rewrite lookup_select.
  destruct (lookup name (data d)); simpl; congruence.
Qed.

(** A column of the de-duplicated table holds the values of the column it
    comes from. *)
Lemma getitem_drop_duplicates d name s :
  rectangular d -> data d <> [] ->
  getitem name d = Ok s ->
  exists s',
    getitem name (drop_duplicates d) = Ok s' /\
    (forall c, In c s <-> In c s').
Proof.
  intros Hr Hd Hs.
  exists (select (map negb (duplicated d)) s). split.
  - rewrite (drop_duplicates_select d Hr Hd). now apply getitem_select_rows.
  - intros c. split.
    + intros Hc.
      destruct (drop_duplicates_keeps_values d name s c Hr Hd Hs Hc)
        as (s' & Hs' & Hc').
      rewrite (drop_duplicates_select d Hr Hd) in Hs'.
      rewrite (getitem_select_rows _ _ _ _ Hs) in Hs'.
      now injection Hs' as <-.
    + apply select_In.
Qed.

Lemma getitem_drop_duplicates_inv d name s' :
  getitem name (drop_duplicates d) = Ok s' -> exists s, getitem name d = Ok s.
Proof.
  intros H. destruct (getitem name d) as [s|e] eqn:E; [eauto|].
  rewrite (getitem_drop_duplicates_raise _ _ _ E) in H. discriminate.
Qed.

Lemma has_text_dedup d name s s' :
  rectangular d -> data d <> [] ->
  getitem name d = Ok s -> getitem name (drop_duplicates d) = Ok s' ->
  has_text s' = has_text s /\ has_value s' = has_value s.
Proof.
  intros Hr Hd Hs Hs'.
  destruct (getitem_drop_duplicates d name s Hr Hd Hs) as (s0 & Hs0 & Hin).
  rewrite Hs' in Hs0. injection Hs0 as <-.
  split; apply eq_true_iff_eq.
  - rewrite !has_text_In. split; intros (x & Hx); exists x; now apply Hin.
  - rewrite !has_value_In.
    split; intros (c & Hc & Hn); exists c; split; auto; now apply Hin.
Qed.

Lemma str_accessor_has_text s : has_text s = true -> str_accessor s = Ok s.
Proof.
  unfold str_accessor, has_text. destruct s; [reflexivity|]. now intros ->.
Qed.

Lemma str_accessor_refused s :
  s <> [] -> has_text s = false -> str_accessor s = Raise AttributeError.
Proof.
  unfold str_accessor, has_text. destruct s; [congruence|]. now intros _ ->.
Qed.

Lemma mode_all_missing z : has_value z = false -> mode z = [].
Proof.
  intros H.
  assert (E : dropna z = []).
  { unfold dropna. unfold has_value in H.
    induction z as [|c t IH]; simpl in *; [reflexivity|].
    apply orb_false_iff in H as [Hc Ht]. rewrite Hc. auto. }
  rewrite mode_unfold, E. reflexivity.
Qed.

Lemma getitem_data_nonempty name d s : getitem name d = Ok s -> data d <> [].
Proof. intros H E. apply getitem_Ok in H. rewrite E in H. discriminate. Qed.

(** The outcome of each step on the state it starts from. *)
Lemma standardize_text_raise_KeyError st e :
  getitem "tipo_vehiculo" (df st) = Raise e ->
  standardize_text st = (Raise e, st).
Proof.
  intros H. unfold standardize_text, df_getitem, get_df, lift, bind.
  now rewrite H.
Qed.

Lemma standardize_text_raise_AttributeError st t :
  getitem "tipo_vehiculo" (df st) = Ok t ->
  t <> [] -> has_text t = false ->
  standardize_text st = (Raise AttributeError, st).
Proof.
  intros H Ht Hn. unfold standardize_text, df_getitem, get_df, lift, bind.
  rewrite H. unfold str_strip. now rewrite (str_accessor_refused t Ht Hn).
Qed.

Lemma impute_duracion_raise_KeyError st e :
  getitem "duracion_dias" (df st) = Raise e ->
  impute_duracion st = (Raise e, st).
Proof.
  intros H. unfold impute_duracion, df_getitem, get_df, lift, bind.
  now rewrite H.
Qed.

Lemma impute_duracion_raise_TypeError st u :
  getitem "duracion_dias" (df st) = Ok u -> has_text u = true ->
  impute_duracion st = (Raise TypeError, st).
Proof.
  intros H Ht. unfold impute_duracion, df_getitem, get_df, lift, bind.
  rewrite H. unfold median. unfold has_text in Ht. now rewrite Ht.
Qed.

Lemma impute_zona_raise_missing_column st e :
  getitem "zona_circulacion" (df st) = Raise e ->
  impute_zona st = (Raise e, st).
Proof.
  intros H. unfold impute_zona, df_getitem, get_df, lift, bind.
  now rewrite H.
Qed.

Lemma impute_zona_raise_no_mode st z :
  getitem "zona_circulacion" (df st) = Ok z -> has_value z = false ->
  impute_zona st = (Raise KeyError, st).
Proof.
  intros H Hn. unfold impute_zona, df_getitem, get_df, lift, bind.
  rewrite H, (mode_all_missing z Hn). reflexivity.
Qed.

Lemma getitem_raises_KeyError name d e :
  getitem name d = Raise e -> e = KeyError.
Proof. unfold getitem. destruct (lookup name (data d)); congruence. Qed.

(** The cleaning cell up to the end of the text step, and up to the end
    of the fill of the durations. *)
Lemma clean_cell_after_text st t :
  getitem "tipo_vehiculo" (drop_duplicates (df st)) = Ok t ->
  str_accessor t = Ok t ->
  exists st2,
    bind handle_duplicates (fun _ => standardize_text) st = (Ok tt, st2) /\
    df st2 = setitem "tipo_vehiculo"
               (str_map Py.capitalize (str_map Py.strip t))
               (drop_duplicates (df st)) /\
    fs st2 = fs st.
Proof.
  intros Ht Hacc.
  rewrite (bind_run _ _ _ _ _ (handle_duplicates_run st)).
  match goal with
  | |- context [standardize_text ?s] =>
      destruct (standardize_text_run s t Ht Hacc) as (st2 & R2 & D2);
      pose proof (standardize_text_Ok _ _ R2) as (_ & _ & _ & _ & F2)
  end.
  exists st2. auto.
Qed.

Lemma clean_cell_after_fill st t u m :
  getitem "tipo_vehiculo" (drop_duplicates (df st)) = Ok t ->
  str_accessor t = Ok t ->
  getitem "duracion_dias" (drop_duplicates (df st)) = Ok u ->
  median u = Ok m ->
  exists st3,
    bind handle_duplicates
      (fun _ => bind standardize_text (fun _ => impute_duracion)) st =
    (Ok m, st3) /\
    df st3 = filled (drop_duplicates (df st)) t u m /\
    fs st3 = fs st.
Proof.
  intros Ht Hacc Hu Hm.
  destruct (clean_cell_after_text st t Ht Hacc) as (st2 & R2 & D2 & F2).
  apply bind_Ok in R2 as ([] & st1 & R1 & R2).
  rewrite (bind_run _ _ _ _ _ R1), (bind_run _ _ _ _ _ R2).
  assert (Hu2 : getitem "duracion_dias" (df st2) = Ok u)
    by (rewrite D2, getitem_setitem_other by discriminate; exact Hu).
  destruct (impute_duracion_run _ u m Hu2 Hm) as (st3 & R3 & D3).
  pose proof (impute_duracion_Ok _ _ _ R3) as (_ & _ & _ & _ & F3).
  exists st3. split; [exact R3|]. split; [|congruence].
  rewrite D3, D2. reflexivity.
Qed.

(** X3: when the de-duplicated [tipo_vehiculo] has rows but no text at all
    (numeric codes, or nothing recorded), the cleaning cell raises
    [AttributeError] at the first [.str]; by then the duplicates are
    dropped, and nothing else is changed. *)
Theorem clean_cell_tipo_not_text st t :
  getitem "tipo_vehiculo" (drop_duplicates (df st)) = Ok t ->
  t <> [] -> has_text t = false ->
  fst (clean_cell st) = Raise AttributeError /\
  df (snd (clean_cell st)) = drop_duplicates (df st) /\
  fs (snd (clean_cell st)) = fs st.
Proof.
  intros Ht Hne Hnt. unfold clean_cell.
  rewrite (bind_run _ _ _ _ _ (handle_duplicates_run st)).
  erewrite bind_raise
    by (apply (standardize_text_raise_AttributeError _ t); assumption).
  repeat split.
Qed.

Lemma clean_cell_tipo_not_text_witness :
  getitem "tipo_vehiculo" (drop_duplicates (df (session sample_numeric_tipo))) =
  Ok (ints [1; 2]%Z) /\
  fst (clean_cell (session sample_numeric_tipo)) = Raise AttributeError /\
  df (snd (clean_cell (session sample_numeric_tipo))) =
  drop_duplicates (df (session sample_numeric_tipo)) /\
  fs (snd (clean_cell (session sample_numeric_tipo))) =
  fs (session sample_numeric_tipo).
Proof.
  assert (h : getitem "tipo_vehiculo"
                (drop_duplicates (df (session sample_numeric_tipo))) =
              Ok (ints [1; 2]%Z)) by reflexivity.
  split; [exact h|].
  apply (clean_cell_tipo_not_text _ _ h); [discriminate|reflexivity].
Defined.

(** X4: when the de-duplicated [duracion_dias] holds a text, the cleaning
    cell raises [TypeError] at the median; by then the duplicates are
    dropped and [tipo_vehiculo] is normalised, and no duration or zone is
    changed. *)
Theorem clean_cell_duration_text st t u :
  getitem "tipo_vehiculo" (drop_duplicates (df st)) = Ok t ->
  str_accessor t = Ok t ->
  getitem "duracion_dias" (drop_duplicates (df st)) = Ok u ->
  has_text u = true ->
  fst (clean_cell st) = Raise TypeError /\
  df (snd (clean_cell st)) =
  setitem "tipo_vehiculo" (str_map Py.capitalize (str_map Py.strip t))
          (drop_duplicates (df st)) /\
  fs (snd (clean_cell st)) = fs st.
Proof.
  intros Ht Hacc Hu Htext.
  destruct (clean_cell_after_text st t Ht Hacc) as (st2 & R2 & D2 & F2).
  apply bind_Ok in R2 as ([] & st1 & R1 & R2).
  unfold clean_cell.
  rewrite (bind_run _ _ _ _ _ R1), (bind_run _ _ _ _ _ R2).
  assert (Hu2 : getitem "duracion_dias" (df st2) = Ok u)
    by (rewrite D2, getitem_setitem_other by discriminate; exact Hu).
  rewrite (bind_raise _ _ _ _ _ (impute_duracion_raise_TypeError _ u Hu2 Htext)).
  simpl. auto.
Qed.

Lemma clean_cell_duration_text_witness :
  let st := session sample_text_duration in
  let t := [Str "auto"; Str "moto"] in
  getitem "tipo_vehiculo" (drop_duplicates (df st)) = Ok t /\
  fst (clean_cell st) = Raise TypeError /\
  df (snd (clean_cell st)) =
  setitem "tipo_vehiculo" (str_map Py.capitalize (str_map Py.strip t))
          (drop_duplicates (df st)) /\
  fs (snd (clean_cell st)) = fs st.
Proof.
  intros st t.
  assert (h : getitem "tipo_vehiculo" (drop_duplicates (df st)) = Ok t)
    by reflexivity.
  split; [exact h|].
  apply (clean_cell_duration_text st t [Str "tres"; Str "4"] h);
    reflexivity.
Defined.

(** X2: when the de-duplicated [zona_circulacion] records no value, the
    cleaning cell raises [KeyError] at [mode()[0]]; by then the duplicates
    are dropped, [tipo_vehiculo] is normalised and the missing durations
    are filled, while the negative durations are not yet replaced. *)
Theorem clean_cell_no_zone_recorded st t u m z :
  getitem "tipo_vehiculo" (drop_duplicates (df st)) = Ok t ->
  str_accessor t = Ok t ->
  getitem "duracion_dias" (drop_duplicates (df st)) = Ok u ->
  median u = Ok m ->
  getitem "zona_circulacion" (drop_duplicates (df st)) = Ok z ->
  has_value z = false ->
  fst (clean_cell st) = Raise KeyError /\
  df (snd (clean_cell st)) = filled (drop_duplicates (df st)) t u m /\
  getitem "duracion_dias" (df (snd (clean_cell st))) = Ok (fillna m u) /\
  fs (snd (clean_cell st)) = fs st.
Proof.
  intros Ht Hacc Hu Hm Hz Hnone.
  destruct (clean_cell_after_fill st t u m Ht Hacc Hu Hm)
    as (st3 & R3 & D3 & F3).
  apply bind_Ok in R3 as ([] & st1 & R1 & R3).
  apply bind_Ok in R3 as ([] & st2 & R2 & R3).
  unfold clean_cell.
  rewrite (bind_run _ _ _ _ _ R1), (bind_run _ _ _ _ _ R2),
    (bind_run _ _ _ _ _ R3).
  assert (Hz3 : getitem "zona_circulacion" (df st3) = Ok z).
  { rewrite D3. unfold filled.
    rewrite !getitem_setitem_other by discriminate. exact Hz. }
  rewrite (bind_raise _ _ _ _ _ (impute_zona_raise_no_mode _ z Hz3 Hnone)).
  simpl. repeat split; auto.
  rewrite D3. unfold filled. apply getitem_setitem_same.
Qed.

Lemma clean_cell_no_zone_recorded_witness :
  let st := session sample_no_zone in
  fst (clean_cell st) = Raise KeyError /\
  df (snd (clean_cell st)) =
  filled (drop_duplicates (df st)) [Str "auto"; Str "moto"]
         [Num (int 3); NaN] (Num (int 3)) /\
  getitem "duracion_dias" (df (snd (clean_cell st))) =
  Ok (fillna (Num (int 3)) [Num (int 3); NaN]) /\
  fs (snd (clean_cell st)) = fs st.
Proof.
  intros st.
  apply (clean_cell_no_zone_recorded st [Str "auto"; Str "moto"]
           [Num (int 3); NaN] (Num (int 3)) [NaN; NaN]);
    reflexivity.
Defined.

(** X5: a table that lacks [tipo_vehiculo] makes the cleaning cell raise
    [KeyError] once the duplicates are dropped; one that lacks
    [duracion_dias] or [zona_circulacion] makes it raise [KeyError] when the
    steps before that column went through, with their changes kept. *)
Theorem clean_cell_missing_column st :
  (getitem "tipo_vehiculo" (df st) = Raise KeyError ->
   fst (clean_cell st) = Raise KeyError /\
   df (snd (clean_cell st)) = drop_duplicates (df st)) /\
  (forall t,
     getitem "tipo_vehiculo" (drop_duplicates (df st)) = Ok t ->
     str_accessor t = Ok t ->
     getitem "duracion_dias" (df st) = Raise KeyError ->
     fst (clean_cell st) = Raise KeyError /\
     df (snd (clean_cell st)) =
     setitem "tipo_vehiculo" (str_map Py.capitalize (str_map Py.strip t))
             (drop_duplicates (df st))) /\
  (forall t u m,
     getitem "tipo_vehiculo" (drop_duplicates (df st)) = Ok t ->
     str_accessor t = Ok t ->
     getitem "duracion_dias" (drop_duplicates (df st)) = Ok u ->
     median u = Ok m ->
     getitem "zona_circulacion" (df st) = Raise KeyError ->
     fst (clean_cell st) = Raise KeyError /\
     df (snd (clean_cell st)) = filled (drop_duplicates (df st)) t u m).
Proof.
  split; [|split].
  - intros H. apply getitem_drop_duplicates_raise in H. unfold clean_cell.
    rewrite (bind_run _ _ _ _ _ (handle_duplicates_run st)).
    erewrite bind_raise by (apply standardize_text_raise_KeyError; exact H).
    split; reflexivity.
  - intros t Ht Hacc H. apply getitem_drop_duplicates_raise in H.
    destruct (clean_cell_after_text st t Ht Hacc) as (st2 & R2 & D2 & F2).
    apply bind_Ok in R2 as ([] & st1 & R1 & R2).
    unfold clean_cell.
    rewrite (bind_run _ _ _ _ _ R1), (bind_run _ _ _ _ _ R2).
    assert (H2 : getitem "duracion_dias" (df st2) = Raise KeyError)
      by (rewrite D2, getitem_setitem_other by discriminate; exact H).
    rewrite (bind_raise _ _ _ _ _ (impute_duracion_raise_KeyError _ _ H2)).
    simpl. auto.
  - intros t u m Ht Hacc Hu Hm H. apply getitem_drop_duplicates_raise in H.
    destruct (clean_cell_after_fill st t u m Ht Hacc Hu Hm)
      as (st3 & R3 & D3 & F3).
    apply bind_Ok in R3 as ([] & st1 & R1 & R3).
    apply bind_Ok in R3 as ([] & st2 & R2 & R3).
    unfold clean_cell.
    rewrite (bind_run _ _ _ _ _ R1), (bind_run _ _ _ _ _ R2),
      (bind_run _ _ _ _ _ R3).
    assert (H3 : getitem "zona_circulacion" (df st3) = Raise KeyError).
    { rewrite D3. unfold filled.
      rewrite !getitem_setitem_other by discriminate. exact H. }
    rewrite (bind_raise _ _ _ _ _ (impute_zona_raise_missing_column _ _ H3)).
    simpl. auto.
Qed.

Lemma clean_cell_missing_column_witness :
  let st := session sample_no_zone_column in
  let t := [Str "auto"; Str "moto"; Str "bus"] in
  getitem "zona_circulacion" (df st) = Raise KeyError /\
  fst (clean_cell st) = Raise KeyError /\
  df (snd (clean_cell st)) =
  filled (drop_duplicates (df st)) t (ints [3; 5; 4]%Z) (Num (int 4)).
Proof.
  intros st t.
  assert (h : getitem "zona_circulacion" (df st) = Raise KeyError)
    by reflexivity.
  split; [exact h|].
  destruct (clean_cell_missing_column st) as (_ & _ & H).
  apply (H t (ints [3; 5; 4]%Z) (Num (int 4))); try reflexivity.
Defined.

(* ------------------------------------------------------------------ *)
(** ** When the cleaning cell runs to the end *)

Lemma getitem_rectangular_length d name s :
  rectangular d -> getitem name d = Ok s -> List.length s = nrows d.
Proof.
  intros Hr Hs. apply getitem_Ok in Hs.
  unfold rectangular in Hr. rewrite Forall_forall in Hr.
  apply (Hr (name, s)).
  revert Hs. generalize (data d) as cols.
  induction cols as [|[n s0] cols IH]; simpl; [discriminate|].
  destruct (String.eqb_spec n name) as [->|Hn].
  - intros H. injection H as ->. now left.
  - intros H. right. auto.
Qed.

Lemma cleanable_dedup d :
  rectangular d -> data d <> [] ->
  forall t u z,
    getitem "tipo_vehiculo" d = Ok t ->
    getitem "duracion_dias" d = Ok u ->
    getitem "zona_circulacion" d = Ok z ->
    exists t' u' z',
      getitem "tipo_vehiculo" (drop_duplicates d) = Ok t' /\
      getitem "duracion_dias" (drop_duplicates d) = Ok u' /\
      getitem "zona_circulacion" (drop_duplicates d) = Ok z' /\
      has_text t' = has_text t /\ has_text u' = has_text u /\
      has_value z' = has_value z.
Proof.
  intros Hr Hd t u z Ht Hu Hz.
  destruct (getitem_drop_duplicates d _ _ Hr Hd Ht) as (t' & Ht' & _).
  destruct (getitem_drop_duplicates d _ _ Hr Hd Hu) as (u' & Hu' & _).
  destruct (getitem_drop_duplicates d _ _ Hr Hd Hz) as (z' & Hz' & _).
  exists t', u', z'. repeat split; auto.
  - apply (has_text_dedup d _ _ _ Hr Hd Ht Ht').
  - apply (has_text_dedup d _ _ _ Hr Hd Hu Hu').
  - apply (has_text_dedup d _ _ _ Hr Hd Hz Hz').
Qed.

Lemma clean_cell_runs st t u z :
  rectangular (df st) ->
  getitem "tipo_vehiculo" (df st) = Ok t -> has_text t = true ->
  getitem "duracion_dias" (df st) = Ok u -> has_text u = false ->
  getitem "zona_circulacion" (df st) = Ok z -> has_value z = true ->
  exists st', clean_cell st = (Ok tt, st').
Proof.
  intros Hr Ht Htt Hu Hut Hz Hzv.
  pose proof (getitem_data_nonempty _ _ _ Ht) as Hd.
  destruct (cleanable_dedup _ Hr Hd t u z Ht Hu Hz)
    as (t' & u' & z' & Ht' & Hu' & Hz' & Et & Eu & Ez).
  rewrite <- Ez in Hzv. apply has_value_In in Hzv as (c & Hc & Hn).
  apply (clean_cell_completes st t' u' z' c); auto.
  - apply str_accessor_has_text. congruence.
  - unfold has_text in *. congruence.
Qed.

Lemma clean_cell_ran st st' :
  rectangular (df st) ->
  clean_cell st = (Ok tt, st') ->
  exists t u z,
    getitem "tipo_vehiculo" (df st) = Ok t /\ has_text t = true /\
    getitem "duracion_dias" (df st) = Ok u /\ has_text u = false /\
    getitem "zona_circulacion" (df st) = Ok z /\ has_value z = true.
Proof.
  intros Hr Hrun.
  pose proof (clean_cell_has_columns _ _ Hrun) as Hd.
  destruct (clean_cell_Ok _ _ Hrun)
    as (t' & u' & z' & m & mz & Ht' & Hacc & Hu' & Hm & Hz' & Hmz & _).
  destruct (getitem_drop_duplicates_inv _ _ _ Ht') as [t Ht].
  destruct (getitem_drop_duplicates_inv _ _ _ Hu') as [u Hu].
  destruct (getitem_drop_duplicates_inv _ _ _ Hz') as [z Hz].
  destruct (cleanable_dedup _ Hr Hd t u z Ht Hu Hz)
    as (t0 & u0 & z0 & Ht0 & Hu0 & Hz0 & Et & Eu & Ez).
  rewrite Ht' in Ht0. injection Ht0 as <-.
  rewrite Hu' in Hu0. injection Hu0 as <-.
  rewrite Hz' in Hz0. injection Hz0 as <-.
  destruct (mode_first_spec _ _ Hmz) as (Hn & Hin & _).
  assert (Hzv : has_value z' = true) by (apply has_value_In; eauto).
  exists t, u, z. repeat split; auto; try congruence.
  - rewrite <- Et. unfold has_text.
    unfold str_accessor in Hacc. destruct t' as [|c0 t0].
    + (* no row: the zone column would be empty too *)
      pose proof (rectangular_drop_duplicates _ Hr) as Hr'.
      pose proof (getitem_rectangular_length _ _ _ Hr' Ht') as Lt.
      pose proof (getitem_rectangular_length _ _ _ Hr' Hz') as Lz.
      simpl in Lt. rewrite <- Lt in Lz. apply length_zero_iff_nil in Lz.
      subst z'. destruct Hin.
    + destruct (existsb is_str (c0 :: t0)); [reflexivity|discriminate].
  - rewrite <- Eu. unfold has_text. eapply median_Ok; eauto.
Qed.

(** X1: on a rectangular table the cleaning cell runs to the end exactly
    when [df] has the three columns, [tipo_vehiculo] holds at least one
    text, [duracion_dias] holds no text and [zona_circulacion] records at
    least one value. *)
Theorem clean_cell_completes_iff st :
  rectangular (df st) ->
  ((exists st', clean_cell st = (Ok tt, st')) <->
   (exists t u z,
      getitem "tipo_vehiculo" (df st) = Ok t /\ has_text t = true /\
      getitem "duracion_dias" (df st) = Ok u /\ has_text u = false /\
      getitem "zona_circulacion" (df st) = Ok z /\ has_value z = true)).
Proof.
  intros Hr. split.
  - intros (st' & Hrun). now apply (clean_cell_ran st st').
  - intros (t & u & z & Ht & Htt & Hu & Hut & Hz & Hzv).
    now apply (clean_cell_runs st t u z).
Qed.

Lemma clean_cell_completes_iff_witness :
  rectangular (df (session sample)) /\
  ((exists st', clean_cell (session sample) = (Ok tt, st')) <->
   (exists t u z,
      getitem "tipo_vehiculo" (df (session sample)) = Ok t /\
      has_text t = true /\
      getitem "duracion_dias" (df (session sample)) = Ok u /\
      has_text u = false /\
      getitem "zona_circulacion" (df (session sample)) = Ok z /\
      has_value z = true)).
Proof.
  assert (h : rectangular (df (session sample))) by (repeat constructor).
  exact (conj h (clean_cell_completes_iff (session sample) h)).
Defined.

(* ------------------------------------------------------------------ *)
(** ** Normalising a text twice, and texts that differ in case or
       surrounding whitespace *)

Ltac by_cases_on_char c :=
  destruct c as [[] [] [] [] [] [] [] []]; vm_compute; reflexivity.

Lemma isspace_upper_char c : Py.isspace (Py.upper_char c) = Py.isspace c.
Proof. by_cases_on_char c. Qed.

Lemma isspace_lower_char c : Py.isspace (Py.lower_char c) = Py.isspace c.
Proof. by_cases_on_char c. Qed.

Lemma upper_char_idem c : Py.upper_char (Py.upper_char c) = Py.upper_char c.
Proof. by_cases_on_char c. Qed.

Lemma lower_char_idem c : Py.lower_char (Py.lower_char c) = Py.lower_char c.
Proof. by_cases_on_char c. Qed.

Lemma upper_lower_char c : Py.upper_char (Py.lower_char c) = Py.upper_char c.
Proof. by_cases_on_char c. Qed.

Lemma lower_idem s : Py.lower (Py.lower s) = Py.lower s.
Proof.
  induction s as [|c r IH]; simpl; [reflexivity|].
  now rewrite lower_char_idem, IH.
Qed.

Lemma lower_app a b : Py.lower (a ++ b) = (Py.lower a ++ Py.lower b)%string.
Proof. induction a as [|c a IH]; simpl; [reflexivity|now rewrite IH]. Qed.

Lemma reversed_lower s : Py.reversed (Py.lower s) = Py.lower (Py.reversed s).
Proof.
  induction s as [|c r IH]; simpl; [reflexivity|].
  now rewrite IH, lower_app.
Qed.

Lemma starts_with_space_lower s :
  starts_with_space (Py.lower s) = starts_with_space s.
Proof. destruct s; simpl; [reflexivity|apply isspace_lower_char]. Qed.

Lemma starts_with_space_app a b :
  a <> EmptyString -> starts_with_space (a ++ b) = starts_with_space a.
Proof. destruct a; simpl; congruence. Qed.

Lemma reversed_nonempty c r : Py.reversed (String c r) <> EmptyString.
Proof. simpl. destruct (Py.reversed r); simpl; discriminate. Qed.

Lemma capitalize_lower s : Py.capitalize (Py.lower s) = Py.capitalize s.
Proof.
  destruct s as [|c r]; simpl; [reflexivity|].
  now rewrite upper_lower_char, lower_idem.
Qed.

Lemma capitalize_idem s : Py.capitalize (Py.capitalize s) = Py.capitalize s.
Proof.
  destruct s as [|c r]; simpl; [reflexivity|].
  now rewrite upper_char_idem, lower_idem.
Qed.

Lemma starts_with_space_capitalize s :
  starts_with_space (Py.capitalize s) = starts_with_space s.
Proof. destruct s; simpl; [reflexivity|apply isspace_upper_char]. Qed.

Lemma ends_with_space_capitalize s :
  ends_with_space (Py.capitalize s) = ends_with_space s.
Proof.
  unfold ends_with_space. destruct s as [|c r]; [reflexivity|].
  cbn [Py.capitalize Py.reversed].
  destruct r as [|c' r'].
  - simpl. apply isspace_upper_char.
  - rewrite !starts_with_space_app.
    + now rewrite reversed_lower, starts_with_space_lower.
    + apply reversed_nonempty.
    + rewrite reversed_lower. intros E.
      apply (reversed_nonempty c' r').
      destruct (Py.reversed (String c' r')); [reflexivity|discriminate].
Qed.

(** A text with no whitespace at either end is its own [strip]. *)
Lemma strip_trimmed s :
  starts_with_space s = false -> ends_with_space s = false -> Py.strip s = s.
Proof.
  unfold Py.strip, Py.rstrip, ends_with_space. intros Hs He.
  assert (E1 : Py.lstrip s = s) by (destruct s; simpl in *; [|rewrite Hs]; reflexivity).
  rewrite E1.
  assert (E2 : Py.lstrip (Py.reversed s) = Py.reversed s).
  { destruct (Py.reversed s); simpl in *; [|rewrite He]; reflexivity. }
  rewrite E2. apply reversed_involutive.
Qed.

Lemma normalize_idem s : normalize (normalize s) = normalize s.
Proof.
  unfold normalize.
  destruct (strip_spec s) as (l & r & _ & _ & _ & Hs & He).
  rewrite strip_trimmed.
  - apply capitalize_idem.
  - now rewrite starts_with_space_capitalize.
  - now rewrite ends_with_space_capitalize.
Qed.

Lemma lstrip_app_space l s : all_space l = true -> Py.lstrip (l ++ s) = Py.lstrip s.
Proof.
  induction l as [|c l IH]; simpl; [reflexivity|].
  intros H. apply andb_true_iff in H as [Hc Hl]. rewrite Hc. auto.
Qed.

Lemma lstrip_all_space l : all_space l = true -> Py.lstrip l = EmptyString.
Proof.
  induction l as [|c l IH]; simpl; [reflexivity|].
  intros H. apply andb_true_iff in H as [Hc Hl]. rewrite Hc. auto.
Qed.

Lemma rstrip_app_space s r : all_space r = true -> Py.rstrip (s ++ r) = Py.rstrip s.
Proof.
  intros H. unfold Py.rstrip. rewrite reversed_app, lstrip_app_space; auto.
  now rewrite all_space_reversed.
Qed.

Lemma lstrip_app_kept s r :
  Py.lstrip s <> EmptyString -> Py.lstrip (s ++ r) = (Py.lstrip s ++ r)%string.
Proof.
  induction s as [|c s IH]; simpl; [congruence|].
  destruct (Py.isspace c); auto.
Qed.

(** Whitespace added at either end does not change what [strip] gives. *)
Lemma strip_padding l s r :
  all_space l = true -> all_space r = true ->
  Py.strip (l ++ s ++ r) = Py.strip s.
Proof.
  intros Hl Hr. unfold Py.strip. rewrite lstrip_app_space by assumption.
  destruct (Py.lstrip s) as [|c k] eqn:E.
  - (* [s] is all whitespace *)
    assert (Hs : all_space s = true).
    { clear -E. induction s as [|c s IH]; simpl in *; [reflexivity|].
      destruct (Py.isspace c); [auto|discriminate]. }
    rewrite lstrip_all_space by (rewrite all_space_app, Hs, Hr; reflexivity).
    reflexivity.
  - rewrite lstrip_app_kept by (rewrite E; discriminate).
    rewrite E. now apply rstrip_app_space.
Qed.

(** X16: two ASCII texts that differ only in letter case and in the
    whitespace around them get the same normalised [tipo_vehiculo], an
    ASCII text again. *)
Theorem normalize_merges_variants a b :
  Py.isascii a = true -> Py.isascii b = true ->
  Py.lower (Py.strip a) = Py.lower (Py.strip b) ->
  normalize a = normalize b /\
  Py.isascii (normalize a) = true /\
  (forall l r, all_space l = true -> all_space r = true ->
               normalize (l ++ a ++ r) = normalize a).
Proof.
  intros Ha Hb H. unfold normalize. split; [|split].
  - rewrite <- (capitalize_lower (Py.strip a)), H. apply capitalize_lower.
  - rewrite isascii_capitalize. now apply isascii_strip.
  - intros l r Hl Hr. now rewrite strip_padding.
Qed.

Lemma normalize_merges_variants_witness :
  Py.isascii " auto " = true /\ Py.isascii "AUTO" = true /\
  Py.lower (Py.strip " auto ") = Py.lower (Py.strip "AUTO") /\
  normalize " auto " = normalize "AUTO" /\
  Py.isascii (normalize " auto ") = true /\
  (forall l r, all_space l = true -> all_space r = true ->
               normalize (l ++ " auto " ++ r) = normalize " auto ").
Proof.
  assert (h1 : Py.isascii " auto " = true) by reflexivity.
  assert (h2 : Py.isascii "AUTO" = true) by reflexivity.
  assert (h : Py.lower (Py.strip " auto ") = Py.lower (Py.strip "AUTO"))
    by reflexivity.
  exact (conj h1 (conj h2 (conj h
           (normalize_merges_variants " auto " "AUTO" h1 h2 h)))).
Defined.

Lemma str_map_normalize t :
  str_map Py.capitalize (str_map Py.strip t) =
  map (fun c => match c with Str x => Str (normalize x) | _ => NaN end) t.
Proof.
  unfold str_map. rewrite map_map. apply map_ext. now intros [].
Qed.

Lemma normalized_twice t :
  let t' := str_map Py.capitalize (str_map Py.strip t) in
  str_map Py.capitalize (str_map Py.strip t') = t'.
Proof.
  simpl. rewrite !str_map_normalize, map_map. apply map_ext.
  intros []; try reflexivity. now rewrite normalize_idem.
Qed.

Lemma ascii_text_normalized t :
  ascii_text t = true ->
  ascii_text (str_map Py.capitalize (str_map Py.strip t)) = true.
Proof.
  unfold ascii_text. rewrite str_map_normalize, !forallb_forall.
  intros H c Hc. apply in_map_iff in Hc as (x & <- & Hx).
  specialize (H x Hx). destruct x as [| |y]; try reflexivity.
  unfold normalize. rewrite isascii_capitalize. now apply isascii_strip.
Qed.

Lemma replace_same name s cols :
  lookup name cols = Some s -> replace name s cols = cols.
Proof.
  induction cols as [|[n s0] t IH]; simpl; [discriminate|].
  destruct (String.eqb n name).
  - intros H. now injection H as ->.
  - intros H. now rewrite IH.
Qed.

Lemma setitem_same name s d : getitem name d = Ok s -> setitem name s d = d.
Proof.
  intros H. apply getitem_Ok in H. destruct d as [idx cols].
  unfold setitem; simpl in *. now rewrite replace_same.
Qed.

(** X17: on a [tipo_vehiculo] column whose texts are ASCII the text step
    can be run again: it completes and leaves [df] as the first run left
    it, with ASCII texts still. *)
Theorem standardize_text_again st st1 t :
  standardize_text st = (Ok tt, st1) ->
  getitem "tipo_vehiculo" (df st) = Ok t ->
  ascii_text t = true ->
  exists st2,
    standardize_text st1 = (Ok tt, st2) /\ df st2 = df st1 /\
    exists t1, getitem "tipo_vehiculo" (df st1) = Ok t1 /\ ascii_text t1 = true.
Proof.
  intros H Ht0 Hascii.
  apply standardize_text_Ok in H as (t' & Ht & Hacc & Hd & _).
  rewrite Ht0 in Ht. injection Ht as <-.
  set (t' := str_map Py.capitalize (str_map Py.strip t)) in *.
  assert (Ht' : getitem "tipo_vehiculo" (df st1) = Ok t')
    by (rewrite Hd; apply getitem_setitem_same).
  assert (Hacc' : str_accessor t' = Ok t').
  { unfold t'. now apply str_accessor_str_map, str_accessor_str_map. }
  destruct (standardize_text_run st1 t' Ht' Hacc') as (st2 & R2 & D2).
  exists st2. split; [exact R2|]. split.
  - rewrite D2. unfold t'. rewrite (normalized_twice t).
    now apply setitem_same.
  - exists t'. split; [exact Ht'|]. unfold t'. now apply ascii_text_normalized.
Qed.

Lemma standardize_text_again_witness :
  let st1 := snd (standardize_text (session sample)) in
  let t := [Str " auto "; Str "CAMION"; Str "moto"; NaN; Str "Auto"; Str " auto "] in
  standardize_text (session sample) = (Ok tt, st1) /\
  getitem "tipo_vehiculo" (df (session sample)) = Ok t /\
  ascii_text t = true /\
  exists st2,
    standardize_text st1 = (Ok tt, st2) /\ df st2 = df st1 /\
    exists t1, getitem "tipo_vehiculo" (df st1) = Ok t1 /\ ascii_text t1 = true.
Proof.
  intros st1 t.
  assert (h : standardize_text (session sample) = (Ok tt, st1))
    by (apply run_pair; reflexivity).
  assert (h2 : getitem "tipo_vehiculo" (df (session sample)) = Ok t)
    by reflexivity.
  assert (h3 : ascii_text t = true) by reflexivity.
  exact (conj h (conj h2 (conj h3 (standardize_text_again _ _ _ h h2 h3)))).
Defined.

(* ------------------------------------------------------------------ *)
(** ** Whole numbers of days and what float64 holds *)

Lemma exact_day_int q :
  exact_day (Num q) = true -> exists z, q = int z /\ (Z.abs z <= 2 ^ 52)%Z.
Proof.
  unfold exact_day. intros H. apply andb_true_iff in H as [Hd Hn].
  apply Pos.eqb_eq in Hd. apply Z.leb_le in Hn.
  exists (Qnum q). split; [|exact Hn].
  apply Qc_is_canon. unfold int, Q2Qc; cbn [this].
  rewrite Qred_correct. destruct q as [[n d] Hc]. cbn in *. subst d. reflexivity.
Qed.

Lemma exact_day_float_exact q : exact_day (Num q) = true -> float_exact q = true.
Proof.
  unfold exact_day, float_exact. intros H. apply andb_true_iff in H as [Hd Hn].
  apply Pos.eqb_eq in Hd. apply Z.leb_le in Hn. rewrite Hd.
  apply Z.leb_le. assert ((2 ^ 53 = 2 * 2 ^ 52)%Z) by reflexivity. lia.
Qed.

(** A fraction over 2 in lowest terms. *)
Lemma Qred_half (n : Z) :
  Pos.leb (Qden (Qred (n # 2))) 2 = true /\
  (Z.abs (Qnum (Qred (n # 2))) <= Z.abs n)%Z.
Proof.
  destruct (Z.even n) eqn:E.
  - apply Z.even_spec in E as [k ->].
    assert (Hq : ((2 * k # 2) == (k # 1))%Q).
    { unfold Qeq. cbn [Qnum Qden]. lia. }
    rewrite (Qred_complete _ _ Hq).
    rewrite Qred_identity by (cbn [Qnum Qden]; apply Z.gcd_1_r).
    cbn [Qnum Qden]. split; [reflexivity|lia].
  - assert (Ho : Z.odd n = true) by (rewrite <- Z.negb_even, E; reflexivity).
    rewrite Qred_identity.
    + cbn [Qnum Qden]. split; [reflexivity|lia].
    + cbn [Qnum Qden]. apply Z.odd_spec in Ho as [k ->].
      replace (2 * k + 1)%Z with (1 + k * 2)%Z by lia.
      rewrite Z.gcd_comm, Z.gcd_add_mult_diag_r. reflexivity.
Qed.

(** The half of the sum of two whole numbers of days is a number that
    float64 holds exactly. *)
Lemma half_sum_exact a b :
  exact_day (Num a) = true -> exact_day (Num b) = true ->
  float_exact ((a + b) / int 2)%Qc = true.
Proof.
  intros Ha Hb.
  apply exact_day_int in Ha as (za & -> & Hza).
  apply exact_day_int in Hb as (zb & -> & Hzb).
  assert (E : this ((int za + int zb) / int 2)%Qc = Qred ((za + zb) # 2)).
  { unfold Qcdiv, Qcmult, Qcinv, Qcplus, int, Q2Qc; cbn [this].
    apply Qred_complete. rewrite !Qred_correct.
    unfold Qeq, Qmult, Qplus, Qinv, inject_Z; cbn [Qnum Qden]. lia. }
  unfold float_exact. rewrite E.
  destruct (Qred_half (za + zb)) as [H1 H2].
  rewrite H1. apply Z.leb_le.
  assert ((2 ^ 53 = 2 * 2 ^ 52)%Z) by reflexivity. lia.
Qed.

Lemma middle_float_exact v m :
  Forall (fun q => exact_day (Num q) = true) v ->
  middle v = Num m -> float_exact m = true.
Proof.
  intros Hv. rewrite Forall_forall in Hv. unfold middle. cbv zeta.
  destruct (Nat.eqb_spec (List.length v) 0) as [|Hn]; [discriminate|].
  assert (Hhalf : List.length v / 2 < List.length v)
    by (apply Nat.div_lt; lia).
  set (k := List.length v / 2) in *.
  destruct (Nat.odd (List.length v)); intros H; injection H as <-.
  - apply exact_day_float_exact, Hv. now apply nth_In.
  - apply half_sum_exact; apply Hv; apply nth_In; lia.
Qed.

(** On whole numbers of days the median is a number that float64 holds
    exactly. *)
Lemma median_float_exact u m :
  exact_days u = true -> median u = Ok (Num m) -> float_exact m = true.
Proof.
  intros Hu. unfold median. destruct (existsb is_str u); [discriminate|].
  intros H. injection H as H.
  apply (middle_float_exact (sort Qc_leb (numbers u))); [|exact H].
  apply Forall_forall. intros q Hq.
  apply (proj1 (sort_In Qc_leb _ _)), numbers_In in Hq.
  unfold exact_days in Hu. rewrite forallb_forall in Hu. now apply Hu.
Qed.

(* ------------------------------------------------------------------ *)
(** ** The durations, cell by cell *)

(** X9: on durations that are whole numbers of days, of magnitude at most
    2^52, a recorded duration that is not negative is after cleaning what
    it was, and a missing or negative duration is the median of the
    recorded ones, a number that float64 holds exactly. *)
Theorem durations_cell_by_cell st st' u m :
  clean_cell st = (Ok tt, st') ->
  getitem "duracion_dias" (drop_duplicates (df st)) = Ok u ->
  exact_days u = true ->
  median u = Ok m ->
  (forall q, m = Num q -> float_exact q = true) /\
  exists final,
    getitem "duracion_dias" (df st') = Ok final /\
    List.length final = List.length u /\
    forall i,
      (forall q, nth_error u i = Some (Num q) -> (int 0 <= q)%Qc ->
                 nth_error final i = Some (Num q)) /\
      (forall q, nth_error u i = Some (Num q) -> (q < int 0)%Qc ->
                 nth_error final i = Some m) /\
      (nth_error u i = Some NaN -> nth_error final i = Some m).
Proof.
  intros Hrun Hu Hexact Hm.
  split; [intros q ->; now apply (median_float_exact u)|].
  destruct (clean_cell_Ok _ _ Hrun)
    as (t & u' & z & m' & mz & _ & _ & Hu' & Hm' & _ & _ & Hdf & _).
  rewrite Hu in Hu'. injection Hu' as <-.
  rewrite Hm in Hm'. injection Hm' as <-.
  eexists. split; [rewrite Hdf; apply cleaned_duracion|].
  split; [now rewrite mask_set_length, fillna_length|].
  intros i. repeat split.
  - intros q Hi Hq. rewrite corrected_nth_error, Hi. simpl.
    now rewrite (proj2 (Qc_ltb_ge q (int 0)) Hq).
  - intros q Hi Hq. rewrite corrected_nth_error, Hi. simpl.
    assert (E : Qc_ltb q (int 0) = true).
    { unfold Qc_ltb. apply negb_true_iff, not_true_iff_false.
      intros H. apply Qle_bool_iff in H. now apply (Qlt_not_le _ _ Hq). }
    now rewrite E.
  - intros Hi. rewrite corrected_nth_error, Hi. simpl.
    now destruct (negative m).
Qed.

Lemma durations_cell_by_cell_witness :
  let st' := snd (clean_cell (session sample)) in
  clean_cell (session sample) = (Ok tt, st') /\
  exact_days sample_durations = true /\
  (forall q, Num (int 6) = Num q -> float_exact q = true) /\
  exists final,
    getitem "duracion_dias" (df st') = Ok final /\
    List.length final = List.length sample_durations /\
    forall i,
      (forall q, nth_error sample_durations i = Some (Num q) ->
                 (int 0 <= q)%Qc -> nth_error final i = Some (Num q)) /\
      (forall q, nth_error sample_durations i = Some (Num q) ->
                 (q < int 0)%Qc -> nth_error final i = Some (Num (int 6))) /\
      (nth_error sample_durations i = Some NaN ->
       nth_error final i = Some (Num (int 6))).
Proof.
  intros st'.
  assert (h := run_pair clean_cell (session sample) tt sample_cleans).
  assert (h2 : exact_days sample_durations = true) by (vm_compute; reflexivity).
  exact (conj h (conj h2 (durations_cell_by_cell _ _ _ _ h
                   sample_deduplicated_durations h2 median_sample_durations))).
Defined.

(* ------------------------------------------------------------------ *)
(** ** The median stays among the recorded durations *)

Lemma Qc_half_between lo hi a b :
  (lo <= a)%Qc -> (a <= hi)%Qc -> (lo <= b)%Qc -> (b <= hi)%Qc ->
  (lo <= (a + b) / int 2)%Qc /\ ((a + b) / int 2 <= hi)%Qc.
Proof.
  intros H1 H2 H3 H4.
  assert (E : (((a + b) / int 2)%Qc == (a + b) / 2)%Q).
  { unfold Qcdiv, Qcmult, Qcinv, Qcplus, int, Q2Qc; cbn [this].
    rewrite !Qred_correct. reflexivity. }
  unfold Qcle in *. rewrite E. split.
  - apply Qle_shift_div_l; [reflexivity|].
    setoid_replace (lo * 2)%Q with (lo + lo)%Q by ring.
    now apply Qplus_le_compat.
  - apply Qle_shift_div_r; [reflexivity|].
    setoid_replace (hi * 2)%Q with (hi + hi)%Q by ring.
    now apply Qplus_le_compat.
Qed.

Lemma middle_between lo hi v m :
  Forall (fun q => (lo <= q)%Qc /\ (q <= hi)%Qc) v ->
  middle v = Num m -> (lo <= m)%Qc /\ (m <= hi)%Qc.
Proof.
  intros Hv. rewrite Forall_forall in Hv. unfold middle. cbv zeta.
  destruct (Nat.eqb_spec (List.length v) 0) as [|Hn]; [discriminate|].
  assert (Hhalf : List.length v / 2 < List.length v)
    by (apply Nat.div_lt; lia).
  set (k := List.length v / 2) in *.
  destruct (Nat.odd (List.length v)); intros H; injection H as <-.
  - apply Hv. now apply nth_In.
  - apply Qc_half_between; apply Hv; apply nth_In; lia.
Qed.

Lemma median_between lo hi u m :
  (forall q, In (Num q) u -> (lo <= q)%Qc /\ (q <= hi)%Qc) ->
  median u = Ok (Num m) -> (lo <= m)%Qc /\ (m <= hi)%Qc.
Proof.
  intros Hu. unfold median. destruct (existsb is_str u); [discriminate|].
  intros H. injection H as H.
  apply (middle_between lo hi (sort Qc_leb (numbers u))); [|exact H].
  apply Forall_forall. intros q Hq. apply Hu, numbers_In.
  exact (proj1 (sort_In Qc_leb _ _) Hq).
Qed.

(** X8: on durations that are whole numbers of days, of magnitude at most
    2^52, the median lies between the bounds of the recorded durations, so
    cleaning never produces a duration outside the range of those the
    de-duplicated table records; the median and the durations after
    cleaning are numbers that float64 holds exactly. *)
Theorem durations_stay_in_range st st' u lo hi :
  clean_cell st = (Ok tt, st') ->
  getitem "duracion_dias" (drop_duplicates (df st)) = Ok u ->
  exact_days u = true ->
  (forall q, In (Num q) u -> (lo <= q)%Qc /\ (q <= hi)%Qc) ->
  (forall m, median u = Ok (Num m) ->
             (lo <= m)%Qc /\ (m <= hi)%Qc /\ float_exact m = true) /\
  exists final,
    getitem "duracion_dias" (df st') = Ok final /\
    forall q, In (Num q) final ->
              (lo <= q)%Qc /\ (q <= hi)%Qc /\ float_exact q = true.
Proof.
  intros Hrun Hu Hexact Hrange.
  split.
  { intros m Hm. destruct (median_between lo hi u m Hrange Hm).
    repeat split; auto. now apply (median_float_exact u). }
  destruct (clean_cell_Ok _ _ Hrun)
    as (t & u' & z & m & mz & _ & _ & Hu' & Hm & _ & _ & Hdf & _).
  rewrite Hu in Hu'. injection Hu' as <-.
  eexists. split; [rewrite Hdf; apply cleaned_duracion|].
  intros q Hq. apply In_nth_error in Hq as [i Hi].
  rewrite corrected_nth_error in Hi.
  destruct (nth_error u i) as [c|] eqn:E; [|discriminate].
  simpl in Hi. injection Hi as Hi.
  assert (Hmq : m = Num q ->
                (lo <= q)%Qc /\ (q <= hi)%Qc /\ float_exact q = true).
  { intros ->. destruct (median_between lo hi u q Hrange Hm).
    repeat split; auto. now apply (median_float_exact u). }
  apply nth_error_In in E.
  destruct c as [|q0|x]; simpl in Hi.
  - destruct (negative m); auto.
  - destruct (Qc_ltb q0 (int 0)); [auto|].
    injection Hi as <-. destruct (Hrange q0 E). repeat split; auto.
    apply exact_day_float_exact.
    unfold exact_days in Hexact. rewrite forallb_forall in Hexact. auto.
  - discriminate.
Qed.

Lemma durations_stay_in_range_witness :
  let st' := snd (clean_cell (session sample)) in
  clean_cell (session sample) = (Ok tt, st') /\
  exact_days sample_durations = true /\
  (forall q, In (Num q) sample_durations ->
             (int (-3) <= q)%Qc /\ (q <= int 9)%Qc) /\
  exists final,
    getitem "duracion_dias" (df st') = Ok final /\
    forall q, In (Num q) final ->
              (int (-3) <= q)%Qc /\ (q <= int 9)%Qc /\ float_exact q = true.
Proof.
  intros st'.
  assert (h1 := run_pair clean_cell (session sample) tt sample_cleans).
  assert (h2 : forall q, In (Num q) sample_durations ->
                         (int (-3) <= q)%Qc /\ (q <= int 9)%Qc).
  { intros q Hq. unfold sample_durations in Hq. cbn [In] in Hq.
    destruct Hq as [Hq|[Hq|[Hq|[Hq|[Hq|[]]]]]]; inversion Hq; subst q;
      split; vm_compute; discriminate. }
  assert (h3 : exact_days sample_durations = true) by (vm_compute; reflexivity).
  split; [exact h1|]. split; [exact h3|]. split; [exact h2|].
  exact (proj2 (durations_stay_in_range _ _ _ _ _ h1
                  sample_deduplicated_durations h3 h2)).
Defined.

(* ------------------------------------------------------------------ *)
(** ** Rows that become equal, and running the cleaning cell again *)

(** X7: duplicates are dropped before the text is normalised, so two rows
    of the de-duplicated table that agree on every other column and whose
    [tipo_vehiculo] texts normalise to the same text agree on every column
    after cleaning: the cleaned table can hold exact duplicates. *)
Theorem normalisation_can_restore_duplicates st st' i j :
  clean_cell st = (Ok tt, st') ->
  (forall name s,
     name <> "tipo_vehiculo" ->
     getitem name (drop_duplicates (df st)) = Ok s ->
     nth_error s i = nth_error s j) ->
  (exists t a b,
     getitem "tipo_vehiculo" (drop_duplicates (df st)) = Ok t /\
     nth_error t i = Some (Str a) /\ nth_error t j = Some (Str b) /\
     normalize a = normalize b) ->
  forall name s',
    getitem name (df st') = Ok s' -> nth_error s' i = nth_error s' j.
Proof.
  intros Hrun Hother (t & a & b & Ht & Hi & Hj & Hab) name s' Hs'.
  destruct (clean_cell_Ok _ _ Hrun)
    as (t' & u & z & m & mz & Ht' & _ & Hu & _ & Hz & _ & Hdf & _).
  rewrite Ht in Ht'. injection Ht' as <-.
  rewrite Hdf in Hs'.
  destruct (String.eqb_spec name "tipo_vehiculo") as [->|Hn1].
  { rewrite cleaned_tipo in Hs'. injection Hs' as <-.
    rewrite !str_map_nth_error, Hi, Hj. simpl.
    unfold normalize in Hab. now rewrite Hab. }
  destruct (String.eqb_spec name "duracion_dias") as [->|Hn2].
  { rewrite cleaned_duracion in Hs'. injection Hs' as <-.
    rewrite !corrected_nth_error.
    now rewrite (Hother "duracion_dias" u Hn1 Hu). }
  destruct (String.eqb_spec name "zona_circulacion") as [->|Hn3].
  { rewrite cleaned_zona in Hs'. injection Hs' as <-.
    rewrite !fillna_nth_error.
    now rewrite (Hother "zona_circulacion" z Hn1 Hz). }
  rewrite cleaned_other in Hs' by assumption.
  now apply (Hother name s').
Qed.

Lemma normalisation_can_restore_duplicates_witness :
  let st := session sample_variants in
  let st' := snd (clean_cell st) in
  clean_cell st = (Ok tt, st') /\
  nth_error (values (drop_duplicates (df st))) 0 <>
  nth_error (values (drop_duplicates (df st))) 1 /\
  (forall name s',
     getitem name (df st') = Ok s' -> nth_error s' 0 = nth_error s' 1) /\
  nth_error (values (df st')) 0 = nth_error (values (df st')) 1.
Proof.
  intros st st'.
  assert (h1 : clean_cell st = (Ok tt, st'))
    by (apply run_pair; vm_compute; reflexivity).
  assert (h2 : forall name s,
             name <> "tipo_vehiculo" ->
             getitem name (drop_duplicates (df st)) = Ok s ->
             nth_error s 0 = nth_error s 1).
  { intros name s Hn Hs.
    change (drop_duplicates (df st)) with sample_variants in Hs.
    unfold getitem, sample_variants in Hs. cbn [data lookup] in Hs.
    destruct (String.eqb_spec "tipo_vehiculo" name); [congruence|].
    destruct (String.eqb_spec "duracion_dias" name);
      [injection Hs as <-; reflexivity|].
    destruct (String.eqb_spec "zona_circulacion" name);
      [injection Hs as <-; reflexivity|discriminate]. }
  assert (h3 : exists t a b,
             getitem "tipo_vehiculo" (drop_duplicates (df st)) = Ok t /\
             nth_error t 0 = Some (Str a) /\ nth_error t 1 = Some (Str b) /\
             normalize a = normalize b).
  { exists [Str " auto "; Str "AUTO"; Str "moto"], " auto ", "AUTO".
    repeat split. }
  split; [exact h1|]. split; [vm_compute; discriminate|].
  split; [exact (normalisation_can_restore_duplicates st st' 0 1 h1 h2 h3)|].
  vm_compute. reflexivity.
Defined.

(* ------------------------------------------------------------------ *)

Lemma drop_duplicates_nothing_flagged d :
  rectangular d ->
  Forall (fun b => b = false) (duplicated d) ->
  drop_duplicates d = d.
Proof.
  intros Hr Hnone. unfold drop_duplicates.
  destruct (empty d) eqn:He; [reflexivity|].
  assert (E : map negb (duplicated d) = repeat true (nrows d)).
  { rewrite <- (duplicated_length d Hr He).
    induction Hnone as [|b l Hb _ IH]; simpl; [reflexivity|].
    now rewrite Hb, IH. }
  rewrite E. now apply select_rows_all.
Qed.

Lemma fillna_unchanged v s :
  v = NaN \/ Forall (fun c => c <> NaN) s -> fillna v s = s.
Proof.
  intros H. unfold fillna. rewrite <- (map_id s) at 2. apply map_ext_in.
  intros c Hc. destruct H as [->|H].
  - now destruct c.
  - rewrite Forall_forall in H. specialize (H c Hc). now destruct c.
Qed.

Lemma overwrite_unchanged v s :
  Forall (fun c => negative c = false) s ->
  mask_set (map negative s) v s = s.
Proof.
  intros H. rewrite mask_set_map. rewrite <- (map_id s) at 2.
  apply map_ext_in. intros c Hc. rewrite Forall_forall in H.
  now rewrite (H c Hc).
Qed.

Lemma corrected_notna m u :
  m <> NaN ->
  Forall (fun c => c <> NaN)
         (mask_set (map negative (fillna m u)) m (fillna m u)).
Proof.
  intros Hm. rewrite mask_set_map. apply Forall_map, Forall_forall.
  intros x Hx.
  apply (proj1 (Forall_forall _ _) (fillna_notna m u Hm)) in Hx.
  now destruct (negative x).
Qed.

Lemma map_no_text (f : cell -> cell) s :
  (forall c, is_str c = false -> is_str (f c) = false) ->
  existsb is_str s = false -> existsb is_str (map f s) = false.
Proof.
  intros Hf. induction s as [|c l IH]; simpl; [reflexivity|].
  intros H. apply orb_false_iff in H as [Hc Hl].
  now rewrite (Hf c Hc), (IH Hl).
Qed.

Lemma corrected_no_text m u :
  is_str m = false -> existsb is_str u = false ->
  existsb is_str (mask_set (map negative (fillna m u)) m (fillna m u)) = false.
Proof.
  intros Hm Hu. rewrite mask_set_map. apply map_no_text.
  - intros c Hc. now destruct (negative c).
  - now apply fillna_no_text.
Qed.

(** X6: on a table whose [tipo_vehiculo] texts are ASCII and whose
    durations are whole numbers of days, of magnitude at most 2^52, the
    cleaning cell can be run again on its own result: when that result has
    no two equal rows and no negative duration, the second run completes
    and leaves [df] unchanged. *)
Theorem clean_cell_again st st' t u :
  rectangular (df st) ->
  clean_cell st = (Ok tt, st') ->
  getitem "tipo_vehiculo" (drop_duplicates (df st)) = Ok t ->
  ascii_text t = true ->
  getitem "duracion_dias" (drop_duplicates (df st)) = Ok u ->
  exact_days u = true ->
  Forall (fun b => b = false) (duplicated (df st')) ->
  (forall final, getitem "duracion_dias" (df st') = Ok final ->
                 Forall (fun c => negative c = false) final) ->
  exists st'', clean_cell st' = (Ok tt, st'') /\ df st'' = df st'.
Proof.
  intros Hr Hrun Ht0 _ Hu0 _ Hnodup Hnoneg.
  destruct (clean_cell_Ok _ _ Hrun)
    as (t' & u' & z & m & mz & Ht & Hacc & Hu & Hm & Hz & Hmz & Hdf & _).
  rewrite Ht0 in Ht. injection Ht as <-. pose proof Ht0 as Ht.
  rewrite Hu0 in Hu. injection Hu as <-. pose proof Hu0 as Hu.
  clear Ht0 Hu0.
  set (d := drop_duplicates (df st)) in *.
  set (t1 := str_map Py.capitalize (str_map Py.strip t)) in *.
  set (u1 := mask_set (map negative (fillna m u)) m (fillna m u)) in *.
  set (z1 := fillna mz z) in *.
  assert (Hr' : rectangular (df st')).
  { rewrite Hdf. apply cleaned_rectangular; auto.
    now apply rectangular_drop_duplicates. }
  assert (Hdd : drop_duplicates (df st') = df st')
    by now apply drop_duplicates_nothing_flagged.
  assert (Ht1 : getitem "tipo_vehiculo" (df st') = Ok t1)
    by (rewrite Hdf; apply cleaned_tipo).
  assert (Hu1 : getitem "duracion_dias" (df st') = Ok u1)
    by (rewrite Hdf; apply cleaned_duracion).
  assert (Hz1 : getitem "zona_circulacion" (df st') = Ok z1)
    by (rewrite Hdf; apply cleaned_zona).
  destruct (mode_first_spec _ _ Hmz) as (Hmzn & Hmzin & _).
  assert (Hz1n : Forall (fun c => c <> NaN) z1) by now apply fillna_notna.
  assert (Hacc1 : str_accessor t1 = Ok t1).
  { unfold t1. now apply str_accessor_str_map, str_accessor_str_map. }
  assert (Hu1t : existsb is_str u1 = false).
  { apply corrected_no_text; eauto using median_not_text, median_Ok. }
  destruct (median u1) as [m1|e] eqn:Hm1;
    [|unfold median in Hm1; rewrite Hu1t in Hm1; discriminate].
  assert (Hz1v : exists c, In c z1 /\ c <> NaN).
  { exists mz. split; [|assumption]. unfold z1, fillna.
    apply in_map_iff. exists mz. split; [|assumption]. now destruct mz. }
  destruct Hz1v as (c & Hc & Hcn).
  destruct (impute_zona_input z1 c Hc Hcn) as [mz1 Hmz1].
  assert (Hcompl : exists st'', clean_cell st' = (Ok tt, st'')).
  { apply (clean_cell_complete st' t1 u1 z1 m1 mz1); rewrite ?Hdd; auto. }
  destruct Hcompl as [st'' Hrun'].
  exists st''. split; [exact Hrun'|].
  destruct (clean_cell_Ok _ _ Hrun')
    as (t2 & u2 & z2 & m2 & mz2 & Ht2 & _ & Hu2 & Hm2 & Hz2 & Hmz2 & Hdf2 & _).
  rewrite Hdd in *.
  rewrite Ht1 in Ht2. injection Ht2 as <-.
  rewrite Hu1 in Hu2. injection Hu2 as <-.
  rewrite Hz1 in Hz2. injection Hz2 as <-.
  rewrite Hm1 in Hm2. injection Hm2 as <-.
  rewrite Hdf2. unfold cleaned.
  assert (Efill : fillna m1 u1 = u1).
  { apply fillna_unchanged.
    destruct m as [|q|x].
    - (* nothing was recorded: the column is all missing, and so is its
         median *)
      left. apply median_NaN in Hm.
      assert (E : u1 = u).
      { unfold u1. rewrite mask_set_map. unfold fillna. rewrite map_map.
        rewrite <- (map_id u) at 2. apply map_ext_in.
        intros x Hx. rewrite Forall_forall in Hm. now rewrite (Hm x Hx). }
      rewrite E in Hm1.
      assert (Hm' : median u = Ok NaN) by now apply median_NaN.
      congruence.
    - right. apply corrected_notna. discriminate.
    - right. apply corrected_notna. discriminate. }
  assert (Etext : str_map Py.capitalize (str_map Py.strip t1) = t1)
    by apply (normalized_twice t).
  rewrite Etext, (setitem_same _ _ _ Ht1).
  rewrite Efill, (setitem_same _ _ _ Hu1).
  rewrite (fillna_unchanged mz2 z1 (or_intror Hz1n)), (setitem_same _ _ _ Hz1).
  rewrite (overwrite_unchanged m1 u1 (Hnoneg u1 Hu1)).
  now apply setitem_same.
Qed.

Lemma clean_cell_again_witness :
  let st' := snd (clean_cell (session sample)) in
  let t := [Str " auto "; Str "CAMION"; Str "moto"; NaN; Str "Auto"] in
  rectangular (df (session sample)) /\
  clean_cell (session sample) = (Ok tt, st') /\
  getitem "tipo_vehiculo" (drop_duplicates (df (session sample))) = Ok t /\
  ascii_text t = true /\
  exact_days sample_durations = true /\
  duplicated (df st') = [false; false; false; false; false] /\
  exists st'', clean_cell st' = (Ok tt, st'') /\ df st'' = df st'.
Proof.
  intros st' t. subst st'.
  assert (h1 : rectangular (df (session sample))) by (repeat constructor).
  assert (h2 := run_pair clean_cell (session sample) tt sample_cleans).
  assert (h3 : duplicated (df (snd (clean_cell (session sample)))) =
               [false; false; false; false; false])
    by (vm_compute; reflexivity).
  assert (h4 : getitem "tipo_vehiculo"
                 (drop_duplicates (df (session sample))) = Ok t)
    by reflexivity.
  assert (h5 : ascii_text t = true) by reflexivity.
  assert (h6 : exact_days sample_durations = true) by (vm_compute; reflexivity).
  split; [exact h1|]. split; [exact h2|]. split; [exact h4|].
  split; [exact h5|]. split; [exact h6|]. split; [exact h3|].
  apply (clean_cell_again _ _ t sample_durations h1 h2 h4 h5
           sample_deduplicated_durations h6).
  - rewrite h3. repeat constructor.
  - intros final Hf.
    destruct (clean_cell_Ok _ _ h2)
      as (t0 & u & z & m & mz & _ & _ & Hu & Hm & _ & _ & Hdf & _).
    rewrite sample_deduplicated_durations in Hu. injection Hu as <-.
    rewrite median_sample_durations in Hm. injection Hm as <-.
    rewrite Hdf, cleaned_duracion in Hf.
    injection Hf as <-. repeat constructor.
Defined.

(* ------------------------------------------------------------------ *)
(** ** The persistence cell and the file system *)

Lemma path_eqb_eq p q : path_eqb p q = true <-> p = q.
Proof.
  revert q. induction p as [|a p IH]; intros [|b q]; simpl;
    split; try congruence; try reflexivity.
  - intros H. apply andb_true_iff in H as [H1 H2].
    apply String.eqb_eq in H1. apply IH in H2. now subst.
  - intros H. injection H as -> ->. now rewrite String.eqb_refl, path_eqb_refl.
Qed.

Lemma path_eqb_neq p q : p <> q -> path_eqb p q = false.
Proof.
  intros H. apply not_true_iff_false. intros E. now apply path_eqb_eq in E.
Qed.

Lemma find_filter {A} (f g : A -> bool) l :
  (forall x, f x = true -> g x = true) ->
  find f (filter g l) = find f l.
Proof.
  intros H. induction l as [|x l IH]; simpl; [reflexivity|].
  destruct (f x) eqn:Ef.
  - rewrite (H x Ef). simpl. now rewrite Ef.
  - destruct (g x); simpl; [rewrite Ef|]; exact IH.
Qed.

Lemma is_dir_cons a q f :
  is_dir (a :: q) f = existsb (path_eqb (a :: q)) (dirs f).
Proof. reflexivity. Qed.

Lemma write_file_others p c f q :
  q <> p -> read_file q (snd (write_file p c f)) = read_file q f.
Proof.
  intros Hq.
  assert (E : forall x others,
             others = filter (fun e => negb (path_eqb p (fst e))) (files f) ->
             find (fun e => path_eqb q (fst e)) ((p, x) :: others) =
             find (fun e => path_eqb q (fst e)) (files f)).
  { intros x others ->. simpl. rewrite (path_eqb_neq q p Hq).
    apply find_filter. intros [y cy] Hy. simpl in *.
    apply path_eqb_eq in Hy. subst y.
    apply negb_true_iff, path_eqb_neq. congruence. }
  unfold write_file, read_file.
  destruct (is_dir p f || negb (is_dir (removelast p) f)); [reflexivity|].
  destruct (is_readonly _ f); [reflexivity|].
  destruct (room f) as [k|]; [destruct (Nat.leb (lines c) k)|];
    cbn [snd files]; now rewrite (E _ _ eq_refl).
Qed.

Lemma write_file_Ok p c f f' :
  write_file p c f = (Ok tt, f') ->
  can_write p f = true /\ is_dir (removelast p) f = true /\
  has_room (lines c) f = true /\
  dirs f' = dirs f /\
  read_file p f' = Some c /\
  (forall q, q <> p -> read_file q f' = read_file q f).
Proof.
  intros H. pose proof (read_write_file _ _ _ _ H) as Hread.
  assert (Hother : forall q, q <> p -> read_file q f' = read_file q f).
  { intros q Hq. rewrite <- (write_file_others p c f q Hq). now rewrite H. }
  unfold write_file in H. unfold can_write, has_room.
  destruct (is_dir p f) eqn:E1; [discriminate|].
  destruct (is_dir (removelast p) f) eqn:E2; [|discriminate].
  cbn [orb negb] in H.
  destruct (is_readonly _ f) eqn:E3; [discriminate|].
  destruct (room f) as [k|];
    [destruct (Nat.leb (lines c) k) eqn:E4; [|discriminate]|];
    injection H as <-; repeat split; auto.
Qed.

Lemma write_file_run p c f :
  can_write p f = true -> is_dir (removelast p) f = true ->
  has_room (lines c) f = true ->
  exists f', write_file p c f = (Ok tt, f').
Proof.
  unfold can_write, has_room, write_file. intros H1 H2 H3.
  apply andb_true_iff in H1 as [H1 H1']. apply negb_true_iff in H1, H1'.
  rewrite H1, H2. cbn [orb negb]. rewrite H1'.
  destruct (room f) as [k|]; [rewrite H3|]; eauto.
Qed.

(** A write that raises either was refused, and left the file system as it
    was, or was cut short by a full device. *)
Lemma write_file_Raise p c f e f' :
  write_file p c f = (Raise e, f') ->
  f' = f \/
  (exists k, room f = Some k /\ k < lines c /\
             read_file p f' = Some (first_lines k c)).
Proof.
  unfold write_file. intros H.
  destruct (is_dir p f || negb (is_dir (removelast p) f));
    [injection H as _ <-; now left|].
  destruct (is_readonly _ f); [injection H as _ <-; now left|].
  destruct (room f) as [k|]; [|discriminate].
  destruct (Nat.leb (lines c) k) eqn:E; [discriminate|].
  injection H as _ <-. right. exists k. split; [reflexivity|].
  split; [now apply Nat.leb_gt in E|].
  unfold read_file. simpl. now rewrite path_eqb_refl.
Qed.

Lemma write_file_Raise_room p c f e f' :
  write_file p c f = (Raise e, f') -> has_room (lines c) f = true -> f' = f.
Proof.
  unfold write_file, has_room. intros H Hroom.
  destruct (is_dir p f || negb (is_dir (removelast p) f));
    [now injection H as _ <-|].
  destruct (is_readonly _ f); [now injection H as _ <-|].
  destruct (room f) as [k|]; [|discriminate].
  rewrite Hroom in H. discriminate.
Qed.

Lemma mkdir_exist_ok_Ok p f f' :
  mkdir_exist_ok p f = Ok f' ->
  can_mkdir p f = true /\
  files f' = files f /\ readonly f' = readonly f /\ room f' = room f /\
  (forall q, is_dir q f' = true <-> is_dir q f = true \/ q = p).
Proof.
  unfold mkdir_exist_ok, can_mkdir.
  destruct (is_dir p f) eqn:Ed.
  - intros H. injection H as <-. repeat split; auto.
    intros [H| ->]; auto.
  - destruct (is_file p f); [discriminate|].
    destruct (is_dir (removelast p) f); [|discriminate].
    destruct (is_readonly (removelast p) f); [discriminate|].
    simpl. intros H. injection H as <-. repeat split; auto.
    + destruct q as [|a q]; [auto|]. rewrite !is_dir_cons. cbn [dirs existsb].
      intros H. apply orb_true_iff in H as [H|H]; [|now left].
      right. now apply path_eqb_eq.
    + intros H. destruct q as [|a q]; [reflexivity|].
      rewrite is_dir_cons. cbn [dirs existsb].
      destruct H as [H| ->].
      * rewrite is_dir_cons in H. rewrite H. apply orb_true_r.
      * now rewrite path_eqb_refl.
Qed.

Lemma mkdir_exist_ok_run p f :
  can_mkdir p f = true -> is_dir (removelast p) f = true ->
  exists f', mkdir_exist_ok p f = Ok f'.
Proof.
  unfold mkdir_exist_ok, can_mkdir. intros H Hp.
  destruct (is_dir p f); [eauto|]. simpl in H.
  apply andb_true_iff in H as [H1 H2]. apply negb_true_iff in H1, H2.
  rewrite H1, Hp, H2. simpl. eauto.
Qed.

(** [os.makedirs] leaves the files, the permissions and the room as they
    are, whether it raises or not. *)
Lemma mkdirs_frame ps f :
  files (snd (mkdirs ps f)) = files f /\
  readonly (snd (mkdirs ps f)) = readonly f /\
  room (snd (mkdirs ps f)) = room f.
Proof.
  revert f. induction ps as [|p ps IH]; intros f; simpl; [auto|].
  destruct (mkdir_exist_ok p f) as [f1|e] eqn:E; [|auto].
  apply mkdir_exist_ok_Ok in E as (_ & H1 & H2 & H3 & _).
  destruct (IH f1) as (I1 & I2 & I3). repeat split; congruence.
Qed.

Lemma mkdirs_Ok ps f f' :
  mkdirs ps f = (Ok tt, f') ->
  forall q, is_dir q f' = true <-> is_dir q f = true \/ In q ps.
Proof.
  revert f. induction ps as [|p ps IH]; intros f; simpl.
  - intros H q. injection H as <-. tauto.
  - destruct (mkdir_exist_ok p f) as [f1|e] eqn:E; [|discriminate].
    intros H q. apply mkdir_exist_ok_Ok in E as (_ & _ & _ & _ & Hd).
    rewrite (IH f1 H q), Hd. intuition.
Qed.

Lemma is_file_files p f f' : files f' = files f -> is_file p f' = is_file p f.
Proof. unfold is_file. now intros ->. Qed.

Lemma is_readonly_readonly p f f' :
  readonly f' = readonly f -> is_readonly p f' = is_readonly p f.
Proof. unfold is_readonly. now intros ->. Qed.

Lemma read_file_files f f' p :
  files f' = files f -> read_file p f' = read_file p f.
Proof. unfold read_file. now intros ->. Qed.

Lemma is_dir_false_iff q f f' :
  (is_dir q f' = true <-> is_dir q f = true) -> is_dir q f' = is_dir q f.
Proof.
  intros H. destruct (is_dir q f'), (is_dir q f); auto.
  - symmetry. now apply H.
  - now apply H.
Qed.

(** When [data/processed] has been made, the output file is as open to
    writing as it was, and its directory is there. *)
Lemma makedirs_processed_Ok f f1 :
  makedirs processed_dir f = (Ok tt, f1) ->
  can_mkdir ["data"] f = true /\ can_mkdir processed_dir f = true /\
  files f1 = files f /\ room f1 = room f /\
  can_write cleaned_csv f1 = can_write cleaned_csv f /\
  is_dir processed_dir f1 = true /\
  (forall q, is_dir q f1 = true <->
             is_dir q f = true \/ q = ["data"] \/ q = processed_dir).
Proof.
  intros H.
  pose proof (mkdirs_frame (prefixes processed_dir) f) as (F1 & F2 & F3).
  pose proof (mkdirs_Ok _ _ _ H) as Hd.
  unfold makedirs in H. rewrite H in F1, F2, F3. cbn [snd] in F1, F2, F3.
  assert (Hdirs : forall q, is_dir q f1 = true <->
                            is_dir q f = true \/ q = ["data"] \/ q = processed_dir).
  { intros q. rewrite (Hd q). simpl. intuition. }
  cbn [processed_dir prefixes map mkdirs] in H.
  destruct (mkdir_exist_ok ["data"] f) as [fa|e] eqn:Ea; [|discriminate].
  destruct (mkdir_exist_ok ["data"; "processed"] fa) as [fb|e] eqn:Eb;
    [|discriminate].
  apply mkdir_exist_ok_Ok in Ea as (Ca & Fa1 & Fa2 & _ & Da).
  apply mkdir_exist_ok_Ok in Eb as (Cb & _).
  repeat split; auto.
  - revert Cb. unfold can_mkdir, processed_dir.
    rewrite (is_file_files _ _ _ Fa1), (is_readonly_readonly _ _ _ Fa2).
    destruct (is_dir ["data"; "processed"] fa) eqn:E.
    + apply Da in E as [E|E]; [|discriminate].
      now rewrite E.
    + rewrite orb_false_l. intros ->. apply orb_true_r.
  - unfold can_write.
    rewrite (is_file_files _ _ _ F1), !(is_readonly_readonly _ _ _ F2).
    f_equal. f_equal. apply is_dir_false_iff. rewrite Hdirs.
    split; [|auto]. intros [E|[E|E]]; [assumption|discriminate|discriminate].
  - apply Hdirs. auto.
  - apply Hdirs.
  - apply Hdirs.
Qed.

Lemma makedirs_processed_run f :
  can_mkdir ["data"] f = true -> can_mkdir processed_dir f = true ->
  exists f1, makedirs processed_dir f = (Ok tt, f1).
Proof.
  intros Ca Cb. unfold makedirs. cbn [processed_dir prefixes map mkdirs].
  destruct (mkdir_exist_ok_run ["data"] f Ca eq_refl) as [fa Ea].
  rewrite Ea.
  apply mkdir_exist_ok_Ok in Ea as (_ & Fa1 & Fa2 & _ & Da).
  destruct (mkdir_exist_ok_run ["data"; "processed"] fa) as [fb Eb].
  - revert Cb. unfold can_mkdir, processed_dir.
    rewrite (is_file_files _ _ _ Fa1), (is_readonly_readonly _ _ _ Fa2).
    destruct (is_dir ["data"; "processed"] f) eqn:E.
    + intros _. assert (E' : is_dir ["data"; "processed"] fa = true)
        by (apply Da; now left).
      now rewrite E'.
    + rewrite orb_false_l. intros ->. apply orb_true_r.
  - apply Da. now right.
  - rewrite Eb. eauto.
Qed.

Lemma persist_cell_run st s f1 f2 :
  getitem "duracion_dias" (df st) = Ok s ->
  makedirs processed_dir (fs st) = (Ok tt, f1) ->
  write_file cleaned_csv (to_csv_content false (df st)) f1 = (Ok tt, f2) ->
  exists st', persist_cell st = (Ok tt, st').
Proof.
  intros Hs H1 H2.
  destruct (persist_cell_steps st) as (o1 & o2 & o3 & -> & _).
  rewrite Hs, H1, H2. eauto.
Qed.

Lemma persist_cell_runs_iff st :
  (exists st', persist_cell st = (Ok tt, st')) <->
  ((exists s, getitem "duracion_dias" (df st) = Ok s) /\
   can_mkdir ["data"] (fs st) = true /\
   can_mkdir processed_dir (fs st) = true /\
   can_write cleaned_csv (fs st) = true /\
   has_room (lines (to_csv_content false (df st))) (fs st) = true).
Proof.
  split.
  - intros (st' & H).
    apply persist_cell_inv in H as (s & f1 & f2 & Hs & H1 & H2 & _).
    apply makedirs_processed_Ok in H1 as (Ca & Cb & _ & Hroom & Hw & _).
    apply write_file_Ok in H2 as (Hcw & _ & Hr & _).
    rewrite Hw in Hcw. unfold has_room in *. rewrite Hroom in Hr.
    repeat split; eauto.
  - intros ((s & Hs) & Ca & Cb & Hcw & Hr).
    destruct (makedirs_processed_run (fs st) Ca Cb) as [f1 H1].
    pose proof (makedirs_processed_Ok _ _ H1) as (_ & _ & _ & Hroom & Hw & Hd & _).
    destruct (write_file_run cleaned_csv (to_csv_content false (df st)) f1)
      as [f2 H2].
    + now rewrite Hw.
    + exact Hd.
    + unfold has_room in *. now rewrite Hroom.
    + now apply (persist_cell_run st s f1 f2).
Qed.

(** What is left when the persistence cell raises. *)
Lemma persist_cell_raises st e :
  fst (persist_cell st) = Raise e ->
  df (snd (persist_cell st)) = df st /\
  (forall q, q <> cleaned_csv ->
             read_file q (fs (snd (persist_cell st))) = read_file q (fs st)) /\
  (has_room (lines (to_csv_content false (df st))) (fs st) = true ->
   files (fs (snd (persist_cell st))) = files (fs st)) /\
  (files (fs (snd (persist_cell st))) = files (fs st) \/
   exists k,
     room (fs st) = Some k /\ k < lines (to_csv_content false (df st)) /\
     read_file cleaned_csv (fs (snd (persist_cell st))) =
     Some (first_lines k (to_csv_content false (df st)))).
Proof.
  destruct (persist_cell_steps st) as (o1 & o2 & o3 & -> & _).
  destruct (getitem "duracion_dias" (df st)) as [s|e0];
    [|intros _; cbn [snd df fs]; repeat split; auto].
  pose proof (mkdirs_frame (prefixes processed_dir) (fs st)) as (F1 & _ & F3).
  fold (makedirs processed_dir (fs st)) in F1, F3.
  destruct (makedirs processed_dir (fs st)) as [[[]|e0] f1] eqn:H1;
    cbn [snd] in F1, F3.
  - destruct (write_file cleaned_csv (to_csv_content false (df st)) f1)
      as [[[]|e0] f2] eqn:H2; [discriminate|].
    intros _. cbn [snd df fs]. split; [reflexivity|].
    split; [|split].
    + intros q Hq. rewrite <- (read_file_files _ _ q F1).
      rewrite <- (write_file_others cleaned_csv (to_csv_content false (df st))
                    f1 q Hq).
      now rewrite H2.
    + intros Hroom.
      assert (E : f2 = f1).
      { apply (write_file_Raise_room _ _ _ _ _ H2).
        unfold has_room in *. now rewrite F3. }
      now rewrite E.
    + destruct (write_file_Raise _ _ _ _ _ H2)
        as [->|(k & Hk & Hlt & Hread)]; [now left|].
      right. exists k. rewrite <- F3. auto.
  - intros _. cbn [snd df fs]. repeat split; auto.
    intros q _. now apply read_file_files.
Qed.

(** X10: the persistence cell runs to the end exactly when [df] has a
    [duracion_dias] column, the directories [data] and [data/processed] are
    there or can be made (nothing stands at their path and their parent is
    not read-only), the output path is not a directory and can be opened
    for writing (the file is not read-only or, when it is new, its directory
    is not), and the device has room for the header and one line a row.
    When the cell raises, every other file is as it was; the output file too
    if there was room, and otherwise it is as it was or holds the first
    lines of the table, as many as the device took. *)
Theorem persist_cell_completes_iff st :
  ((exists st', persist_cell st = (Ok tt, st')) <->
   ((exists s, getitem "duracion_dias" (df st) = Ok s) /\
    can_mkdir ["data"] (fs st) = true /\
    can_mkdir processed_dir (fs st) = true /\
    can_write cleaned_csv (fs st) = true /\
    has_room (lines (to_csv_content false (df st))) (fs st) = true)) /\
  (forall e,
     fst (persist_cell st) = Raise e ->
     (forall q, q <> cleaned_csv ->
                read_file q (fs (snd (persist_cell st))) = read_file q (fs st)) /\
     (has_room (lines (to_csv_content false (df st))) (fs st) = true ->
      files (fs (snd (persist_cell st))) = files (fs st)) /\
     (files (fs (snd (persist_cell st))) = files (fs st) \/
      exists k,
        room (fs st) = Some k /\ k < lines (to_csv_content false (df st)) /\
        read_file cleaned_csv (fs (snd (persist_cell st))) =
        Some (first_lines k (to_csv_content false (df st))))).
Proof.
  split.
  - apply persist_cell_runs_iff.
  - intros e He. now apply (persist_cell_raises st e).
Qed.

Lemma persist_cell_completes_iff_witness :
  let full := mkState sample [] sample_full_files in
  let locked := mkState sample [] sample_readonly_files in
  fst (persist_cell full) = Raise OSError /\
  (forall q, q <> cleaned_csv ->
             read_file q (fs (snd (persist_cell full))) = read_file q (fs full)) /\
  read_file cleaned_csv (fs (snd (persist_cell full))) =
  Some (mkCsvFile (columns sample) (firstn 2 (values sample))) /\
  ~ (exists st', persist_cell locked = (Ok tt, st')) /\
  files (fs (snd (persist_cell locked))) = files (fs locked).
Proof.
  intros full locked.
  assert (h1 : fst (persist_cell full) = Raise OSError) by reflexivity.
  assert (h2 : fst (persist_cell locked) = Raise OSError) by reflexivity.
  destruct (proj2 (persist_cell_completes_iff full) OSError h1)
    as (Hother & _ & _).
  destruct (proj2 (persist_cell_completes_iff locked) OSError h2)
    as (_ & Hroom & _).
  split; [exact h1|]. split; [exact Hother|]. split; [reflexivity|].
  split; [|exact (Hroom eq_refl)].
  intros H. apply (proj1 (persist_cell_completes_iff locked)) in H.
  destruct H as (_ & _ & _ & Hw & _). discriminate Hw.
Defined.

(** X11: when the persistence cell runs to the end, [df] is unchanged, the
    output path holds the table without its row labels whatever it held
    before, every other file is as it was, and the directories are those
    there were plus [data] and [data/processed]. *)
Theorem persist_cell_effect st st' :
  persist_cell st = (Ok tt, st') ->
  df st' = df st /\
  read_file cleaned_csv (fs st') = Some (to_csv_content false (df st)) /\
  (forall p, p <> cleaned_csv -> read_file p (fs st') = read_file p (fs st)) /\
  (forall p, is_dir p (fs st') = true <->
             is_dir p (fs st) = true \/ p = ["data"] \/ p = processed_dir).
Proof.
  intros H.
  apply persist_cell_inv in H as (s & f1 & f2 & Hs & H1 & H2 & Hd & Hf & _).
  apply makedirs_processed_Ok in H1 as (_ & _ & Hfiles & _ & _ & _ & Hdirs).
  apply write_file_Ok in H2 as (_ & _ & _ & Hsame & Hread & Hother).
  subst f2. repeat split; auto.
  - intros p Hp. rewrite (Hother p Hp). now apply read_file_files.
  - intros Hp.
    assert (Hp1 : is_dir p f1 = true).
    { unfold is_dir in *. now rewrite <- Hsame. }
    now apply Hdirs.
  - intros Hp.
    assert (Hp1 : is_dir p f1 = true) by now apply Hdirs.
    unfold is_dir in *. now rewrite Hsame.
Qed.

Lemma persist_cell_effect_witness :
  let st := mkState sample [] sample_files in
  let st' := snd (persist_cell st) in
  persist_cell st = (Ok tt, st') /\
  read_file cleaned_csv (fs st) = Some (mkCsvFile ["viejo"] []) /\
  read_file cleaned_csv (fs st') = Some (to_csv_content false sample) /\
  read_file ["data"; "raw"; "permisos_circulacion_bruto.csv"] (fs st') =
  Some (mkCsvFile ["zona_circulacion"] [[Str "A"]]).
Proof.
  intros st st'.
  assert (h : persist_cell st = (Ok tt, st'))
    by (apply run_pair; reflexivity).
  destruct (persist_cell_effect st st' h) as (_ & Hnew & Hother & _).
  split; [exact h|]. split; [reflexivity|]. split; [exact Hnew|].
  rewrite Hother by discriminate. reflexivity.
Defined.

(* ------------------------------------------------------------------ *)
(** ** What the file holds *)

Lemma lookup_first_position name cols s :
  lookup name cols = Some s ->
  exists k,
    nth_error (map fst cols) k = Some name /\
    nth_error (map snd cols) k = Some s /\
    (forall k', k' < k -> nth_error (map fst cols) k' <> Some name).
Proof.
  induction cols as [|[n s0] t IH]; simpl; [discriminate|].
  destruct (String.eqb_spec n name) as [->|Hn].
  - intros H. exists 0. repeat split; auto. intros k' Hk'. lia.
  - intros H. destruct (IH H) as (k & H1 & H2 & H3).
    exists (S k). repeat split; auto.
    intros [|k'] Hk'; simpl; [congruence|]. apply H3. lia.
Qed.

(** X12: in the file the persistence cell writes for a rectangular table,
    the fields under a column name are the values of that column of [df],
    in row order, at the first position that carries the name; there are as
    many records as rows. *)
Theorem written_file_holds_the_columns st st' :
  rectangular (df st) ->
  persist_cell st = (Ok tt, st') ->
  exists f,
    read_file cleaned_csv (fs st') = Some f /\
    header f = columns (df st) /\
    List.length (records f) = nrows (df st) /\
    forall name s,
      getitem name (df st) = Ok s ->
      exists k,
        nth_error (header f) k = Some name /\
        (forall k', k' < k -> nth_error (header f) k' <> Some name) /\
        map (fun r => nth k r NaN) (records f) = s.
Proof.
  intros Hr H. destruct (persist_cell_Ok _ _ H) as (_ & Hf).
  eexists. split; [exact Hf|]. simpl. split; [reflexivity|].
  split; [now apply values_length|].
  intros name s Hs. apply getitem_Ok in Hs.
  destruct (lookup_first_position _ _ _ Hs) as (k & H1 & H2 & H3).
  exists k. repeat split; auto.
  apply to_rows_column; [now apply rectangular_columns|exact H2].
Qed.

Lemma written_file_holds_the_columns_witness :
  let st := session sample in
  let st' := snd (persist_cell st) in
  rectangular (df st) /\
  persist_cell st = (Ok tt, st') /\
  exists f,
    read_file cleaned_csv (fs st') = Some f /\
    header f = columns (df st) /\
    List.length (records f) = nrows (df st) /\
    forall name s,
      getitem name (df st) = Ok s ->
      exists k,
        nth_error (header f) k = Some name /\
        (forall k', k' < k -> nth_error (header f) k' <> Some name) /\
        map (fun r => nth k r NaN) (records f) = s.
Proof.
  intros st st'.
  assert (h1 : rectangular (df st)) by (repeat constructor).
  assert (h2 : persist_cell st = (Ok tt, st'))
    by (apply run_pair; reflexivity).
  exact (conj h1 (conj h2 (written_file_holds_the_columns st st' h1 h2))).
Defined.

(* ------------------------------------------------------------------ *)
(** ** The inspection cell's report *)

Lemma count_true_map {A} (f : A -> bool) l :
  count_true (map f l) = List.length (filter f l).
Proof.
  unfold count_true. induction l as [|x l IH]; simpl; [reflexivity|].
  destruct (f x); simpl; now rewrite IH.
Qed.

Lemma count_true_le m : count_true m <= List.length m.
Proof. unfold count_true. apply filter_length_le. Qed.

Lemma duplicated_count d :
  rectangular d ->
  count_true (duplicated d) = nrows d - nrows (drop_duplicates d).
Proof.
  intros Hr. rewrite (nrows_drop_duplicates d Hr).
  assert (count_true (duplicated d) <= nrows d).
  { destruct (empty d) eqn:He.
    - unfold duplicated. rewrite He. unfold count_true; simpl. lia.
    - rewrite <- (duplicated_length d Hr He). apply count_true_le. }
  lia.
Qed.

Lemma inspect_cell_inv st st' :
  inspect_cell st = (Ok tt, st') ->
  exists s,
    getitem "duracion_dias" (df st) = Ok s /\ has_text s = false /\
    stdout st' =
    stdout st ++
    inspect_report (df st) (count_true (duplicated (df st)))
                   (nrows (select_rows (map negative s) (df st))).
Proof.
  unfold inspect_cell, df_getitem, get_df, print, lift, bind;
    cbn [df stdout fs].
  destruct (getitem "duracion_dias" (df st)) as [s|e]; [|discriminate].
  destruct (lt s (int 0)) as [mask|e] eqn:Hlt; [|discriminate].
  intros H. injection H as <-. cbn [stdout].
  exists s. split; [reflexivity|].
  pose proof (lt_Ok _ _ _ Hlt) as ->.
  split.
  - unfold lt in Hlt. unfold has_text.
    destruct (existsb is_str s); [discriminate|reflexivity].
  - rewrite <- !app_assoc. reflexivity.
Qed.

Lemma inspect_cell_run st s :
  getitem "duracion_dias" (df st) = Ok s -> has_text s = false ->
  exists st',
    inspect_cell st = (Ok tt, st') /\ df st' = df st /\ fs st' = fs st.
Proof.
  intros Hs Ht.
  unfold inspect_cell, df_getitem, get_df, print, lift, bind;
    cbn [df stdout fs].
  rewrite Hs. unfold has_text in Ht. rewrite (lt_no_text _ _ Ht).
  eexists. repeat split.
Qed.

(** X15: the inspection cell runs to the end exactly when [df] has a
    [duracion_dias] column without text; on a rectangular table it then
    prints the missing values per column, as the number of duplicated rows
    the number of rows that dropping duplicates removes, and as the number
    of invalid records the number of negative durations. *)
Theorem inspect_cell_report st :
  ((exists st', inspect_cell st = (Ok tt, st')) <->
   (exists s, getitem "duracion_dias" (df st) = Ok s /\ has_text s = false)) /\
  (forall st',
     rectangular (df st) ->
     inspect_cell st = (Ok tt, st') ->
     exists s,
       getitem "duracion_dias" (df st) = Ok s /\
       stdout st' =
       stdout st ++
       inspect_report (df st)
         (nrows (df st) - nrows (drop_duplicates (df st)))
         (List.length (filter negative s))).
Proof.
  split; [split|].
  - intros (st' & H). apply inspect_cell_inv in H as (s & Hs & Ht & _). eauto.
  - intros (s & Hs & Ht).
    destruct (inspect_cell_run st s Hs Ht) as (st' & H & _). eauto.
  - intros st' Hr H. apply inspect_cell_inv in H as (s & Hs & Ht & Hout).
    exists s. split; [exact Hs|]. rewrite Hout.
    rewrite (duplicated_count _ Hr).
    rewrite nrows_select_rows, count_true_map; [reflexivity|].
    rewrite length_map. now apply (getitem_rectangular_length _ _ _ Hr Hs).
Qed.

Lemma inspect_cell_report_witness :
  let st := session sample in
  let st' := snd (inspect_cell st) in
  rectangular (df st) /\
  inspect_cell st = (Ok tt, st') /\
  stdout st' = inspect_report sample 1 1.
Proof.
  intros st st'.
  assert (h1 : rectangular (df st)) by (repeat constructor).
  assert (h2 : inspect_cell st = (Ok tt, st'))
    by (apply run_pair; vm_compute; reflexivity).
  split; [exact h1|]. split; [exact h2|].
  destruct (proj2 (inspect_cell_report st) st' h1 h2) as (s & Hs & Hout).
  rewrite Hout.
  change (getitem "duracion_dias" (df st)) with
    (Ok [Num (int 5); Num (int (-3)); NaN; Num (int 7); Num (int 9);
         Num (int 5)]) in Hs.
  injection Hs as <-. reflexivity.
Defined.

(* ------------------------------------------------------------------ *)
(** ** The three cells in a row *)

Lemma run_all_inv st st' :
  run_all st = (Ok tt, st') ->
  exists st1 st2,
    inspect_cell st = (Ok tt, st1) /\
    clean_cell st1 = (Ok tt, st2) /\
    persist_cell st2 = (Ok tt, st') /\
    df st1 = df st /\ fs st2 = fs st.
Proof.
  unfold run_all. intros H.
  apply bind_Ok in H as ([] & st1 & H1 & H).
  apply bind_Ok in H as ([] & st2 & H2 & H3).
  exists st1, st2. repeat split; auto.
  - pose proof (inspect_cell_state st) as [Hd _]. now rewrite H1 in Hd.
  - destruct (clean_cell_Ok _ _ H2) as (t & u & z & m & mz & Hrest).
    destruct Hrest as (_ & _ & _ & _ & _ & _ & _ & Hf).
    pose proof (inspect_cell_state st) as [_ Hf1]. rewrite H1 in Hf1.
    simpl in Hf1. congruence.
Qed.

(** The file of the cleaned table has the header and one line for each row
    of the de-duplicated table. *)
Lemma cleaned_lines st st' :
  rectangular (df st) ->
  clean_cell st = (Ok tt, st') ->
  lines (to_csv_content false (df st')) = S (nrows (drop_duplicates (df st))).
Proof.
  intros Hr H.
  destruct (clean_cell_Ok _ _ H)
    as (t & u & z & m & mz & Ht & _ & Hu & _ & Hz & _ & Hdf & _).
  assert (Hr' : rectangular (df st')).
  { rewrite Hdf. apply cleaned_rectangular; auto.
    now apply rectangular_drop_duplicates. }
  unfold lines, to_csv_content. cbn [records].
  rewrite (values_length _ Hr'), Hdf. unfold nrows.
  now rewrite cleaned_index.
Qed.

(** X13: on a rectangular table the whole notebook, inspection, cleaning
    and persistence, runs to the end exactly when the cleaning cell can
    (the three columns are there, [tipo_vehiculo] holds a text,
    [duracion_dias] holds no text, [zona_circulacion] records a value) and
    the persistence cell can (the directories [data] and [data/processed]
    are there or can be made, the output path can be opened for writing,
    and the device has room for the header and one line for each row that
    is left once the duplicates are dropped). *)
Theorem run_all_completes_iff st :
  rectangular (df st) ->
  ((exists st', run_all st = (Ok tt, st')) <->
   ((exists t u z,
       getitem "tipo_vehiculo" (df st) = Ok t /\ has_text t = true /\
       getitem "duracion_dias" (df st) = Ok u /\ has_text u = false /\
       getitem "zona_circulacion" (df st) = Ok z /\ has_value z = true) /\
    can_mkdir ["data"] (fs st) = true /\
    can_mkdir processed_dir (fs st) = true /\
    can_write cleaned_csv (fs st) = true /\
    has_room (S (nrows (drop_duplicates (df st)))) (fs st) = true)).
Proof.
  intros Hr. split.
  - intros (st' & H).
    apply run_all_inv in H as (st1 & st2 & H1 & H2 & H3 & Hd1 & Hf2).
    assert (Hr1 : rectangular (df st1)) by now rewrite Hd1.
    split.
    + rewrite <- Hd1. now apply (clean_cell_ran st1 st2).
    + assert (Hp : exists st', persist_cell st2 = (Ok tt, st')) by eauto.
      apply (persist_cell_runs_iff st2) in Hp.
      rewrite Hf2, (cleaned_lines _ _ Hr1 H2), Hd1 in Hp. tauto.
  - intros ((t & u & z & Ht & Htt & Hu & Hut & Hz & Hzv) & Ha & Hb & Hc & Hroom).
    destruct (inspect_cell_run st u Hu Hut) as (st1 & H1 & Hd1 & Hf1).
    assert (Hr1 : rectangular (df st1)) by now rewrite Hd1.
    destruct (clean_cell_runs st1 t u z Hr1) as [st2 H2];
      try (rewrite Hd1; assumption); try assumption.
    destruct (clean_cell_Ok _ _ H2)
      as (t' & u' & z' & m & mz & _ & _ & _ & _ & _ & _ & Hdf & Hf2).
    assert (Hp : exists st', persist_cell st2 = (Ok tt, st')).
    { apply (persist_cell_runs_iff st2).
      rewrite Hf2, Hf1, (cleaned_lines _ _ Hr1 H2), Hd1. repeat split; auto.
      eexists. rewrite Hdf. apply cleaned_duracion. }
    destruct Hp as [st' H3]. exists st'.
    unfold run_all.
    rewrite (bind_run _ _ _ _ _ H1), (bind_run _ _ _ _ _ H2). exact H3.
Qed.

Lemma run_all_completes_iff_witness :
  rectangular sample /\
  (exists st', run_all (session sample) = (Ok tt, st')) /\
  ~ (exists st', run_all (mkState sample [] sample_blocked_files) = (Ok tt, st')) /\
  ~ (exists st', run_all (mkState sample [] sample_readonly_files) = (Ok tt, st')) /\
  ~ (exists st', run_all (mkState sample [] sample_full_files) = (Ok tt, st')).
Proof.
  assert (h : rectangular sample) by (repeat constructor).
  split; [exact h|]. split; [|split; [|split]].
  - apply (proj2 (run_all_completes_iff (session sample) h)).
    split; [|repeat split].
    eexists _, _, _. repeat split; reflexivity.
  - intros H.
    apply (proj1 (run_all_completes_iff
                    (mkState sample [] sample_blocked_files) h)) in H.
    destruct H as (_ & Hdir & _). discriminate Hdir.
  - intros H.
    apply (proj1 (run_all_completes_iff
                    (mkState sample [] sample_readonly_files) h)) in H.
    destruct H as (_ & _ & _ & Hw & _). discriminate Hw.
  - intros H.
    apply (proj1 (run_all_completes_iff
                    (mkState sample [] sample_full_files) h)) in H.
    destruct H as (_ & _ & _ & _ & Hroom). vm_compute in Hroom.
    discriminate Hroom.
Defined.

(* ------------------------------------------------------------------ *)
(** ** The missing values the last cell reports *)

Lemma isnull_sum_entry name d s :
  getitem name d = Ok s ->
  In (name, List.length (filter isna s)) (isnull_sum d).
Proof.
  intros H. apply getitem_Ok in H. unfold isnull_sum.
  apply in_map_iff. exists (name, s). split; [reflexivity|].
  revert H. generalize (data d) as cols.
  induction cols as [|[n s0] cols IH]; simpl; [discriminate|].
  destruct (String.eqb_spec n name) as [->|Hn].
  - intros H. injection H as ->. now left.
  - intros H. right. auto.
Qed.

Lemma no_missing_count s :
  Forall (fun c => c <> NaN) s -> List.length (filter isna s) = 0.
Proof.
  induction 1 as [|c l Hc _ IH]; simpl; [reflexivity|].
  destruct c; simpl; congruence.
Qed.

(** X14: when the notebook runs to the end, the missing-value counts that
    the last cell prints are those of the cleaned table; they show 0 for
    [zona_circulacion], and 0 for [duracion_dias] when the de-duplicated
    table records a duration. *)
Theorem final_report_counts st st' :
  run_all st = (Ok tt, st') ->
  In (NullCounts (isnull_sum (df st'))) (stdout st') /\
  In ("zona_circulacion", 0) (isnull_sum (df st')) /\
  (forall u, getitem "duracion_dias" (drop_duplicates (df st)) = Ok u ->
             has_value u = true ->
             In ("duracion_dias", 0) (isnull_sum (df st'))).
Proof.
  intros H.
  apply run_all_inv in H as (st1 & st2 & H1 & H2 & H3 & Hd1 & _).
  apply persist_cell_inv in H3 as (s & f1 & f2 & _ & _ & _ & Hd & _ & Hout).
  destruct Hout as [last Hout].
  destruct (clean_cell_Ok _ _ H2)
    as (t & u & z & m & mz & _ & _ & Hu & Hm & _ & Hmz & Hdf & _).
  rewrite Hd. repeat split.
  - rewrite Hout. apply in_or_app. right. simpl. auto 6.
  - rewrite <- (no_missing_count (fillna mz z)).
    + apply isnull_sum_entry. rewrite Hdf. apply cleaned_zona.
    + apply fillna_notna. now apply mode_first_spec in Hmz.
  - intros u0 Hu0 Hv. rewrite Hd1 in Hu. rewrite Hu in Hu0.
    injection Hu0 as <-.
    rewrite <- (no_missing_count
                  (mask_set (map negative (fillna m u)) m (fillna m u))).
    + apply isnull_sum_entry. rewrite Hdf. apply cleaned_duracion.
    + apply corrected_notna. intros ->.
      apply median_NaN in Hm. apply has_value_In in Hv as (c & Hc & Hn).
      rewrite Forall_forall in Hm. auto.
Qed.

Lemma final_report_counts_witness :
  let st' := snd (run_all (session sample)) in
  run_all (session sample) = (Ok tt, st') /\
  In (NullCounts (isnull_sum (df st'))) (stdout st') /\
  In ("zona_circulacion", 0) (isnull_sum (df st')) /\
  In ("duracion_dias", 0) (isnull_sum (df st')).
Proof.
  intros st'.
  assert (h : run_all (session sample) = (Ok tt, st'))
    by (apply run_pair; vm_compute; reflexivity).
  destruct (final_report_counts _ _ h) as (H1 & H2 & H3).
  split; [exact h|]. split; [exact H1|]. split; [exact H2|].
  apply (H3 sample_durations); reflexivity.
Defined.
